(** * A URL-shortening API: request pipeline, router, controllers and store

    A shallow embedding of the TypeScript sources
    [src/utils.ts], [src/db.ts], [src/middleware/index.ts], [src/routes.ts],
    [src/controllers/auth.controller.ts], [src/controllers/url.controller.ts]
    and [src/index.ts], followed by the properties proved about them.

    Conventions of the embedding:
    - an [async] function that may [throw] is a computation in the monad [M]:
      a function of the world (store, limiter table, random source, clock)
      returning either a value or the message of the thrown error, and the
      world it leaves behind;
    - the request context [ctx], which the middlewares mutate in place, is
      passed on explicitly to the continuation [next];
    - what the JavaScript platform and the two npm packages provide (JSON
      parsing, URL parsing, bcrypt, jsonwebtoken, date formatting, the
      server's time zone, the process environment) is the interface
      [Platform]. *)

From Stdlib Require Import ZArith Ascii String List Lia Bool.
From stdpp Require Import base option list gmap strings sorting pretty.

Import ListNotations.
Set Warnings "-register-all".
Local Open Scope string_scope.
Local Open Scope Z_scope.
Local Open Scope list_scope.

(** ** JavaScript strings *)

Module JsString.

(** [s.split(sep)] for a one-character separator: always at least one
    part, one more part than there are separators. *)
Fixpoint split (sep : ascii) (s : string) : list string :=
  match s with
  | EmptyString => [EmptyString]
  | String c rest =>
      if Ascii.eqb c sep then EmptyString :: split sep rest
      else match split sep rest with
           | [] => [String c EmptyString]
           | part :: parts => String c part :: parts
           end
  end.

(** Whether the character occurs in the string. *)
Fixpoint contains (c : ascii) (s : string) : bool :=
  match s with
  | EmptyString => false
  | String c' rest => Ascii.eqb c' c || contains c rest
  end.

(** JavaScript truthiness of a string: only the empty string is falsy. *)
Definition truthy (s : string) : bool :=
  match s with EmptyString => false | String _ _ => true end.

(** Truthiness of a value that may be [undefined] or [null]. *)
Definition truthy_opt (o : option string) : bool :=
  match o with Some s => truthy s | None => false end.

(** [parts.filter(Boolean)] on an array of strings. *)
Definition filterBoolean (parts : list string) : list string :=
  List.filter truthy parts.

(** [s.startsWith(":")]. *)
Definition startsWithColon (s : string) : bool :=
  match s with String c _ => Ascii.eqb c ":" | EmptyString => false end.

(** [s.slice(1)]. *)
Definition slice1 (s : string) : string :=
  match s with String _ rest => rest | EmptyString => EmptyString end.

(** [s.charAt(i)]: the empty string when [i] is out of range. *)
Definition charAt (s : string) (i : nat) : string :=
  match String.get i s with Some c => String c EmptyString | None => EmptyString end.

(** [a || b] on strings that may be absent. *)
Definition or_else (o : option string) (d : string) : string :=
  match o with Some s => if truthy s then s else d | None => d end.

(** [a || null]. *)
Definition or_null (o : option string) : option string :=
  match o with Some s => if truthy s then Some s else None | None => None end.

Definition lower_ascii (c : ascii) : ascii :=
  let n := nat_of_ascii c in
  if ((65 <=? n) && (n <=? 90))%nat then ascii_of_nat (n + 32) else c.

(** Header names are compared without regard to case. *)
Fixpoint toLowerCase (s : string) : string :=
  match s with
  | EmptyString => EmptyString
  | String c rest => String (lower_ascii c) (toLowerCase rest)
  end.

(** [s.includes(t)]. *)
Fixpoint includes (t s : string) : bool :=
  String.prefix t s ||
  match s with
  | EmptyString => false
  | String _ rest => includes t rest
  end.

End JsString.

(** ** Regular expressions

    The validators of [utils.ts] are regular-expression tests; they are
    embedded as regular expressions and run by derivatives. *)

Module Regex.

Inductive re : Type :=
| Void : re
| Eps : re
| Class (p : ascii -> bool) : re
| Cat (r1 r2 : re) : re
| Alt (r1 r2 : re) : re
| Star (r : re) : re.

Fixpoint nullable (r : re) : bool :=
  match r with
  | Void => false
  | Eps => true
  | Class _ => false
  | Cat r1 r2 => nullable r1 && nullable r2
  | Alt r1 r2 => nullable r1 || nullable r2
  | Star _ => true
  end.

Fixpoint deriv (c : ascii) (r : re) : re :=
  match r with
  | Void => Void
  | Eps => Void
  | Class p => if p c then Eps else Void
  | Cat r1 r2 =>
      if nullable r1 then Alt (Cat (deriv c r1) r2) (deriv c r2)
      else Cat (deriv c r1) r2
  | Alt r1 r2 => Alt (deriv c r1) (deriv c r2)
  | Star r1 => Cat (deriv c r1) (Star r1)
  end.

(** Void-absorbing constructors keep the derivatives small. *)
Definition is_void (r : re) : bool :=
  match r with Void => true | _ => false end.

Fixpoint simp (r : re) : re :=
  match r with
  | Cat r1 r2 =>
      let s1 := simp r1 in
      let s2 := simp r2 in
      if is_void s1 || is_void s2 then Void else Cat s1 s2
  | Alt r1 r2 =>
      let s1 := simp r1 in
      let s2 := simp r2 in
      if is_void s1 then s2 else if is_void s2 then s1 else Alt s1 s2
  | _ => r
  end.

(** [matches r s]: the whole of [s] is in the language of [r]
    (a pattern written [^...$]). *)
Fixpoint matches (r : re) (s : string) : bool :=
  match s with
  | EmptyString => nullable r
  | String c rest => matches (simp (deriv c r)) rest
  end.

Definition any : re := Class (fun _ => true).

(** [test r s] for a pattern without anchors: some substring matches. *)
Definition test (r : re) (s : string) : bool :=
  matches (Cat (Star any) (Cat r (Star any))) s.

Definition plus (r : re) : re := Cat r (Star r).

(** [r{n}] and [r{0,n}]. *)
Fixpoint exactly (n : nat) (r : re) : re :=
  match n with O => Eps | S k => Cat r (exactly k r) end.

Fixpoint upto (n : nat) (r : re) : re :=
  match n with O => Eps | S k => Alt Eps (Cat r (upto k r)) end.

(** [r{lo,hi}]. *)
Definition between (lo hi : nat) (r : re) : re :=
  Cat (exactly lo r) (upto (hi - lo) r).

Definition in_range (lo hi : nat) (c : ascii) : bool :=
  let n := nat_of_ascii c in ((lo <=? n) && (n <=? hi))%nat.

Definition upper (c : ascii) : bool := in_range 65 90 c.
Definition lower (c : ascii) : bool := in_range 97 122 c.
Definition digit (c : ascii) : bool := in_range 48 57 c.

(** [\s] on the code units below 256. *)
Definition space (c : ascii) : bool :=
  let n := nat_of_ascii c in
  (in_range 9 13 c || (n =? 32) || (n =? 160))%nat.

(** [[a-zA-Z0-9_]] *)
Definition word (c : ascii) : bool :=
  upper c || lower c || digit c || Ascii.eqb c "_".

(** [[a-zA-Z0-9_-]] *)
Definition word_or_hyphen (c : ascii) : bool :=
  word c || Ascii.eqb c "-".

(** [[^\s@]] *)
Definition not_space_at (c : ascii) : bool :=
  negb (space c || Ascii.eqb c "@").

End Regex.

(** ** JSON values and HTTP messages *)

Inductive json : Type :=
| JNull : json
| JBool (b : bool) : json
| JNum (n : Z) : json
| JStr (s : string) : json
| JArr (items : list json) : json
| JObj (fields : list (string * json)) : json.

(** A value that may be [null] in the source. *)
Definition json_opt {A : Type} (f : A -> json) (o : option A) : json :=
  match o with Some a => f a | None => JNull end.

Inductive Body : Type :=
| NoBody : Body
| TextBody (text : string) : Body
| JsonBody (value : json) : Body.

Record Response : Type := mkResponse {
  status : Z;
  headers : list (string * string);
  body : Body
}.

(** [headers.set(name, value)]: replaces any header of that name. *)
Definition headers_set (name value : string) (hs : list (string * string)) :
    list (string * string) :=
  List.filter
    (fun h => negb (String.eqb (JsString.toLowerCase (fst h)) (JsString.toLowerCase name))) hs
  ++ [(name, value)].

(** [Response.json(value, { status })]. *)
Definition Response_json (value : json) (st : Z) : Response :=
  mkResponse st [("Content-Type", "application/json")] (JsonBody value).

(** [new Response(JSON.stringify(value), { status, headers })]. *)
Definition Response_stringified (value : json) (st : Z) (hs : list (string * string)) :
    Response :=
  mkResponse st hs (JsonBody value).

(** [new Response(text, { status })]. *)
Definition Response_text (text : string) (st : Z) : Response :=
  mkResponse st [("Content-Type", "text/plain;charset=UTF-8")] (TextBody text).

(** [Response.redirect(url, status)], for a URL the platform accepts (the
    stored ones passed [isValidUrl] when they were created). *)
Definition Response_redirect (url : string) (st : Z) : Response :=
  mkResponse st [("Location", url)] NoBody.

(** The fields a JSON request body may carry, at the shape the API
    documents: each one absent, or a string ([expiresInDays]: an integer). *)
Record Fields : Type := mkFields {
  f_username : option string;
  f_email : option string;
  f_password : option string;
  f_url : option string;
  f_customCode : option string;
  f_expiresInDays : option Z
}.

Definition no_fields : Fields := mkFields None None None None None None.

(** What [req.json()] yields: the literal [null], or an object (a number,
    a string or an array destructures like an object without the fields). *)
Inductive ParsedBody : Type :=
| ParsedNull : ParsedBody
| ParsedObject (fields : Fields) : ParsedBody.

Record Request : Type := mkRequest {
  method : string;
  pathname : string;
  req_headers : gmap string string;   (* keyed by lower-case header name *)
  payload : string
}.

(** [req.headers.get(name)]. *)
Definition headers_get (req : Request) (name : string) : option string :=
  req_headers req !! JsString.toLowerCase name.

Record JwtPayload : Type := mkJwtPayload {
  userId : Z;
  username : string
}.

(** The [Context] of [middleware/index.ts], with the [body] that
    [jsonParser] attaches; [None] is an unset property. *)
Record Context : Type := mkContext {
  req : Request;
  user : option JwtPayload;
  params : option (gmap string string);
  ctx_body : option ParsedBody
}.

Definition set_user (u : JwtPayload) (ctx : Context) : Context :=
  mkContext (req ctx) (Some u) (params ctx) (ctx_body ctx).

Definition set_params (p : gmap string string) (ctx : Context) : Context :=
  mkContext (req ctx) (user ctx) (Some p) (ctx_body ctx).

Definition set_body (b : ParsedBody) (ctx : Context) : Context :=
  mkContext (req ctx) (user ctx) (params ctx) (Some b).

(** [ctx.params?.code]. *)
Definition params_code (ctx : Context) : option string :=
  match params ctx with Some p => p !! "code" | None => None end.

(** ** The platform *)

Class Platform : Type := {
  (** [JSON.parse] of a request payload; [None] when it throws. *)
  JSON_parse : string -> option ParsedBody;
  (** [new URL(s).protocol]; [None] when the constructor throws. *)
  URL_protocol : string -> option string;
  (** [bcrypt.hash(password, 10)] and [bcrypt.compare]. *)
  bcrypt_hash : string -> string;
  bcrypt_compare : string -> string -> bool;
  (** [jwt.sign] and [jwt.verify] with the server secret, at an instant;
      [jwt_verify] is [None] when the package throws. *)
  jwt_sign : Z -> JwtPayload -> string;
  jwt_verify : Z -> string -> option JwtPayload;
  (** [new Date(ms).toISOString()] for a valid time value. *)
  toISOString : Z -> string;
  (** ECMAScript's [LocalTZA(t, isUTC)]: the offset of the server's time
      zone from UTC, in milliseconds, at the instant [t] (when [isUTC]) or
      at the local time [t] (when not). *)
  LocalTZA : Z -> bool -> Z;
  (** The text SQLite stores for [CURRENT_TIMESTAMP], and [DATE(...)] of a
      day number. *)
  sqlite_timestamp : Z -> string;
  sqlite_date : Z -> string;
  (** [process.uptime()] as a JSON number. *)
  process_uptime : Z -> json;
  (** [process.env] and [parseInt] of its values. *)
  env : string -> option string;
  parseInt : string -> Z;
  (** Whether SQLite enforces the foreign keys (the source sets no pragma). *)
  foreign_keys : bool;
  (** The HTML of the documentation page. *)
  docs_html : string
}.

(** ** The store ([db.ts]) *)

Module User.
Record row : Type := mk {
  id : Z;
  username : string;
  email : string;
  password_hash : string;
  created_at : Z
}.
End User.

Module Url.
Record row : Type := mk {
  id : Z;
  short_code : string;
  original_url : string;
  user_id : option Z;
  clicks : Z;
  created_at : Z;
  expires_at : option Z
}.

Definition set_clicks (n : Z) (r : row) : row :=
  mk (id r) (short_code r) (original_url r) (user_id r) n (created_at r) (expires_at r).
End Url.

Module Click.
Record row : Type := mk {
  id : Z;
  url_id : Z;
  user_agent : option string;
  referer : option string;
  ip_address : string;
  clicked_at : Z
}.
End Click.

(** The three tables, in insertion order, with their AUTOINCREMENT
    sequences. Timestamps are instants in milliseconds. *)
Record Db : Type := mkDb {
  users : list User.row;
  users_seq : Z;
  urls : list Url.row;
  urls_seq : Z;
  analytics : list Click.row;
  analytics_seq : Z
}.

Definition empty_db : Db := mkDb [] 0 [] 0 [] 0.

(** ** The world and the monad of request handling *)

Record RateRecord : Type := mkRateRecord {
  count : Z;
  resetAt : Z
}.

(** [Math.random]: the draws still to come. *)
Record Rng : Type := mkRng {
  draws : nat -> nat;
  cursor : nat
}.

Record World : Type := mkWorld {
  db : Db;
  rateLimitStore : gmap string RateRecord;
  rng : Rng;
  clock : Z
}.

Definition set_db (d : Db) (w : World) : World :=
  mkWorld d (rateLimitStore w) (rng w) (clock w).

Definition set_rateLimitStore (s : gmap string RateRecord) (w : World) : World :=
  mkWorld (db w) s (rng w) (clock w).

Definition set_rng (r : Rng) (w : World) : World :=
  mkWorld (db w) (rateLimitStore w) r (clock w).

Definition set_clock (t : Z) (w : World) : World :=
  mkWorld (db w) (rateLimitStore w) (rng w) t.

Inductive Outcome (A : Type) : Type :=
| Returned (a : A) : Outcome A
| Thrown (message : string) : Outcome A.

Arguments Returned {A} a.
Arguments Thrown {A} message.

Definition M (A : Type) : Type := World -> Outcome A * World.

Definition ret {A : Type} (a : A) : M A := fun w => (Returned a, w).

Definition throw {A : Type} (message : string) : M A := fun w => (Thrown message, w).

Definition bind {A B : Type} (m : M A) (k : A -> M B) : M B :=
  fun w =>
    match m w with
    | (Returned a, w') => k a w'
    | (Thrown e, w') => (Thrown e, w')
    end.

(** [try { m } catch (error) { h(error.message) }]: what [m] did to the
    world before it threw stays done. *)
Definition try_catch {A : Type} (m : M A) (h : string -> M A) : M A :=
  fun w =>
    match m w with
    | (Returned a, w') => (Returned a, w')
    | (Thrown e, w') => h e w'
    end.

Definition gets {A : Type} (f : World -> A) : M A := fun w => (Returned (f w), w).

Definition modify (f : World -> World) : M unit := fun w => (Returned tt, f w).

Declare Scope js_scope.
Delimit Scope js_scope with js.
Notation "'let*' x ':=' m 'in' k" := (bind m (fun x => k))
  (at level 10, x name, m at level 100, k at level 200) : js_scope.
Notation "'do*' m 'in' k" := (bind m (fun _ => k))
  (at level 10, m at level 100, k at level 200) : js_scope.
Local Open Scope js_scope.

(** [Date.now()]. *)
Definition Date_now : M Z := gets clock.

(** [Math.floor(Math.random() * n)]. *)
Definition Math_random_below (n : nat) : M nat :=
  fun w =>
    let r := rng w in
    (Returned (draws r (cursor r) mod n)%nat,
     set_rng (mkRng (draws r) (S (cursor r))) w).

(** ** [utils.ts] *)

Module AuthService.

Definition hashPassword `{Platform} (password : string) : M string :=
  ret (bcrypt_hash password).

Definition verifyPassword `{Platform} (password hash : string) : M bool :=
  ret (bcrypt_compare password hash).

Definition generateToken `{Platform} (payload : JwtPayload) : M string :=
  let* now := Date_now in
  ret (jwt_sign now payload).

(** The [catch] of the source is the [None] of [jwt_verify]. *)
Definition verifyToken `{Platform} (token : string) : M (option JwtPayload) :=
  let* now := Date_now in
  ret (jwt_verify now token).

Definition extractTokenFromHeader (authHeader : option string) : option string :=
  match authHeader with
  | None => None
  | Some header =>
      if negb (JsString.truthy header) then None
      else
        match JsString.split " " header with
        | [scheme; token] => if String.eqb scheme "Bearer" then Some token else None
        | _ => None
        end
  end.

End AuthService.

Module Validator.

(** [/^[^\s@]+@[^\s@]+\.[^\s@]+$/] *)
Definition emailRegex : Regex.re :=
  Regex.Cat (Regex.plus (Regex.Class Regex.not_space_at))
    (Regex.Cat (Regex.Class (Ascii.eqb "@"))
       (Regex.Cat (Regex.plus (Regex.Class Regex.not_space_at))
          (Regex.Cat (Regex.Class (Ascii.eqb "."))
             (Regex.plus (Regex.Class Regex.not_space_at))))).

Definition isValidEmail (email : string) : bool :=
  Regex.matches emailRegex email.

Definition isValidPassword (password : string) : bool :=
  (8 <=? String.length password)%nat
  && Regex.test (Regex.Class Regex.upper) password
  && Regex.test (Regex.Class Regex.lower) password
  && Regex.test (Regex.Class Regex.digit) password.

Definition isValidUrl `{Platform} (url : string) : bool :=
  match URL_protocol url with
  | Some protocol => String.eqb protocol "http:" || String.eqb protocol "https:"
  | None => false
  end.

(** [/^[a-zA-Z0-9_]{3,20}$/] *)
Definition isValidUsername (username : string) : bool :=
  Regex.matches (Regex.between 3 20 (Regex.Class Regex.word)) username.

End Validator.

Definition characters : string :=
  "abcdefghijklmnopqrstuvwxyzABCDEFGHIJKLMNOPQRSTUVWXYZ0123456789".

(** The [for] loop of [generateShortCode], [remaining] iterations to go. *)
Fixpoint generateShortCode_loop (remaining : nat) (result : string) : M string :=
  match remaining with
  | O => ret result
  | S k =>
      let* i := Math_random_below (String.length characters) in
      generateShortCode_loop k (result +:+ JsString.charAt characters i)
  end.

Definition generateShortCode (length : nat) : M string :=
  generateShortCode_loop length "".

(** The default [length = 6]. *)
Definition generateShortCode_default : M string := generateShortCode 6.

Arguments generateShortCode_default : simpl never.

Definition successResponse (data : json) (message : string) : json :=
  JObj [("success", JBool true); ("message", JStr message); ("data", data)].

Definition errorResponse_with (message : string) (statusCode : Z) : json :=
  JObj [("success", JBool false); ("error", JStr message); ("statusCode", JNum statusCode)].

(** Every caller leaves [statusCode] at its default, 400. *)
Definition errorResponse (message : string) : json := errorResponse_with message 400.

(** ** The prepared statements of [db.ts] *)

Module queries.

Definition next_id (seq : Z) : Z := seq + 1.

(** [INSERT INTO users (username, email, password_hash)]; both columns
    are UNIQUE. Returns [lastInsertRowid]. *)
Definition createUser (username email password_hash : string) : M Z :=
  fun w =>
    let d := db w in
    if existsb (fun r => String.eqb (User.username r) username) (users d) then
      (Thrown "UNIQUE constraint failed: users.username", w)
    else if existsb (fun r => String.eqb (User.email r) email) (users d) then
      (Thrown "UNIQUE constraint failed: users.email", w)
    else
      let id := next_id (users_seq d) in
      (Returned id,
       set_db (mkDb (users d ++ [User.mk id username email password_hash (clock w)]) id
                    (urls d) (urls_seq d) (analytics d) (analytics_seq d)) w).

Definition findUserByUsername (username : string) : M (option User.row) :=
  gets (fun w => List.find (fun r => String.eqb (User.username r) username) (users (db w))).

Definition findUserByEmail (email : string) : M (option User.row) :=
  gets (fun w => List.find (fun r => String.eqb (User.email r) email) (users (db w))).

Definition findUserById (id : Z) : M (option User.row) :=
  gets (fun w => List.find (fun r => Z.eqb (User.id r) id) (users (db w))).

Definition user_exists (id : Z) (d : Db) : bool :=
  existsb (fun r => Z.eqb (User.id r) id) (users d).

Definition url_exists (id : Z) (d : Db) : bool :=
  existsb (fun r => Z.eqb (Url.id r) id) (urls d).

(** [INSERT INTO urls (short_code, original_url, user_id, expires_at)];
    [short_code] is UNIQUE, [user_id] references [users]. *)
Definition createUrl `{Platform} (short_code original_url : string)
    (user_id : option Z) (expires_at : option Z) : M Z :=
  fun w =>
    let d := db w in
    if existsb (fun r => String.eqb (Url.short_code r) short_code) (urls d) then
      (Thrown "UNIQUE constraint failed: urls.short_code", w)
    else if foreign_keys
              && match user_id with Some u => negb (user_exists u d) | None => false end then
      (Thrown "FOREIGN KEY constraint failed", w)
    else
      let id := next_id (urls_seq d) in
      (Returned id,
       set_db (mkDb (users d) (users_seq d)
                    (urls d ++ [Url.mk id short_code original_url user_id 0 (clock w) expires_at])
                    id (analytics d) (analytics_seq d)) w).

(** The row [SELECT * FROM urls WHERE short_code = ?] yields. *)
Definition find_code (short_code : string) (d : Db) : option Url.row :=
  List.find (fun r => String.eqb (Url.short_code r) short_code) (urls d).

Definition findUrlByShortCode (short_code : string) : M (option Url.row) :=
  gets (fun w => find_code short_code (db w)).

(** [UPDATE urls SET clicks = clicks + 1 WHERE id = ?] *)
Definition incrementClicks (id : Z) : M unit :=
  modify (fun w =>
    let d := db w in
    set_db (mkDb (users d) (users_seq d)
                 (List.map (fun r => if Z.eqb (Url.id r) id
                                     then Url.set_clicks (Url.clicks r + 1) r else r) (urls d))
                 (urls_seq d) (analytics d) (analytics_seq d)) w).

(** Newest first, by the second of creation; rows of one second keep
    their insertion order. *)
Definition newer_or_same (r1 r2 : Url.row) : Prop :=
  Url.created_at r2 / 1000 <= Url.created_at r1 / 1000.

#[global] Instance newer_or_same_dec r1 r2 : Decision (newer_or_same r1 r2).
Proof. unfold newer_or_same. apply _. Defined.

Definition owned_by (user_id : Z) (r : Url.row) : bool :=
  match Url.user_id r with Some u => Z.eqb u user_id | None => false end.

(** [SELECT ... FROM urls WHERE user_id = ? ORDER BY created_at DESC] *)
Definition getUserUrls (user_id : Z) : M (list Url.row) :=
  gets (fun w => merge_sort newer_or_same (List.filter (owned_by user_id) (urls (db w)))).

(** The rows [DELETE FROM urls WHERE short_code = ? AND user_id = ?]
    selects: a NULL [user_id] equals no value. *)
Definition delete_selects (short_code : string) (user_id : Z) (r : Url.row) : bool :=
  String.eqb (Url.short_code r) short_code && owned_by user_id r.

(** Returns [changes]; with foreign keys enforced the click rows of a
    deleted URL go with it. *)
Definition deleteUrl `{Platform} (short_code : string) (user_id : Z) : M Z :=
  fun w =>
    let d := db w in
    let gone := List.filter (delete_selects short_code user_id) (urls d) in
    let kept := List.filter (fun r => negb (delete_selects short_code user_id r)) (urls d) in
    let clicks' :=
      if foreign_keys
      then List.filter
             (fun c => negb (existsb (fun r => Z.eqb (Url.id r) (Click.url_id c)) gone))
             (analytics d)
      else analytics d in
    (Returned (Z.of_nat (List.length gone)),
     set_db (mkDb (users d) (users_seq d) kept (urls_seq d) clicks' (analytics_seq d)) w).

(** [INSERT INTO analytics (url_id, user_agent, referer, ip_address)] *)
Definition logClick `{Platform} (url_id : Z) (user_agent referer : option string)
    (ip_address : string) : M Z :=
  fun w =>
    let d := db w in
    if foreign_keys && negb (url_exists url_id d) then
      (Thrown "FOREIGN KEY constraint failed", w)
    else
      let id := next_id (analytics_seq d) in
      (Returned id,
       set_db (mkDb (users d) (users_seq d) (urls d) (urls_seq d)
                    (analytics d ++ [Click.mk id url_id user_agent referer ip_address (clock w)])
                    id) w).

Definition day_of (instant : Z) : Z := instant / 86400000.

(** [SELECT DATE(clicked_at), COUNT( * ) ... GROUP BY DATE(clicked_at)
    ORDER BY date DESC LIMIT 30]: day numbers with their counts. *)
Definition getUrlAnalytics (url_id : Z) : M (list (Z * Z)) :=
  gets (fun w =>
    let days :=
      List.map (fun c => day_of (Click.clicked_at c))
        (List.filter (fun c => Z.eqb (Click.url_id c) url_id) (analytics (db w))) in
    let buckets := take 30 (merge_sort Z.ge (remove_dups days)) in
    List.map (fun day => (day, Z.of_nat (List.length (List.filter (Z.eqb day) days)))) buckets).

End queries.

(** [new Date(ms).toISOString()]: a RangeError outside the range of time
    values. *)
Definition max_time_value : Z := 8640000000000000.

Definition Date_toISOString `{Platform} (ms : Z) : M string :=
  if Z.abs ms <=? max_time_value then ret (toISOString ms)
  else throw "Invalid time value".

(** ECMAScript's [msPerDay], [LocalTime(t)] and [UTC(t)]. *)
Definition msPerDay : Z := 86400000.

Definition Date_LocalTime `{Platform} (t : Z) : Z := t + LocalTZA t true.

Definition Date_UTC `{Platform} (t : Z) : Z := t - LocalTZA t false.

(** [date.setDate(date.getDate() + days)] on a date of time value [t], as
    ECMAScript defines [setDate]: the local time of [t] is taken, [MakeDay]
    moves its day by [days] ([msPerDay] each) and [MakeDate] keeps its
    time within the day, and [UTC] takes the result back. This is calendar
    arithmetic in the server's time zone: where the zone's offset differs
    between the two dates the result is not [t + days * msPerDay]. The
    [TimeClip] that ends [setDate] makes the date invalid outside the
    range of time values, which [Date_toISOString] then refuses. *)
Definition Date_setDate_plus `{Platform} (t days : Z) : Z :=
  Date_UTC (Date_LocalTime t + days * msPerDay).

(** ** [middleware/index.ts] *)

Definition Handler : Type := Context -> M Response.

(** [next] receives the context as the middleware leaves it. *)
Definition Middleware : Type := Context -> (Context -> M Response) -> M Response.

(** What goes to the console is not part of the model. *)
Definition logger : Middleware :=
  fun ctx next =>
    let* start := Date_now in
    let* response := next ctx in
    let* finish := Date_now in
    ret response.

Definition cors_methods : string := "GET, POST, PUT, DELETE, OPTIONS".
Definition cors_headers : string := "Content-Type, Authorization".

Definition cors `{Platform} : Middleware :=
  fun ctx next =>
    let origin := JsString.or_else (env "CORS_ORIGIN") "*" in
    if String.eqb (method (req ctx)) "OPTIONS" then
      ret (mkResponse 204
             [("Access-Control-Allow-Origin", origin);
              ("Access-Control-Allow-Methods", cors_methods);
              ("Access-Control-Allow-Headers", cors_headers);
              ("Access-Control-Max-Age", "86400")]
             NoBody)
    else
      let* response := next ctx in
      let hs :=
        headers_set "Access-Control-Allow-Headers" cors_headers
          (headers_set "Access-Control-Allow-Methods" cors_methods
             (headers_set "Access-Control-Allow-Origin" origin (headers response))) in
      ret (mkResponse (status response) hs (body response)).

Definition json_headers : list (string * string) := [("Content-Type", "application/json")].

(** [{ success: false, error }], written out by the middlewares. *)
Definition failure (message : string) : json :=
  JObj [("success", JBool false); ("error", JStr message)].

Definition authenticate `{Platform} : Middleware :=
  fun ctx next =>
    let authHeader := headers_get (req ctx) "Authorization" in
    match AuthService.extractTokenFromHeader authHeader with
    | None => ret (Response_stringified (failure "No token provided") 401 json_headers)
    | Some token =>
        if negb (JsString.truthy token) then
          ret (Response_stringified (failure "No token provided") 401 json_headers)
        else
          let* payload := AuthService.verifyToken token in
          match payload with
          | None =>
              ret (Response_stringified (failure "Invalid or expired token") 401 json_headers)
          | Some p => next (set_user (mkJwtPayload (userId p) (username p)) ctx)
          end
    end.

(** The client key of the limiter. *)
Definition client_ip (r : Request) : string :=
  JsString.or_else (headers_get r "x-forwarded-for") "unknown".

Definition too_many_requests `{Platform} (maxRequests : Z) (record : RateRecord) : M Response :=
  let* reset := Date_toISOString (resetAt record) in
  ret (Response_stringified (failure "Too many requests. Please try again later.") 429
         [("Content-Type", "application/json");
          ("X-RateLimit-Limit", pretty maxRequests);
          ("X-RateLimit-Remaining", "0");
          ("X-RateLimit-Reset", reset)]).

Definition rateLimit `{Platform} (maxRequests windowMs : Z) : Middleware :=
  fun ctx next =>
    let ip := client_ip (req ctx) in
    let* now := Date_now in
    let* record := gets (fun w => rateLimitStore w !! ip) in
    match record with
    | Some rec =>
        if now <? resetAt rec then
          if maxRequests <=? count rec then too_many_requests maxRequests rec
          else
            do* modify (fun w =>
                  set_rateLimitStore
                    (<[ip := mkRateRecord (count rec + 1) (resetAt rec)]> (rateLimitStore w)) w) in
            next ctx
        else
          do* modify (fun w =>
                set_rateLimitStore
                  (<[ip := mkRateRecord 1 (now + windowMs)]> (rateLimitStore w)) w) in
          next ctx
    | None =>
        do* modify (fun w =>
              set_rateLimitStore
                (<[ip := mkRateRecord 1 (now + windowMs)]> (rateLimitStore w)) w) in
        next ctx
    end.

Definition errorHandler : Middleware :=
  fun ctx next =>
    try_catch (next ctx)
      (fun message => ret (Response_stringified (failure message) 500 json_headers)).

Definition contentType_is_json (r : Request) : bool :=
  match headers_get r "Content-Type" with
  | Some contentType => JsString.includes "application/json" contentType
  | None => false
  end.

Definition jsonParser `{Platform} : Middleware :=
  fun ctx next =>
    if negb (String.eqb (method (req ctx)) "GET")
       && negb (String.eqb (method (req ctx)) "DELETE")
       && contentType_is_json (req ctx)
    then
      match JSON_parse (payload (req ctx)) with
      | Some parsed => next (set_body parsed ctx)
      | None => ret (Response_stringified (failure "Invalid JSON body") 400 json_headers)
      end
    else next ctx.

(** [compose(...middlewares)]: the first listed is the outermost. No
    middleware of this program calls [next] twice, so the guard of
    [dispatch] against that never fires. *)
Fixpoint compose (middlewares : list Middleware) : Middleware :=
  fun ctx next =>
    match middlewares with
    | [] => next ctx
    | middleware :: rest => middleware ctx (fun ctx' => compose rest ctx' next)
    end.

(** ** The router of [routes.ts] *)

Record Route : Type := mkRoute {
  route_method : string;
  route_path : string;
  route_handler : Handler;
  route_middlewares : list Middleware
}.

Module Router.

Definition segments (path : string) : list string :=
  JsString.filterBoolean (JsString.split "/" path).

(** The [for] loop of [matchPath] over the two arrays of equal length. *)
Fixpoint matchParts (patternParts pathParts : list string)
    (params : gmap string string) : option (gmap string string) :=
  match patternParts, pathParts with
  | [], _ => Some params
  | patternPart :: patternRest, pathPart :: pathRest =>
      if JsString.startsWithColon patternPart then
        matchParts patternRest pathRest (<[JsString.slice1 patternPart := pathPart]> params)
      else if String.eqb patternPart pathPart then
        matchParts patternRest pathRest params
      else None
  | _ :: _, [] => None
  end.

Definition matchPath (pattern pathname : string) : option (gmap string string) :=
  let patternParts := segments pattern in
  let pathParts := segments pathname in
  if negb (Nat.eqb (List.length patternParts) (List.length pathParts)) then None
  else matchParts patternParts pathParts ∅.

Fixpoint match_ (routes : list Route) (method pathname : string) :
    option (Route * gmap string string) :=
  match routes with
  | [] => None
  | route :: rest =>
      if negb (String.eqb (route_method route) method) then match_ rest method pathname
      else
        match matchPath (route_path route) pathname with
        | Some params => Some (route, params)
        | None => match_ rest method pathname
        end
  end.

Definition handle (routes : list Route) : Handler :=
  fun ctx =>
    match match_ routes (method (req ctx)) (pathname (req ctx)) with
    | None => ret (Response_json (failure "Route not found") 404)
    | Some (route, params) =>
        let ctx' := set_params params ctx in
        match route_middlewares route with
        | [] => route_handler route ctx'
        | middlewares => compose middlewares ctx' (route_handler route)
        end
    end.

End Router.

(** ** The controllers *)

(** [const { ... } = body]: a TypeError when [body] is [undefined] or
    [null] (the text of the message is the engine's). *)
Definition destructure (ctx : Context) : M Fields :=
  match ctx_body ctx with
  | Some (ParsedObject fields) => ret fields
  | Some ParsedNull => throw "Right side of assignment cannot be destructured"
  | None => throw "Right side of assignment cannot be destructured"
  end.

(** A field that passed its truthiness check. *)
Definition the (o : option string) : string :=
  match o with Some s => s | None => "" end.

Definition base_url `{Platform} : string :=
  JsString.or_else (env "BASE_URL") "http://localhost:3000".

Module AuthController.

Definition user_json (id : Z) (username email : string) : json :=
  JObj [("id", JNum id); ("username", JStr username); ("email", JStr email)].

Definition register `{Platform} : Handler :=
  fun ctx =>
    let* fields := destructure ctx in
    if negb (JsString.truthy_opt (f_username fields))
       || negb (JsString.truthy_opt (f_email fields))
       || negb (JsString.truthy_opt (f_password fields))
    then ret (Response_json (errorResponse "All fields are required") 400)
    else
      let username := the (f_username fields) in
      let email := the (f_email fields) in
      let password := the (f_password fields) in
      if negb (Validator.isValidUsername username) then
        ret (Response_json
               (errorResponse
                  "Username must be 3-20 characters, alphanumeric and underscores only") 400)
      else if negb (Validator.isValidEmail email) then
        ret (Response_json (errorResponse "Invalid email format") 400)
      else if negb (Validator.isValidPassword password) then
        ret (Response_json
               (errorResponse
                  "Password must be at least 8 characters with uppercase, lowercase, and number")
               400)
      else
        try_catch
          (let* existingUser := queries.findUserByUsername username in
           match existingUser with
           | Some _ => ret (Response_json (errorResponse "Username already exists") 409)
           | None =>
               let* existingEmail := queries.findUserByEmail email in
               match existingEmail with
               | Some _ => ret (Response_json (errorResponse "Email already exists") 409)
               | None =>
                   let* passwordHash := AuthService.hashPassword password in
                   let* userId := queries.createUser username email passwordHash in
                   let* token := AuthService.generateToken (mkJwtPayload userId username) in
                   ret (Response_json
                          (successResponse
                             (JObj [("user", user_json userId username email);
                                    ("token", JStr token)])
                             "User registered successfully")
                          201)
               end
           end)
          (fun _ => ret (Response_json (errorResponse "Failed to register user") 500)).

Definition login `{Platform} : Handler :=
  fun ctx =>
    let* fields := destructure ctx in
    if negb (JsString.truthy_opt (f_username fields))
       || negb (JsString.truthy_opt (f_password fields))
    then ret (Response_json (errorResponse "Username and password are required") 400)
    else
      let username := the (f_username fields) in
      let password := the (f_password fields) in
      try_catch
        (let* found := queries.findUserByUsername username in
         match found with
         | None => ret (Response_json (errorResponse "Invalid credentials") 401)
         | Some user =>
             let* isValid := AuthService.verifyPassword password (User.password_hash user) in
             if negb isValid then
               ret (Response_json (errorResponse "Invalid credentials") 401)
             else
               let* token :=
                 AuthService.generateToken (mkJwtPayload (User.id user) (User.username user)) in
               ret (Response_json
                      (successResponse
                         (JObj [("user", user_json (User.id user) (User.username user)
                                           (User.email user));
                                ("token", JStr token)])
                         "Login successful")
                      200)
         end)
        (fun _ => ret (Response_json (errorResponse "Failed to login") 500)).

Definition getProfile `{Platform} : Handler :=
  fun ctx =>
    match user ctx with
    | None => ret (Response_json (errorResponse "Unauthorized") 401)
    | Some caller =>
        try_catch
          (let* found := queries.findUserById (userId caller) in
           match found with
           | None => ret (Response_json (errorResponse "User not found") 404)
           | Some u =>
               ret (Response_json
                      (successResponse
                         (JObj [("id", JNum (User.id u));
                                ("username", JStr (User.username u));
                                ("email", JStr (User.email u));
                                ("created_at", JStr (sqlite_timestamp (User.created_at u)))])
                         "Success")
                      200)
           end)
          (fun _ => ret (Response_json (errorResponse "Failed to get profile") 500))
    end.

End AuthController.

Module UrlController.

(** [/^[a-zA-Z0-9_-]{3,20}$/] *)
Definition customCodeRegex : Regex.re :=
  Regex.between 3 20 (Regex.Class Regex.word_or_hyphen).

(** The [while (attempts < 10)] loop; [remaining] is [10 - attempts].
    Returns [attempts] and [shortCode] as the loop leaves them. *)
Fixpoint ensureUnique (remaining : nat) (attempts : Z) (shortCode : string) :
    M (Z * string) :=
  match remaining with
  | O => ret (attempts, shortCode)
  | S k =>
      let* existing := queries.findUrlByShortCode shortCode in
      match existing with
      | None => ret (attempts, shortCode)
      | Some _ =>
          let* fresh := generateShortCode_default in
          ensureUnique k (attempts + 1) fresh
      end
  end.

(** [expirationDate.setDate(expirationDate.getDate() + expiresInDays)]
    then [toISOString()]. Returns the instant and its text. *)
Definition expiration `{Platform} (expiresInDays : option Z) : M (option (Z * string)) :=
  match expiresInDays with
  | Some days =>
      if 0 <? days then
        let* now := Date_now in
        let instant := Date_setDate_plus now days in
        let* text := Date_toISOString instant in
        ret (Some (instant, text))
      else ret None
  | None => ret None
  end.

(** [ctx.user?.userId || null] *)
Definition owner_of (ctx : Context) : option Z :=
  match user ctx with
  | Some u => if userId u =? 0 then None else Some (userId u)
  | None => None
  end.

Definition created `{Platform} (shortCode url : string) (expiresAt : option (Z * string)) :
    Response :=
  Response_json
    (successResponse
       (JObj [("shortCode", JStr shortCode);
              ("shortUrl", JStr (base_url +:+ "/" +:+ shortCode));
              ("originalUrl", JStr url);
              ("expiresAt", json_opt (fun e => JStr (snd e)) expiresAt)])
       "URL shortened successfully")
    201.

(** The part of [createShortUrl] after the short code is settled. *)
Definition store_url `{Platform} (ctx : Context) (shortCode url : string)
    (expiresInDays : option Z) : M Response :=
  let* expiresAt := expiration expiresInDays in
  let userId := owner_of ctx in
  let* result := queries.createUrl shortCode url userId (option_map fst expiresAt) in
  ret (created shortCode url expiresAt).

Definition createShortUrl `{Platform} : Handler :=
  fun ctx =>
    let* fields := destructure ctx in
    if negb (JsString.truthy_opt (f_url fields)) then
      ret (Response_json (errorResponse "URL is required") 400)
    else
      let url := the (f_url fields) in
      if negb (Validator.isValidUrl url) then
        ret (Response_json (errorResponse "Invalid URL format") 400)
      else
        try_catch
          (if JsString.truthy_opt (f_customCode fields) then
             let customCode := the (f_customCode fields) in
             if negb (Regex.matches customCodeRegex customCode) then
               ret (Response_json
                      (errorResponse
                         "Custom code must be 3-20 characters, alphanumeric, hyphens, and underscores only")
                      400)
             else
               let* existing := queries.findUrlByShortCode customCode in
               match existing with
               | Some _ => ret (Response_json (errorResponse "Custom code already exists") 409)
               | None => store_url ctx customCode url (f_expiresInDays fields)
               end
           else
             let* first := generateShortCode_default in
             let* settled := ensureUnique 10 0 first in
             if fst settled =? 10 then
               ret (Response_json (errorResponse "Failed to generate unique code") 500)
             else store_url ctx (snd settled) url (f_expiresInDays fields))
          (fun _ => ret (Response_json (errorResponse "Failed to create short URL") 500)).

Definition redirect `{Platform} : Handler :=
  fun ctx =>
    if negb (JsString.truthy_opt (params_code ctx)) then
      ret (Response_json (errorResponse "Short code is required") 400)
    else
      let shortCode := the (params_code ctx) in
      try_catch
        (let* urlRecord := queries.findUrlByShortCode shortCode in
         match urlRecord with
         | None => ret (Response_text "URL not found" 404)
         | Some record =>
             let* now := Date_now in
             if match Url.expires_at record with
                | Some expirationDate => expirationDate <? now
                | None => false
                end
             then ret (Response_text "URL has expired" 410)
             else
               let userAgent := JsString.or_null (headers_get (req ctx) "User-Agent") in
               let referer := JsString.or_null (headers_get (req ctx) "Referer") in
               let ip := JsString.or_else (headers_get (req ctx) "x-forwarded-for") "unknown" in
               do* queries.logClick (Url.id record) userAgent referer ip in
               do* queries.incrementClicks (Url.id record) in
               ret (Response_redirect (Url.original_url record) 302)
         end)
        (fun _ => ret (Response_json (errorResponse "Failed to redirect") 500)).

Definition url_json `{Platform} (r : Url.row) : json :=
  JObj [("id", JNum (Url.id r));
        ("shortCode", JStr (Url.short_code r));
        ("shortUrl", JStr (base_url +:+ "/" +:+ Url.short_code r));
        ("originalUrl", JStr (Url.original_url r));
        ("clicks", JNum (Url.clicks r));
        ("createdAt", JStr (sqlite_timestamp (Url.created_at r)));
        ("expiresAt", json_opt (fun t => JStr (toISOString t)) (Url.expires_at r))].

Definition getUserUrls `{Platform} : Handler :=
  fun ctx =>
    match user ctx with
    | None => ret (Response_json (errorResponse "Unauthorized") 401)
    | Some caller =>
        try_catch
          (let* rows := queries.getUserUrls (userId caller) in
           ret (Response_json (successResponse (JArr (List.map url_json rows)) "Success") 200))
          (fun _ => ret (Response_json (errorResponse "Failed to get URLs") 500))
    end.

Definition bucket_json `{Platform} (b : Z * Z) : json :=
  JObj [("date", JStr (sqlite_date (fst b))); ("clicks", JNum (snd b))].

Definition getAnalytics `{Platform} : Handler :=
  fun ctx =>
    match user ctx with
    | None => ret (Response_json (errorResponse "Unauthorized") 401)
    | Some caller =>
        if negb (JsString.truthy_opt (params_code ctx)) then
          ret (Response_json (errorResponse "Short code is required") 400)
        else
          let shortCode := the (params_code ctx) in
          try_catch
            (let* urlRecord := queries.findUrlByShortCode shortCode in
             match urlRecord with
             | None => ret (Response_json (errorResponse "URL not found") 404)
             | Some record =>
                 if negb (bool_decide (Url.user_id record = Some (userId caller))) then
                   ret (Response_json (errorResponse "Unauthorized") 403)
                 else
                   let* buckets := queries.getUrlAnalytics (Url.id record) in
                   ret (Response_json
                          (successResponse
                             (JObj [("shortCode", JStr shortCode);
                                    ("totalClicks", JNum (Url.clicks record));
                                    ("clicksByDay", JArr (List.map bucket_json buckets))])
                             "Success")
                          200)
             end)
            (fun _ => ret (Response_json (errorResponse "Failed to get analytics") 500))
    end.

Definition deleteUrl `{Platform} : Handler :=
  fun ctx =>
    match user ctx with
    | None => ret (Response_json (errorResponse "Unauthorized") 401)
    | Some caller =>
        if negb (JsString.truthy_opt (params_code ctx)) then
          ret (Response_json (errorResponse "Short code is required") 400)
        else
          let shortCode := the (params_code ctx) in
          try_catch
            (let* changes := queries.deleteUrl shortCode (userId caller) in
             if changes =? 0 then
               ret (Response_json (errorResponse "URL not found or unauthorized") 404)
             else
               ret (Response_json (successResponse JNull "URL deleted successfully") 200))
            (fun _ => ret (Response_json (errorResponse "Failed to delete URL") 500))
    end.

End UrlController.

(** ** The route table of [routes.ts] and the server of [index.ts] *)

Definition health `{Platform} : Handler :=
  fun _ =>
    let* now := Date_now in
    let* timestamp := Date_toISOString now in
    ret (Response_json
           (JObj [("status", JStr "ok"); ("timestamp", JStr timestamp);
                  ("uptime", process_uptime now)])
           200).

Definition documentation `{Platform} : Handler :=
  fun _ => ret (mkResponse 200 [("Content-Type", "text/html")] (TextBody docs_html)).

(** In registration order; the redirect route comes after the API routes. *)
Definition routes `{Platform} : list Route :=
  [ mkRoute "GET" "/health" health [];
    mkRoute "POST" "/api/auth/register" AuthController.register [jsonParser];
    mkRoute "POST" "/api/auth/login" AuthController.login [jsonParser];
    mkRoute "GET" "/api/auth/profile" AuthController.getProfile [authenticate];
    mkRoute "POST" "/api/urls" UrlController.createShortUrl [jsonParser];
    mkRoute "GET" "/api/urls" UrlController.getUserUrls [authenticate];
    mkRoute "GET" "/api/urls/:code/analytics" UrlController.getAnalytics [authenticate];
    mkRoute "DELETE" "/api/urls/:code" UrlController.deleteUrl [authenticate];
    mkRoute "GET" "/:code" UrlController.redirect [];
    mkRoute "GET" "/" documentation [] ].

Definition router `{Platform} : Handler := Router.handle routes.

Definition globalMiddlewares `{Platform} : Middleware :=
  compose
    [ errorHandler;
      logger;
      cors;
      rateLimit (parseInt (JsString.or_else (env "API_RATE_LIMIT") "100"))
                (parseInt (JsString.or_else (env "RATE_LIMIT_WINDOW") "900000")) ].

(** The [fetch] of [Bun.serve]: a fresh context per request. *)
Definition fetch `{Platform} (request : Request) : M Response :=
  globalMiddlewares (mkContext request None None None) router.

(** * Vocabulary of the properties *)

(** ** Route matching, as the design states it *)

(** A pattern segment matches a path segment when it is a parameter
    (it starts with a colon) or is the same literal. *)
Definition segment_matches (patternPart pathPart : string) : Prop :=
  JsString.startsWithColon patternPart = true \/ patternPart = pathPart.

(** Equal segment counts, and every segment matches. *)
Definition pattern_matches (pattern pathname : string) : Prop :=
  List.length (Router.segments pattern) = List.length (Router.segments pathname)
  /\ Forall2 segment_matches (Router.segments pattern) (Router.segments pathname).

Definition route_matches (method pathname : string) (route : Route) : Prop :=
  route_method route = method /\ pattern_matches (route_path route) pathname.


(** ** Stored URLs *)

(** The UNIQUE constraint on [urls.short_code]. *)
Definition codes_unique (d : Db) : Prop :=
  NoDup (List.map Url.short_code (urls d)).

(** The click rows of one URL. *)
Definition clicks_of (url_id : Z) (d : Db) : list Click.row :=
  List.filter (fun c => Z.eqb (Click.url_id c) url_id) (analytics d).

(** A URL lapses once the clock has gone past its expiration. *)
Definition lapsed (r : Url.row) (now : Z) : Prop :=
  match Url.expires_at r with Some e => e < now | None => False end.

Definition live (r : Url.row) (now : Z) : Prop :=
  match Url.expires_at r with Some e => now <= e | None => True end.

(** The same request served once at each of the given instants, one
    after the other. *)
Fixpoint serve_at (handler : Handler) (ctx : Context) (instants : list Z) (w : World) :
    list (Outcome Response) * World :=
  match instants with
  | [] => ([], w)
  | t :: later =>
      let '(outcome, w1) := handler ctx (set_clock t w) in
      let '(outcomes, w2) := serve_at handler ctx later w1 in
      (outcome :: outcomes, w2)
  end.

(** ** A small platform, for running the program on examples *)

(** JSON texts: a string between double quotes (character 34), and the
    bodies of a creation and of a registration. *)
Definition json_quoted (s : string) : string :=
  String "034" (s +:+ String "034" "").

Definition shorten_payload (url : string) : string :=
  "{" +:+ json_quoted "url" +:+ ":" +:+ json_quoted url +:+ "}".

Definition register_payload (username email password : string) : string :=
  "{" +:+ json_quoted "username" +:+ ":" +:+ json_quoted username
  +:+ "," +:+ json_quoted "email" +:+ ":" +:+ json_quoted email
  +:+ "," +:+ json_quoted "password" +:+ ":" +:+ json_quoted password +:+ "}".

(** The platform parses the few JSON texts the examples send. *)
Definition demo_platform : Platform := {|
  JSON_parse := fun text =>
    if String.eqb text "null" then Some ParsedNull
    else if String.eqb text "{}" then Some (ParsedObject no_fields)
    else if String.eqb text (shorten_payload "https://example.com") then
      Some (ParsedObject (mkFields None None None (Some "https://example.com") None None))
    else if String.eqb text (register_payload "dave" "bob@example.com" "Dave12345") then
      Some (ParsedObject
              (mkFields (Some "dave") (Some "bob@example.com") (Some "Dave12345")
                 None None None))
    else if String.eqb text (register_payload "carol" "carol@example.com" "Carol1234") then
      Some (ParsedObject
              (mkFields (Some "carol") (Some "carol@example.com") (Some "Carol1234")
                 None None None))
    else None;
  URL_protocol := fun url =>
    if String.prefix "https://" url then Some "https:"
    else if String.prefix "http://" url then Some "http:"
    else None;
  bcrypt_hash := fun password => "$2b$10$" +:+ password;
  bcrypt_compare := fun password hash => String.eqb ("$2b$10$" +:+ password) hash;
  jwt_sign := fun _ payload => "token-" +:+ username payload;
  jwt_verify := fun _ token =>
    if String.eqb token "token-alice" then Some (mkJwtPayload 1 "alice")
    else if String.eqb token "token-bob" then Some (mkJwtPayload 2 "bob")
    else None;
  toISOString := fun ms => pretty ms;
  LocalTZA := fun _ _ => 0;
  sqlite_timestamp := fun ms => pretty (ms / 1000);
  sqlite_date := fun day => pretty day;
  process_uptime := fun _ => JNum 0;
  env := fun _ => None;
  parseInt := fun text =>
    if String.eqb text "100" then 100 else if String.eqb text "900000" then 900000 else 0;
  foreign_keys := true;
  docs_html := "<!DOCTYPE html>"
|}.

(** A store with one user, bob, who owns [bunjs]; [anon01] has no owner
    and [old123] lapsed at instant 500. *)
Definition demo_db : Db :=
  mkDb [User.mk 2 "bob" "bob@example.com" "$2b$10$Demo1234" 0] 2
       [Url.mk 1 "bunjs" "https://github.com/oven-sh/bun" (Some 2) 0 0 None;
        Url.mk 2 "anon01" "https://example.com" None 0 0 None;
        Url.mk 3 "old123" "https://example.com/old" None 0 0 (Some 500)] 3
       [] 0.

Definition demo_world : World :=
  mkWorld demo_db ∅ (mkRng (fun i => i) 0) 1000.

Definition get_request (path : string) (hs : list (string * string)) : Request :=
  mkRequest "GET" path (list_to_map hs) "".

(** The context the router hands to a handler of a [:code] route. *)
Definition code_context (r : Request) (who : option JwtPayload) (code : string) : Context :=
  mkContext r who (Some {[ "code" := code ]}) None.

(** ** Responses *)

Definition json_field (name : string) (fields : list (string * json)) : option json :=
  option_map snd (List.find (fun f => String.eqb (fst f) name) fields).

(** The error envelope: a JSON object with [success: false] and a string
    [error]. *)
Definition is_error_envelope (b : Body) : bool :=
  match b with
  | JsonBody (JObj fields) =>
      match json_field "success" fields, json_field "error" fields with
      | Some (JBool false), Some (JStr _) => true
      | _, _ => false
      end
  | _ => false
  end.

(** The two answers of the redirect endpoint whose body is plain text. *)
Definition is_plain_redirect_error (r : Response) : Prop :=
  (status r = 404 /\ body r = TextBody "URL not found")
  \/ (status r = 410 /\ body r = TextBody "URL has expired").

(** The request is one the router sends to the redirect route. *)
Definition to_redirect_route `{Platform} (request : Request) : Prop :=
  exists (route : Route) (params : gmap string string),
    Router.match_ routes (method request) (pathname request) = Some (route, params)
    /\ route_method route = "GET" /\ route_path route = "/:code".

(** What holds of every response of the server. *)
Definition well_formed_response `{Platform} (request : Request) (r : Response) : Prop :=
  400 <= status r ->
  is_error_envelope (body r) = true
  \/ (to_redirect_route request /\ is_plain_redirect_error r).

(** The strict form, met by everything but the redirect route. *)
Definition enveloped (r : Response) : Prop :=
  400 <= status r -> is_error_envelope (body r) = true.

(** The answers to a caller who is not the owner; [errorResponse] puts
    its default [statusCode] into every body. *)
Definition forbidden : Response :=
  Response_json
    (JObj [("success", JBool false); ("error", JStr "Unauthorized"); ("statusCode", JNum 400)])
    403.

Definition not_found_or_unauthorized : Response :=
  Response_json
    (JObj [("success", JBool false); ("error", JStr "URL not found or unauthorized");
           ("statusCode", JNum 400)])
    404.

(** ** Triples

    [sat I G m]: from a world in which [I] holds, [m] leaves a world in
    which [I] holds, and what it returns, if it does not throw, meets
    [G]. *)
Definition sat {A : Type} (I : World -> Prop) (G : A -> Prop) (m : M A) : Prop :=
  forall w : World,
    I w ->
    I (snd (m w))
    /\ match fst (m w) with Returned a => G a | Thrown _ => True end.

Definition anything {A : Type} : A -> Prop := fun _ => True.

(** An invariant of the store, as a property of the world. *)
Definition on_db (J : Db -> Prop) : World -> Prop := fun w => J (db w).

(** What the redirect handler itself guarantees of its answer. *)
Definition redirect_answer (r : Response) : Prop :=
  400 <= status r -> is_error_envelope (body r) = true \/ is_plain_redirect_error r.

(** ** Short-code generation *)

(** The codes the next [n] calls of [generateShortCode()] produce. *)
Fixpoint generated (n : nat) (w : World) : list string :=
  match n with
  | O => []
  | S k =>
      match generateShortCode_default w with
      | (Returned code, w') => code :: generated k w'
      | (Thrown _, _) => []
      end
  end.

Definition taken (d : Db) (code : string) : Prop := is_Some (queries.find_code code d).

(** The expiration [createShortUrl] computes, when it can be written as
    an ISO date. *)
Definition expiration_of `{Platform} (expiresInDays : option Z) (now : Z) :
    option (Z * string) :=
  match expiresInDays with
  | Some days =>
      if 0 <? days then
        Some (Date_setDate_plus now days, toISOString (Date_setDate_plus now days))
      else None
  | None => None
  end.

Definition expiration_representable `{Platform} (expiresInDays : option Z) (now : Z) : Prop :=
  match expiresInDays with
  | Some days => 0 < days -> Z.abs (Date_setDate_plus now days) <= max_time_value
  | None => True
  end.

(** The server's time zone keeps one offset from UTC at all times, as UTC
    itself does. *)
Definition fixed_offset_zone `{Platform} : Prop :=
  exists offset : Z, forall (t : Z) (isUTC : bool), LocalTZA t isUTC = offset.

(** The owner the row would get is one the store accepts. *)
Definition owner_acceptable `{Platform} (ctx : Context) (d : Db) : Prop :=
  foreign_keys = true ->
  match UrlController.owner_of ctx with
  | Some u => queries.user_exists u d = true
  | None => True
  end.

(** A request body with the given URL and nothing else. *)
Definition url_only (url : string) : Fields :=
  mkFields None None None (Some url) None None.

(** Requests served one after the other, each at its instant. *)
Fixpoint serve_all `{Platform} (requests : list (Request * Z)) (w : World) : World :=
  match requests with
  | [] => w
  | (request, t) :: later => serve_all later (snd (fetch request (set_clock t w)))
  end.

(** The code names a URL without an owner. *)
Definition anonymous_at (code : string) (d : Db) : Prop :=
  exists r : Url.row, queries.find_code code d = Some r /\ Url.user_id r = None.

(** ** The limiter on a run of requests *)

(** The answer of a handler that the limiter lets the request through to. *)
Definition passed : Response := mkResponse 200 [] NoBody.

(** The 429 of the limiter. *)
Definition limited `{Platform} (maxRequests reset : Z) : Response :=
  mkResponse 429
    [("Content-Type", "application/json");
     ("X-RateLimit-Limit", pretty maxRequests);
     ("X-RateLimit-Remaining", "0");
     ("X-RateLimit-Reset", toISOString reset)]
    (JsonBody (JObj [("success", JBool false);
                     ("error", JStr "Too many requests. Please try again later.")])).

(** Requests met by the limiter one after the other, each at its
    instant: the client key and the outcome of each. *)
Fixpoint limiter_run `{Platform} (maxRequests windowMs : Z) (requests : list (Request * Z))
    (w : World) : list (string * Outcome Response) * World :=
  match requests with
  | [] => ([], w)
  | (request, t) :: later =>
      let '(outcome, w1) :=
        rateLimit maxRequests windowMs (mkContext request None None None)
          (fun _ => ret passed) (set_clock t w) in
      let '(outcomes, w2) := limiter_run maxRequests windowMs later w1 in
      ((client_ip request, outcome) :: outcomes, w2)
  end.

(** The requests of one client, and the outcomes of one client. *)
Definition requests_of (key : string) (requests : list (Request * Z)) : list (Request * Z) :=
  List.filter (fun p => String.eqb (client_ip (fst p)) key) requests.

Definition outcomes_of (key : string) (outcomes : list (string * Outcome Response)) :
    list (Outcome Response) :=
  List.map snd (List.filter (fun p => String.eqb (fst p) key) outcomes).

(** No window of the client is running at the instant. *)
Definition no_window (key : string) (t : Z) (w : World) : Prop :=
  match rateLimitStore w !! key with
  | Some record => resetAt record <= t
  | None => True
  end.

Definition from (ip : string) : Request :=
  mkRequest "GET" "/health" {[ "x-forwarded-for" := ip ]} "".

(** ** Example inputs *)

Definition alice : JwtPayload := mkJwtPayload 1 "alice".

Definition bunjs_row : Url.row :=
  Url.mk 1 "bunjs" "https://github.com/oven-sh/bun" (Some 2) 0 0 None.

Definition anon_row : Url.row :=
  Url.mk 2 "anon01" "https://example.com" None 0 0 None.

Definition old_row : Url.row :=
  Url.mk 3 "old123" "https://example.com/old" None 0 0 (Some 500).

(** A creation request for [https://example.com], as the body parser
    leaves its context. *)
Definition shorten_context : Context :=
  mkContext (mkRequest "POST" "/api/urls" ∅ "") None (Some ∅)
    (Some (ParsedObject (url_only "https://example.com"))).

(** The same request, asking for an expiration a billion days ahead. *)
Definition shorten_for_ages : Context :=
  mkContext (mkRequest "POST" "/api/urls" ∅ "") None (Some ∅)
    (Some (ParsedObject
             (mkFields None None None (Some "https://example.com") None
                (Some 1000000000000)))).

(** A world whose first generated code, [aaaaaa], is taken and whose
    second, [ghijkl], is free. *)
Definition retry_world : World :=
  mkWorld (mkDb [] 0 [Url.mk 1 "aaaaaa" "https://example.com" None 0 0 None] 1 [] 0)
          ∅ (mkRng (fun i => if (i <? 6)%nat then 0%nat else i) 0) 1000.

(** A world whose random source always draws 0, so that every generated
    code is [aaaaaa], and whose store has that code. *)
Definition exhausted_world : World :=
  mkWorld (mkDb [] 0 [Url.mk 1 "aaaaaa" "https://example.com" None 0 0 None] 1 [] 0)
          ∅ (mkRng (fun _ => 0%nat) 0) 1000.

(** Three requests of one client and one of another, in one window. *)
Definition burst : list (Request * Z) :=
  [(from "1.2.3.4", 10); (from "5.6.7.8", 20); (from "1.2.3.4", 30)].

(** ** The language of a regular expression *)

Inductive lang : Regex.re -> string -> Prop :=
| lang_eps : lang Regex.Eps ""
| lang_class (p : ascii -> bool) (c : ascii) :
    p c = true -> lang (Regex.Class p) (String c "")
| lang_cat (r1 r2 : Regex.re) (s1 s2 : string) :
    lang r1 s1 -> lang r2 s2 -> lang (Regex.Cat r1 r2) (s1 +:+ s2)
| lang_alt_l (r1 r2 : Regex.re) (s : string) :
    lang r1 s -> lang (Regex.Alt r1 r2) s
| lang_alt_r (r1 r2 : Regex.re) (s : string) :
    lang r2 s -> lang (Regex.Alt r1 r2) s
| lang_star_nil (r : Regex.re) : lang (Regex.Star r) ""
| lang_star_cons (r : Regex.re) (s1 s2 : string) :
    lang r s1 -> lang (Regex.Star r) s2 -> lang (Regex.Star r) (s1 +:+ s2).

(** Every character of the string is in the class; some character is. *)
Fixpoint all_chars (p : ascii -> bool) (s : string) : bool :=
  match s with
  | EmptyString => true
  | String c rest => p c && all_chars p rest
  end.

Fixpoint some_char (p : ascii -> bool) (s : string) : bool :=
  match s with
  | EmptyString => false
  | String c rest => p c || some_char p rest
  end.

(** ** Further vocabulary *)

(** A letter or a digit. *)
Definition alphanumeric (c : ascii) : bool :=
  Regex.upper c || Regex.lower c || Regex.digit c.

(** [headers.get(name)] on the headers of a response. *)
Definition header (name : string) (hs : list (string * string)) : option string :=
  option_map snd
    (List.find
       (fun h => String.eqb (JsString.toLowerCase (fst h)) (JsString.toLowerCase name)) hs).

(** The response carries the three CORS headers the middleware sets. *)
Definition has_cors `{Platform} (r : Response) : Prop :=
  header "Access-Control-Allow-Origin" (headers r)
  = Some (JsString.or_else (env "CORS_ORIGIN") "*")
  /\ header "Access-Control-Allow-Methods" (headers r) = Some cors_methods
  /\ header "Access-Control-Allow-Headers" (headers r) = Some cors_headers.

(** The rows [SELECT * FROM users WHERE username = ?] and [... email = ?]
    yield. *)
Definition find_username (username : string) (d : Db) : option User.row :=
  List.find (fun r => String.eqb (User.username r) username) (users d).

Definition find_email (email : string) (d : Db) : option User.row :=
  List.find (fun r => String.eqb (User.email r) email) (users d).

(** A registration or login body. *)
Definition credentials (username email password : option string) : Fields :=
  mkFields username email password None None None.

(** The context of a request whose JSON body the parser attached. *)
Definition with_body (fields : Fields) : Context :=
  mkContext (mkRequest "POST" "/" ∅ "") None (Some ∅) (Some (ParsedObject fields)).

(** The answer to a login that fails, for either reason. *)
Definition invalid_credentials : Response :=
  Response_json
    (JObj [("success", JBool false); ("error", JStr "Invalid credentials");
           ("statusCode", JNum 400)])
    401.

(** A creation body with a custom code. *)
Definition custom_request (url code : string) (expiresInDays : option Z) : Fields :=
  mkFields None None None (Some url) (Some code) expiresInDays.

Definition code_taken : Response :=
  Response_json
    (JObj [("success", JBool false); ("error", JStr "Custom code already exists");
           ("statusCode", JNum 400)])
    409.

Definition creation_failed : Response :=
  Response_json
    (JObj [("success", JBool false); ("error", JStr "Failed to create short URL");
           ("statusCode", JNum 400)])
    500.

Definition deleted : Response :=
  Response_json
    (JObj [("success", JBool true); ("message", JStr "URL deleted successfully");
           ("data", JNull)])
    200.

(** The URL rows of the second store are those of the first, or those
    and one more row, which has no owner. *)
Definition adds_at_most_an_ownerless_url (d d' : Db) : Prop :=
  urls d' = urls d
  \/ exists row : Url.row, urls d' = urls d ++ [row] /\ Url.user_id row = None.

(** The primary key of [urls]: the ids are distinct and none is beyond
    the AUTOINCREMENT sequence. *)
Definition url_ids_fresh (d : Db) : Prop :=
  NoDup (List.map Url.id (urls d))
  /\ Forall (fun r => Url.id r <= urls_seq d) (urls d).

(** The AUTOINCREMENT sequence of [urls] has reached [n]. *)
Definition seq_reached (n : Z) (d : Db) : Prop := n <= urls_seq d.

(** The id [i] has been given out and is the id of no row: the row that
    had it is deleted. *)
Definition id_retired (i : Z) (d : Db) : Prop :=
  i <= urls_seq d /\ Forall (fun r => Url.id r <> i) (urls d).

(** The UNIQUE constraints of [users]. *)
Definition users_unique (d : Db) : Prop :=
  NoDup (List.map User.username (users d)) /\ NoDup (List.map User.email (users d)).

(** The URL of id [i], while it exists, has at least [n] clicks; and [i]
    is an id already given out. *)
Definition clicks_at_least (i n : Z) (d : Db) : Prop :=
  i <= urls_seq d /\ Forall (fun r => Url.id r = i -> n <= Url.clicks r) (urls d).

(** ** Further example inputs *)

Definition bob : JwtPayload := mkJwtPayload 2 "bob".

Definition alice_registers : Context :=
  with_body (credentials (Some "alice") (Some "alice@example.com") (Some "Alice1234")).

Definition alice_again : Context :=
  with_body (credentials (Some "alice") (Some "other@example.com") (Some "Other1234")).

Definition alice_logs_in : Context :=
  with_body (credentials (Some "alice") None (Some "Alice1234")).

Definition carol_logs_in : Context :=
  with_body (credentials (Some "carol") None (Some "Carol1234")).

Definition mylink_for_30_days : Context :=
  with_body (custom_request "https://example.com" "mylink" (Some 30)).

Definition mylink_again : Context :=
  with_body (custom_request "https://example.org" "mylink" None).

Definition mylink_forever_and_a_day : Context :=
  with_body (custom_request "https://example.com" "mylink" (Some 1000000000000)).

Definition get_mylink : Context :=
  code_context (get_request "/mylink" []) None "mylink".

Definition bob_deletes_bunjs : Context :=
  code_context (mkRequest "DELETE" "/api/urls/bunjs" ∅ "") (Some bob) "bunjs".

Definition bob_lists : Context :=
  mkContext (get_request "/api/urls" []) (Some bob) (Some ∅) None.

(** A POST with a JSON body, and a DELETE by bob. *)
Definition json_post (path text : string) (hs : list (string * string)) : Request :=
  mkRequest "POST" path (list_to_map (("content-type", "application/json") :: hs)) text.

Definition bob_deletes (path : string) : Request :=
  mkRequest "DELETE" path {[ "authorization" := "Bearer token-bob" ]} "".

(** A store with two users, bob and alice. *)
Definition two_users_world : World :=
  set_db
    (mkDb [User.mk 2 "bob" "bob@example.com" "$2b$10$Demo1234" 0;
           User.mk 3 "alice" "alice@example.com" "$2b$10$Alice1234" 0] 3
       (urls demo_db) (urls_seq demo_db) [] 0)
    demo_world.

(** The example world with the window of one client full. *)
Definition full_world : World :=
  set_rateLimitStore {[ "1.2.3.4" := mkRateRecord 100 5000 ]} demo_world.

(** * Properties *)

Section RouterProperties.



Lemma matches_matchParts (ps qs : list string) (acc : gmap string string) :
  Forall2 segment_matches ps qs ->
  is_Some (Router.matchParts ps qs acc).
Proof.
  intros HF. revert acc. induction HF as [|p q ps qs Hpq HF IH]; intros acc; simpl.
  - by eexists.
  - destruct (JsString.startsWithColon p) eqn:Hp; [apply IH|].
    destruct Hpq as [Hcolon | ->]; [congruence|].
    rewrite String.eqb_refl. apply IH.
Qed.





Lemma matchPath_None (pattern pathname : string) :
  Router.matchPath pattern pathname = None -> ~ pattern_matches pattern pathname.
Proof.
  unfold Router.matchPath, pattern_matches. intros Hm [Hlen HF].
  rewrite Hlen, Nat.eqb_refl in Hm. simpl in Hm.
  destruct (matches_matchParts _ _ ∅ HF) as [params Hp]. congruence.
Qed.

Lemma match_first (routes : list Route) (method pathname : string) :
  match Router.match_ routes method pathname with
  | None => Forall (fun r => ~ route_matches method pathname r) routes
  | Some (route, params) =>
      exists pre post : list Route,
        routes = pre ++ route :: post
        /\ Forall (fun r => ~ route_matches method pathname r) pre
        /\ route_method route = method
        /\ Router.matchPath (route_path route) pathname = Some params
  end.
Proof.
  induction routes as [|r routes IH]; simpl; [constructor|].
  destruct (String.eqb (route_method r) method) eqn:Hmeth; simpl.
  - apply String.eqb_eq in Hmeth.
    destruct (Router.matchPath (route_path r) pathname) as [params|] eqn:Hpath.
    + exists [], routes. by repeat split.
    + assert (Hr : ~ route_matches method pathname r).
      { intros [_ Hpm]. by apply (matchPath_None _ _ Hpath). }
      destruct (Router.match_ routes method pathname) as [[route params]|].
      * destruct IH as (pre & post & -> & Hpre & Hm & Hp).
        exists (r :: pre), post. repeat split; [|done..]. by constructor.
      * by constructor.
  - apply String.eqb_neq in Hmeth.
    assert (Hr : ~ route_matches method pathname r) by (by intros [Heq _]).
    destruct (Router.match_ routes method pathname) as [[route params]|].
    + destruct IH as (pre & post & -> & Hpre & Hm & Hp).
      exists (r :: pre), post. repeat split; [|done..]. by constructor.
    + by constructor.
Qed.


End RouterProperties.

Section AuthenticationProperties.

Context `{Platform}.

Lemma split_not_nil (sep : ascii) (s : string) : JsString.split sep s <> [].
Proof.
  destruct s as [|c rest]; simpl; [done|].
  destruct (Ascii.eqb c sep); [done|]. by destruct (JsString.split sep rest).
Qed.

Lemma split_one (sep : ascii) (s a : string) :
  JsString.split sep s = [a] <-> s = a /\ JsString.contains sep s = false.
Proof.
  revert a. induction s as [|c rest IH]; intros a; simpl.
  - split; [by intros [= <-] | by intros [<- _]].
  - destruct (Ascii.eqb c sep) eqn:Hc; simpl.
    + split; [|by intros [_ ?]].
      intros Heq. injection Heq as _ Hrest. by destruct (split_not_nil sep rest).
    + destruct (JsString.split sep rest) as [|p ps] eqn:Hsplit.
      * by destruct (split_not_nil sep rest).
      * split.
        -- intros Heq. injection Heq as <- ->.
           destruct (proj1 (IH p) eq_refl) as [-> Hno]. done.
        -- intros [<- Hno].
           pose proof (proj2 (IH rest) (conj eq_refl Hno)) as Heq.
           injection Heq as -> ->. done.
Qed.

Lemma split_two (sep : ascii) (s a b : string) :
  JsString.split sep s = [a; b]
  <-> s = a +:+ String sep b
      /\ JsString.contains sep a = false /\ JsString.contains sep b = false.
Proof.
  revert a. induction s as [|c rest IH]; intros a; simpl.
  - split; [done|]. intros [Heq _]. by destruct a.
  - destruct (Ascii.eqb c sep) eqn:Hc.
    + apply Ascii.eqb_eq in Hc. subst c. split.
      * intros Heq. injection Heq as <- Hrest.
        apply split_one in Hrest as [-> Hno]. done.
      * intros (Heq & Ha & Hb). destruct a as [|c' a']; simpl in *.
        -- injection Heq as ->. f_equal. apply split_one. done.
        -- injection Heq as <- _. by rewrite Ascii.eqb_refl in Ha.
    + destruct (JsString.split sep rest) as [|p ps] eqn:Hsplit.
      * by destruct (split_not_nil sep rest).
      * split.
        -- intros Heq. injection Heq as <- ->.
           destruct (proj1 (IH p) eq_refl) as (-> & Ha & Hb).
           simpl. by rewrite Hc.
        -- intros (Heq & Ha & Hb). destruct a as [|c' a']; simpl in *.
           ++ injection Heq as -> _. by rewrite Ascii.eqb_refl in Hc.
           ++ injection Heq as <- ->. rewrite Hc in Ha. simpl in Ha.
              pose proof (proj2 (IH a') (conj eq_refl (conj Ha Hb))) as Heq.
              injection Heq as -> ->. done.
Qed.

Lemma extractTokenFromHeader_split (header token : string) :
  AuthService.extractTokenFromHeader (Some header) = Some token
  <-> JsString.split " " header = ["Bearer"; token].
Proof.
  unfold AuthService.extractTokenFromHeader.
  destruct header as [|c rest]; [simpl; split; discriminate|].
  change (negb (JsString.truthy (String c rest))) with false. cbv iota.
  destruct (JsString.split " " (String c rest)) as [|scheme [|tok [|? ?]]];
    try (split; discriminate).
  destruct (String.eqb scheme "Bearer") eqn:Hb.
  - apply String.eqb_eq in Hb. subst scheme. split; intros Heq; congruence.
  - apply String.eqb_neq in Hb. split; intros Heq; [discriminate|congruence].
Qed.

(** The header values from which a token is extracted: the word
    [Bearer], one space, and a token without a space. *)
Lemma extractTokenFromHeader_Some (authHeader : option string) (token : string) :
  AuthService.extractTokenFromHeader authHeader = Some token
  <-> authHeader = Some ("Bearer " +:+ token) /\ JsString.contains " " token = false.
Proof.
  destruct authHeader as [header|].
  2: { split; [done | by intros [? _]]. }
  rewrite extractTokenFromHeader_split, split_two. split.
  - intros (-> & _ & Hno). done.
  - intros [Heq Hno]. injection Heq as ->. done.
Qed.

(** C6: a token is extracted exactly from a header of the form
    [Bearer <token>] (one space, no space in the token); when none is
    extracted, or the extracted token is empty, the middleware answers
    401 "No token provided" whatever the handler is; when verification
    yields null it answers 401 "Invalid or expired token"; otherwise it
    runs the handler on the context with the decoded userId and username
    attached. *)
Theorem authenticate_guards_handler (ctx : Context) (next : Context -> M Response)
    (w : World) :
  let authHeader := headers_get (req ctx) "Authorization" in
  (forall token : string,
      AuthService.extractTokenFromHeader authHeader = Some token
      <-> authHeader = Some ("Bearer " +:+ token) /\ JsString.contains " " token = false)
  /\ match AuthService.extractTokenFromHeader authHeader with
     | None | Some EmptyString =>
         authenticate ctx next w
         = (Returned (mkResponse 401 [("Content-Type", "application/json")]
                        (JsonBody (JObj [("success", JBool false);
                                         ("error", JStr "No token provided")]))), w)
     | Some token =>
         match jwt_verify (clock w) token with
         | None =>
             authenticate ctx next w
             = (Returned (mkResponse 401 [("Content-Type", "application/json")]
                            (JsonBody (JObj [("success", JBool false);
                                             ("error", JStr "Invalid or expired token")]))), w)
         | Some payload =>
             authenticate ctx next w
             = next (mkContext (req ctx)
                       (Some (mkJwtPayload (userId payload) (username payload)))
                       (params ctx) (ctx_body ctx)) w
         end
     end.
Proof.
  intros authHeader. split; [intros token; apply extractTokenFromHeader_Some|].
  unfold authenticate. fold authHeader.
  destruct (AuthService.extractTokenFromHeader authHeader) as [[|c token]|]; try done.
  simpl. unfold bind, AuthService.verifyToken, bind, Date_now, gets, ret. simpl.
  by destruct (jwt_verify (clock w) (String c token)).
Qed.

End AuthenticationProperties.

Section RedirectProperties.

Context `{Platform}.

Lemma find_code_exists (short_code : string) (d : Db) (r : Url.row) :
  queries.find_code short_code d = Some r -> queries.url_exists (Url.id r) d = true.
Proof.
  unfold queries.find_code, queries.url_exists. intros Hfind.
  apply List.find_some in Hfind as [Hin _].
  apply existsb_exists. exists r. split; [done | apply Z.eqb_refl].
Qed.

Lemma find_map_preserving (f : Url.row -> Url.row) (short_code : string)
    (rows : list Url.row) :
  (forall r, Url.short_code (f r) = Url.short_code r) ->
  List.find (fun r => String.eqb (Url.short_code r) short_code) (List.map f rows)
  = option_map f (List.find (fun r => String.eqb (Url.short_code r) short_code) rows).
Proof.
  intros Hcode. induction rows as [|r rows IH]; simpl; [done|].
  rewrite Hcode. by destruct (String.eqb (Url.short_code r) short_code).
Qed.

Lemma filter_app_one {A : Type} (p : A -> bool) (l : list A) (x : A) :
  List.filter p (l ++ [x]) = List.filter p l ++ (if p x then [x] else []).
Proof. induction l as [|a l IH]; simpl; [done|]. rewrite IH. by destruct (p a). Qed.

(** What one redirect of a stored, live URL does. *)
Lemma redirect_live (ctx : Context) (w : World) (c : string) (r : Url.row) :
  params_code ctx = Some c -> c <> "" ->
  queries.find_code c (db w) = Some r ->
  live r (clock w) ->
  exists w' : World,
    UrlController.redirect ctx w
    = (Returned (Response_redirect (Url.original_url r) 302), w')
    /\ queries.find_code c (db w') = Some (Url.set_clicks (Url.clicks r + 1) r)
    /\ (exists row : Click.row,
           analytics (db w') = analytics (db w) ++ [row] /\ Click.url_id row = Url.id r)
    /\ clock w' = clock w.
Proof.
  intros Hcode Hne Hfind Hlive.
  unfold UrlController.redirect. rewrite Hcode.
  destruct c as [|c0 c]; [done|]. cbn [JsString.truthy_opt JsString.truthy negb the].
  unfold try_catch, bind, queries.findUrlByShortCode, gets, Date_now, gets.
  rewrite Hfind.
  assert (Hnot : match Url.expires_at r with
                 | Some expirationDate => expirationDate <? clock w
                 | None => false
                 end = false).
  { unfold live in Hlive. destruct (Url.expires_at r); [|done]. apply Z.ltb_ge. lia. }
  rewrite Hnot. unfold queries.logClick.
  rewrite (find_code_exists _ _ _ Hfind), andb_false_r.
  unfold queries.incrementClicks, modify, ret. simpl.
  eexists. split; [reflexivity|]. simpl. split; [|split; [|done]].
  - unfold queries.find_code. simpl. rewrite find_map_preserving by (by intros; destruct (_ =? _)).
    fold (queries.find_code (String c0 c) (db w)). rewrite Hfind. simpl. by rewrite Z.eqb_refl.
  - by eexists.
Qed.

Lemma redirect_lapsed (ctx : Context) (w : World) (c : string) (r : Url.row) :
  params_code ctx = Some c -> c <> "" ->
  queries.find_code c (db w) = Some r ->
  lapsed r (clock w) ->
  UrlController.redirect ctx w = (Returned (Response_text "URL has expired" 410), w).
Proof.
  intros Hcode Hne Hfind Hlapsed. unfold UrlController.redirect. rewrite Hcode.
  destruct c as [|c0 c]; [done|]. cbn [JsString.truthy_opt JsString.truthy negb the].
  unfold try_catch, bind, queries.findUrlByShortCode, gets, Date_now, gets.
  rewrite Hfind. unfold lapsed in Hlapsed.
  destruct (Url.expires_at r) as [e|]; [|done].
  apply Z.ltb_lt in Hlapsed. by rewrite Hlapsed.
Qed.

Lemma redirect_absent (ctx : Context) (w : World) (c : string) :
  params_code ctx = Some c -> c <> "" ->
  queries.find_code c (db w) = None ->
  UrlController.redirect ctx w = (Returned (Response_text "URL not found" 404), w).
Proof.
  intros Hcode Hne Hfind. unfold UrlController.redirect. rewrite Hcode.
  destruct c as [|c0 c]; [done|]. cbn [JsString.truthy_opt JsString.truthy negb the].
  unfold try_catch, bind, queries.findUrlByShortCode, gets.
  by rewrite Hfind.
Qed.

Lemma live_or_lapsed (r : Url.row) (now : Z) : {live r now} + {lapsed r now}.
Proof.
  unfold live, lapsed. destruct (Url.expires_at r) as [e|]; [|by left].
  destruct (Z_le_gt_dec now e); [by left | right; lia].
Qed.

Lemma live_not_lapsed (r : Url.row) (now : Z) : live r now -> lapsed r now -> False.
Proof. unfold live, lapsed. destruct (Url.expires_at r); [lia | done]. Qed.

(** C7: for a code that exists, the redirect endpoint answers 410 "URL
    has expired" when the expiration is set and lies in the past, and 302
    with the original URL as its [Location] when the expiration is unset
    or not yet passed; an absent code gets the different status 404. The
    404 and the 410 leave the store as it was. *)
Theorem redirect_expiration (ctx : Context) (w : World) (c : string) :
  params_code ctx = Some c -> c <> "" ->
  exists (answer : Response) (w' : World),
    UrlController.redirect ctx w = (Returned answer, w')
    /\ match queries.find_code c (db w) with
       | None =>
           status answer = 404 /\ body answer = TextBody "URL not found" /\ w' = w
       | Some r =>
           (lapsed r (clock w) ->
            status answer = 410 /\ body answer = TextBody "URL has expired" /\ w' = w)
           /\ (live r (clock w) ->
               status answer = 302
               /\ header "Location" (headers answer) = Some (Url.original_url r)
               /\ body answer = NoBody)
       end.
Proof.
  intros Hcode Hne. destruct (queries.find_code c (db w)) as [r|] eqn:Hfind.
  - destruct (live_or_lapsed r (clock w)) as [Hlive|Hlapsed].
    + destruct (redirect_live ctx w c r Hcode Hne Hfind Hlive) as (w' & Hrun & _).
      eexists _, w'. split; [exact Hrun|]. split.
      * intros Hlapsed. destruct (live_not_lapsed _ _ Hlive Hlapsed).
      * intros _. split; [reflexivity|]. split; reflexivity.
    + eexists _, w. split; [exact (redirect_lapsed ctx w c r Hcode Hne Hfind Hlapsed)|]. split.
      * intros _. split; [reflexivity|]. split; reflexivity.
      * intros Hlive. destruct (live_not_lapsed _ _ Hlive Hlapsed).
  - eexists _, w. split; [exact (redirect_absent ctx w c Hcode Hne Hfind)|].
    split; [reflexivity|]. split; reflexivity.
Qed.

(** C8: N redirects in a row to an existing code, each at an instant at
    which the URL has not lapsed, are N answers, each a 302 to the
    original URL; afterwards the row of the code is the row it was with
    its click counter raised by exactly N, and exactly N click rows were
    added, all of them rows of that URL. *)
Theorem redirects_are_counted (ctx : Context) (w : World) (c : string) (r : Url.row)
    (instants : list Z) :
  params_code ctx = Some c -> c <> "" ->
  queries.find_code c (db w) = Some r ->
  Forall (live r) instants ->
  let n := List.length instants in
  let outcomes := fst (serve_at UrlController.redirect ctx instants w) in
  let w' := snd (serve_at UrlController.redirect ctx instants w) in
  List.length outcomes = n
  /\ Forall
       (fun outcome =>
          exists answer : Response,
            outcome = Returned answer
            /\ status answer = 302
            /\ header "Location" (headers answer) = Some (Url.original_url r))
       outcomes
  /\ (exists r' : Url.row,
         queries.find_code c (db w') = Some r'
         /\ Url.clicks r' = Url.clicks r + Z.of_nat n
         /\ r' = Url.mk (Url.id r) (Url.short_code r) (Url.original_url r) (Url.user_id r)
                   (Url.clicks r + Z.of_nat n) (Url.created_at r) (Url.expires_at r))
  /\ List.length (analytics (db w')) = (List.length (analytics (db w)) + n)%nat
  /\ List.length (clicks_of (Url.id r) (db w'))
     = (List.length (clicks_of (Url.id r) (db w)) + n)%nat.
Proof.
  intros Hcode Hne Hfind Hlive. simpl.
  revert w r Hfind Hlive. induction instants as [|t later IH]; intros w r Hfind Hlive.
  - simpl. split; [done|]. split; [constructor|]. split; [|by rewrite !Nat.add_0_r].
    exists r. rewrite Z.add_0_r. split; [done|]. split; [done | by destruct r].
  - apply Forall_cons in Hlive as [Ht Hlater]. simpl.
    destruct (redirect_live ctx (set_clock t w) c r Hcode Hne Hfind Ht)
      as (w1 & -> & Hfind1 & (row & Hrows & Hrow) & _).
    assert (Hlater1 : Forall (live (Url.set_clicks (Url.clicks r + 1) r)) later).
    { by destruct r. }
    specialize (IH w1 _ Hfind1 Hlater1).
    destruct (serve_at UrlController.redirect ctx later w1) as [outcomes w2].
    simpl in *. destruct IH as (Hlen & Hall & (r' & Hfind2 & Hclicks & Hr') & Hrows2 & Hof).
    split; [by rewrite Hlen|]. split; [|split; [|split]].
    + constructor; [|exact Hall]. eexists. split; [reflexivity|]. split; reflexivity.
    + exists r'. split; [exact Hfind2|]. split; [lia|]. rewrite Hr'. f_equal. lia.
    + rewrite Hrows2, Hrows, length_app. simpl. lia.
    + rewrite Hof. unfold clicks_of. rewrite Hrows, filter_app_one, length_app, Hrow, Z.eqb_refl.
      simpl. lia.
Qed.

End RedirectProperties.

Section OwnershipProperties.

Context `{Platform}.

Lemma filter_none {A : Type} (p : A -> bool) (l : list A) :
  (forall x, In x l -> p x = false) ->
  List.filter p l = [] /\ List.filter (fun x => negb (p x)) l = l.
Proof.
  induction l as [|a l IH]; intros Hall; simpl; [done|].
  rewrite (Hall a) by (by left). simpl.
  destruct IH as [-> ->]; [|done]. intros x Hx. apply Hall. by right.
Qed.

Lemma filter_all {A : Type} (p : A -> bool) (l : list A) :
  (forall x, In x l -> p x = true) -> List.filter p l = l.
Proof.
  induction l as [|a l IH]; intros Hall; simpl; [done|].
  rewrite (Hall a) by (by left). f_equal. apply IH. intros x Hx. apply Hall. by right.
Qed.

Lemma set_db_same (w : World) (clicks' : list Click.row) :
  clicks' = analytics (db w) ->
  set_db (mkDb (users (db w)) (users_seq (db w)) (urls (db w)) (urls_seq (db w))
               clicks' (analytics_seq (db w))) w = w.
Proof. intros ->. by destruct w as [[] ? ? ?]. Qed.

(** A delete that selects no row answers 404 and leaves the world as it
    was. *)
Lemma deleteUrl_selects_nothing (ctx : Context) (w : World) (caller : JwtPayload)
    (c : string) :
  user ctx = Some caller ->
  params_code ctx = Some c -> c <> "" ->
  (forall r, In r (urls (db w)) -> queries.delete_selects c (userId caller) r = false) ->
  UrlController.deleteUrl ctx w = (Returned not_found_or_unauthorized, w).
Proof.
  intros Huser Hcode Hne Hnone.
  unfold UrlController.deleteUrl. rewrite Huser, Hcode.
  destruct c as [|c0 c]; [done|]. cbn [JsString.truthy_opt JsString.truthy negb the].
  unfold try_catch, bind, queries.deleteUrl.
  destruct (filter_none _ _ Hnone) as [-> ->]. simpl.
  rewrite set_db_same; [done|].
  destruct foreign_keys; [|done]. by rewrite filter_all.
Qed.

Lemma find_code_In (c : string) (d : Db) (r : Url.row) :
  queries.find_code c d = Some r -> In r (urls d) /\ Url.short_code r = c.
Proof.
  unfold queries.find_code. intros Hfind.
  apply List.find_some in Hfind as [Hin Heq]. by apply String.eqb_eq in Heq.
Qed.

(** Under the UNIQUE constraint a code names one row. *)
Lemma codes_unique_row (d : Db) (r1 r2 : Url.row) :
  codes_unique d -> In r1 (urls d) -> In r2 (urls d) ->
  Url.short_code r1 = Url.short_code r2 -> r1 = r2.
Proof.
  unfold codes_unique. induction (urls d) as [|r rows IH]; simpl; [done|].
  intros Hnodup [-> | Hin1] [-> | Hin2] Hsame; try done.
  - apply NoDup_cons in Hnodup as [Hnot _]. destruct Hnot.
    rewrite Hsame. apply list_elem_of_In, in_map, Hin2.
  - apply NoDup_cons in Hnodup as [Hnot _]. destruct Hnot.
    rewrite <- Hsame. apply list_elem_of_In, in_map, Hin1.
  - apply NoDup_cons in Hnodup as [_ Hnodup]. by apply IH.
Qed.

Lemma getAnalytics_not_owner (ctx : Context) (w : World) (caller : JwtPayload)
    (c : string) (r : Url.row) :
  user ctx = Some caller ->
  params_code ctx = Some c -> c <> "" ->
  queries.find_code c (db w) = Some r ->
  Url.user_id r <> Some (userId caller) ->
  UrlController.getAnalytics ctx w = (Returned forbidden, w).
Proof.
  intros Huser Hcode Hne Hfind Hown.
  unfold UrlController.getAnalytics. rewrite Huser, Hcode.
  destruct c as [|c0 c]; [done|]. cbn [JsString.truthy_opt JsString.truthy negb the].
  unfold try_catch, bind, queries.findUrlByShortCode, gets. rewrite Hfind.
  by rewrite bool_decide_eq_false_2.
Qed.

Lemma deleteUrl_not_owner (ctx : Context) (w : World) (caller : JwtPayload)
    (c : string) (r : Url.row) :
  user ctx = Some caller ->
  params_code ctx = Some c -> c <> "" ->
  codes_unique (db w) ->
  queries.find_code c (db w) = Some r ->
  Url.user_id r <> Some (userId caller) ->
  UrlController.deleteUrl ctx w = (Returned not_found_or_unauthorized, w).
Proof.
  intros Huser Hcode Hne Hunique Hfind Hown.
  apply find_code_In in Hfind as [Hin Hc].
  apply (deleteUrl_selects_nothing ctx w caller c Huser Hcode Hne).
  intros r' Hin'. unfold queries.delete_selects.
  destruct (String.eqb (Url.short_code r') c) eqn:Hc'; [|done]. simpl.
  apply String.eqb_eq in Hc'.
  assert (r' = r) as -> by (apply (codes_unique_row (db w)); congruence).
  unfold queries.owned_by. destruct (Url.user_id r) as [u|]; [|done].
  apply Z.eqb_neq. congruence.
Qed.

Lemma deleteUrl_absent (ctx : Context) (w : World) (caller : JwtPayload) (c : string) :
  user ctx = Some caller ->
  params_code ctx = Some c -> c <> "" ->
  queries.find_code c (db w) = None ->
  UrlController.deleteUrl ctx w = (Returned not_found_or_unauthorized, w).
Proof.
  intros Huser Hcode Hne Hfind.
  apply (deleteUrl_selects_nothing ctx w caller c Huser Hcode Hne).
  intros r Hin. unfold queries.delete_selects.
  destruct (String.eqb (Url.short_code r) c) eqn:Hc; [|done].
  unfold queries.find_code in Hfind.
  by rewrite (List.find_none _ _ Hfind r Hin) in Hc.
Qed.

(** C9: when user A asks for the analytics of a code whose URL is owned by
    another user B the answer is 403; when A asks to delete it the answer
    is 404 and the world (the store with it) is unchanged; and the answer
    to deleting a code that does not exist is that same 404 response. *)
Theorem ownership_isolation (ctx : Context) (w : World) (a : JwtPayload) (b : Z)
    (c : string) (r : Url.row) :
  user ctx = Some a ->
  params_code ctx = Some c -> c <> "" ->
  codes_unique (db w) ->
  queries.find_code c (db w) = Some r ->
  Url.user_id r = Some b ->
  b <> userId a ->
  UrlController.getAnalytics ctx w = (Returned forbidden, w)
  /\ UrlController.deleteUrl ctx w = (Returned not_found_or_unauthorized, w)
  /\ (forall (ctx' : Context) (w' : World) (c' : string),
         user ctx' = Some a ->
         params_code ctx' = Some c' -> c' <> "" ->
         queries.find_code c' (db w') = None ->
         UrlController.deleteUrl ctx' w' = (Returned not_found_or_unauthorized, w')).
Proof.
  intros Huser Hcode Hne Hunique Hfind Hb Hab.
  assert (Hown : Url.user_id r <> Some (userId a)) by (rewrite Hb; congruence).
  split; [by eapply getAnalytics_not_owner|].
  split; [by eapply deleteUrl_not_owner|].
  intros ctx' w' c' Huser' Hcode' Hne' Hnone. by eapply deleteUrl_absent.
Qed.

End OwnershipProperties.

(** ** Rules for triples *)

Section TripleRules.

Context {A B : Type} (I : World -> Prop).

Lemma sat_ret (G : A -> Prop) (a : A) : G a -> sat I G (ret a).
Proof. intros Ha w Hw. by split. Qed.

Lemma sat_throw (G : A -> Prop) (e : string) : sat I G (throw e).
Proof. intros w Hw. by split. Qed.

Lemma sat_bind (GA : A -> Prop) (GB : B -> Prop) (m : M A) (k : A -> M B) :
  sat I GA m -> (forall a, GA a -> sat I GB (k a)) -> sat I GB (bind m k).
Proof.
  intros Hm Hk w Hw. unfold bind. destruct (Hm w Hw) as [Hw' Ha].
  destruct (m w) as [[a|e] w']; simpl in *; [|done]. by apply Hk.
Qed.

Lemma sat_try_catch (G : A -> Prop) (m : M A) (h : string -> M A) :
  sat I G m -> (forall e, sat I G (h e)) -> sat I G (try_catch m h).
Proof.
  intros Hm Hh w Hw. unfold try_catch. destruct (Hm w Hw) as [Hw' Ha].
  destruct (m w) as [[a|e] w']; simpl in *; [done|]. by apply Hh.
Qed.

Lemma sat_weaken (G G' : A -> Prop) (m : M A) :
  sat I G m -> (forall a, G a -> G' a) -> sat I G' m.
Proof.
  intros Hm HG w Hw. destruct (Hm w Hw) as [Hw' Ha]. split; [done|].
  destruct (fst (m w)); [by apply HG | done].
Qed.

End TripleRules.

Section StoreUntouched.

Context `{Platform} (J : Db -> Prop).

(** A computation that leaves the store alone keeps every invariant of
    the store. *)
Lemma sat_unchanged {A : Type} (m : M A) :
  (forall w, db (snd (m w)) = db w) -> sat (on_db J) anything m.
Proof.
  intros Hm w Hw. unfold on_db in *. rewrite Hm. split; [done|].
  unfold anything. by destruct (fst (m w)).
Qed.

Lemma sat_gets {A : Type} (f : World -> A) : sat (on_db J) anything (gets f).
Proof. by apply sat_unchanged. Qed.

Lemma sat_Date_now : sat (on_db J) anything Date_now.
Proof. by apply sat_unchanged. Qed.

Lemma sat_destructure (ctx : Context) : sat (on_db J) anything (destructure ctx).
Proof.
  apply sat_unchanged. intros w. unfold destructure.
  by destruct (ctx_body ctx) as [[|fields]|].
Qed.

Lemma generateShortCode_loop_db (n : nat) (result : string) (w : World) :
  db (snd (generateShortCode_loop n result w)) = db w.
Proof.
  revert result w. induction n as [|n IH]; intros result w; simpl; [done|].
  unfold bind, Math_random_below. simpl. by rewrite IH.
Qed.

Lemma generateShortCode_loop_returns (n : nat) (result : string) (w : World) :
  exists code, fst (generateShortCode_loop n result w) = Returned code.
Proof.
  revert result w. induction n as [|n IH]; intros result w; simpl; [by eexists|].
  unfold bind, Math_random_below. simpl. apply IH.
Qed.

Lemma sat_generateShortCode : sat (on_db J) anything generateShortCode_default.
Proof. apply sat_unchanged. intros w. apply generateShortCode_loop_db. Qed.

Lemma sat_Date_toISOString (ms : Z) : sat (on_db J) anything (Date_toISOString ms).
Proof.
  apply sat_unchanged. intros w. unfold Date_toISOString. by destruct (_ <=? _).
Qed.

Lemma sat_hashPassword (p : string) : sat (on_db J) anything (AuthService.hashPassword p).
Proof. by apply sat_unchanged. Qed.

Lemma sat_verifyPassword (p h : string) :
  sat (on_db J) anything (AuthService.verifyPassword p h).
Proof. by apply sat_unchanged. Qed.

Lemma sat_generateToken (p : JwtPayload) : sat (on_db J) anything (AuthService.generateToken p).
Proof. by apply sat_unchanged. Qed.

Lemma sat_verifyToken (t : string) : sat (on_db J) anything (AuthService.verifyToken t).
Proof. by apply sat_unchanged. Qed.

Lemma sat_findUserByUsername (u : string) :
  sat (on_db J) anything (queries.findUserByUsername u).
Proof. by apply sat_unchanged. Qed.

Lemma sat_findUserByEmail (e : string) : sat (on_db J) anything (queries.findUserByEmail e).
Proof. by apply sat_unchanged. Qed.

Lemma sat_findUserById (id : Z) : sat (on_db J) anything (queries.findUserById id).
Proof. by apply sat_unchanged. Qed.

Lemma sat_findUrlByShortCode (c : string) :
  sat (on_db J) anything (queries.findUrlByShortCode c).
Proof. by apply sat_unchanged. Qed.

Lemma sat_getUserUrls (id : Z) : sat (on_db J) anything (queries.getUserUrls id).
Proof. by apply sat_unchanged. Qed.

Lemma sat_getUrlAnalytics (id : Z) : sat (on_db J) anything (queries.getUrlAnalytics id).
Proof. by apply sat_unchanged. Qed.

Lemma sat_limiter_update (f : gmap string RateRecord -> gmap string RateRecord) :
  sat (on_db J) anything
    (modify (fun w => set_rateLimitStore (f (rateLimitStore w)) w)).
Proof. by apply sat_unchanged. Qed.

End StoreUntouched.

Create HintDb sat.

#[global] Hint Resolve sat_gets sat_Date_now sat_destructure sat_generateShortCode
  sat_Date_toISOString sat_hashPassword sat_verifyPassword sat_generateToken
  sat_verifyToken sat_findUserByUsername sat_findUserByEmail sat_findUserById
  sat_findUrlByShortCode sat_getUserUrls sat_getUrlAnalytics sat_limiter_update : sat.

(** One step through the code of a handler. *)
Ltac sat_step :=
  lazymatch goal with
  | |- sat _ _ (ret _) => apply sat_ret
  | |- sat _ _ (throw _) => apply sat_throw
  | |- sat _ _ (try_catch _ _) => apply sat_try_catch; [|intros ?]
  | |- sat _ _ (bind _ _) =>
      apply (sat_bind _ anything); [solve [eauto with sat] | intros ? _]
  | |- sat _ _ (if ?b then _ else _) => destruct b eqn:?
  | |- sat _ _ (match ?x with _ => _ end) => destruct x eqn:?
  end.

(** A response built from literals meets [enveloped] and its kin. *)
Ltac answer :=
  first [ by (intros _; reflexivity)
        | by (intros _; left; reflexivity)
        | by (intros Hstatus; simpl in Hstatus; lia) ].

(** ** The whole server, under an invariant of the store *)

Section Server.

Context `{Platform} (J : Db -> Prop).

(** The five statements that write keep the invariant. *)
Hypothesis createUser_keeps :
  forall u e p, sat (on_db J) anything (queries.createUser u e p).
Hypothesis createUrl_keeps :
  forall c u o e, sat (on_db J) anything (queries.createUrl c u o e).
Hypothesis incrementClicks_keeps :
  forall id, sat (on_db J) anything (queries.incrementClicks id).
Hypothesis deleteUrl_keeps :
  forall c u, sat (on_db J) anything (queries.deleteUrl c u).
Hypothesis logClick_keeps :
  forall id ua rf ip, sat (on_db J) anything (queries.logClick id ua rf ip).

Hint Resolve createUser_keeps createUrl_keeps incrementClicks_keeps deleteUrl_keeps
  logClick_keeps : sat.

Lemma register_sat (ctx : Context) : sat (on_db J) enveloped (AuthController.register ctx).
Proof. unfold AuthController.register. repeat sat_step; answer. Qed.

Lemma login_sat (ctx : Context) : sat (on_db J) enveloped (AuthController.login ctx).
Proof. unfold AuthController.login. repeat sat_step; answer. Qed.

Lemma getProfile_sat (ctx : Context) : sat (on_db J) enveloped (AuthController.getProfile ctx).
Proof. unfold AuthController.getProfile. repeat sat_step; answer. Qed.

Lemma ensureUnique_sat (remaining : nat) (attempts : Z) (shortCode : string) :
  sat (on_db J) anything (UrlController.ensureUnique remaining attempts shortCode).
Proof.
  revert attempts shortCode. induction remaining as [|k IH]; intros attempts shortCode; simpl.
  - by apply sat_ret.
  - sat_step. sat_step; [|by apply sat_ret]. sat_step. apply IH.
Qed.

Lemma expiration_sat (days : option Z) : sat (on_db J) anything (UrlController.expiration days).
Proof. unfold UrlController.expiration. repeat sat_step; done. Qed.

Hint Resolve ensureUnique_sat expiration_sat : sat.

Lemma store_url_sat (ctx : Context) (shortCode url : string) (days : option Z) :
  sat (on_db J) enveloped (UrlController.store_url ctx shortCode url days).
Proof. unfold UrlController.store_url. repeat sat_step; answer. Qed.

Lemma createShortUrl_sat (ctx : Context) :
  sat (on_db J) enveloped (UrlController.createShortUrl ctx).
Proof.
  unfold UrlController.createShortUrl.
  repeat first [apply store_url_sat | sat_step]; answer.
Qed.

Lemma redirect_sat (ctx : Context) :
  sat (on_db J) redirect_answer (UrlController.redirect ctx).
Proof.
  unfold UrlController.redirect. repeat sat_step;
    first [ answer
          | by (intros _; right; left)
          | by (intros _; right; right) ].
Qed.

Lemma getUserUrls_sat (ctx : Context) : sat (on_db J) enveloped (UrlController.getUserUrls ctx).
Proof. unfold UrlController.getUserUrls. repeat sat_step; answer. Qed.

Lemma getAnalytics_sat (ctx : Context) :
  sat (on_db J) enveloped (UrlController.getAnalytics ctx).
Proof. unfold UrlController.getAnalytics. repeat sat_step; answer. Qed.

Lemma deleteUrl_sat (ctx : Context) : sat (on_db J) enveloped (UrlController.deleteUrl ctx).
Proof. unfold UrlController.deleteUrl. repeat sat_step; answer. Qed.

Lemma health_sat (ctx : Context) : sat (on_db J) enveloped (health ctx).
Proof. unfold health. repeat sat_step; answer. Qed.

Lemma documentation_sat (ctx : Context) : sat (on_db J) enveloped (documentation ctx).
Proof. unfold documentation. repeat sat_step; answer. Qed.

Lemma enveloped_well_formed (request : Request) (r : Response) :
  enveloped r -> well_formed_response request r.
Proof. intros Hr Hs. left. by apply Hr. Qed.

Lemma jsonParser_sat (G : Response -> Prop) (ctx : Context) (next : Context -> M Response) :
  (forall r, enveloped r -> G r) ->
  (forall ctx', sat (on_db J) G (next ctx')) ->
  sat (on_db J) G (jsonParser ctx next).
Proof.
  intros HG Hnext. unfold jsonParser.
  repeat sat_step; first [apply Hnext | apply HG; answer].
Qed.

Lemma authenticate_sat (G : Response -> Prop) (ctx : Context) (next : Context -> M Response) :
  (forall r, enveloped r -> G r) ->
  (forall ctx', sat (on_db J) G (next ctx')) ->
  sat (on_db J) G (authenticate ctx next).
Proof.
  intros HG Hnext. unfold authenticate.
  repeat sat_step; first [apply Hnext | apply HG; answer].
Qed.

Lemma router_sat (ctx : Context) :
  sat (on_db J) (well_formed_response (req ctx)) (router ctx).
Proof.
  unfold router, Router.handle.
  pose proof (match_first routes (method (req ctx)) (pathname (req ctx))) as Hfirst.
  destruct (Router.match_ routes (method (req ctx)) (pathname (req ctx)))
    as [[route params]|] eqn:Hmatch.
  2: { apply sat_ret. apply enveloped_well_formed. answer. }
  destruct Hfirst as (pre & post & Hroutes & _ & _ & _).
  assert (Hin : In route routes) by (rewrite Hroutes; apply in_elt).
  unfold routes in Hin. simpl in Hin.
  pose proof (enveloped_well_formed (req ctx)) as Hweak.
  destruct Hin as [<-|[<-|[<-|[<-|[<-|[<-|[<-|[<-|[<-|[<-|[]]]]]]]]]]]; simpl.
  - apply (sat_weaken _ enveloped); [apply health_sat | done].
  - apply jsonParser_sat; [done|]. intros ctx'.
    apply (sat_weaken _ enveloped); [apply register_sat | done].
  - apply jsonParser_sat; [done|]. intros ctx'.
    apply (sat_weaken _ enveloped); [apply login_sat | done].
  - apply authenticate_sat; [done|]. intros ctx'.
    apply (sat_weaken _ enveloped); [apply getProfile_sat | done].
  - apply jsonParser_sat; [done|]. intros ctx'.
    apply (sat_weaken _ enveloped); [apply createShortUrl_sat | done].
  - apply authenticate_sat; [done|]. intros ctx'.
    apply (sat_weaken _ enveloped); [apply getUserUrls_sat | done].
  - apply authenticate_sat; [done|]. intros ctx'.
    apply (sat_weaken _ enveloped); [apply getAnalytics_sat | done].
  - apply authenticate_sat; [done|]. intros ctx'.
    apply (sat_weaken _ enveloped); [apply deleteUrl_sat | done].
  - apply (sat_weaken _ redirect_answer); [apply redirect_sat|].
    intros r Hr Hs. destruct (Hr Hs) as [Henv | Hplain]; [by left|].
    right. split; [|done]. eexists _, params. by split; [exact Hmatch|].
  - apply (sat_weaken _ enveloped); [apply documentation_sat | done].
Qed.

Lemma cors_sat (request : Request) (ctx : Context) (next : Context -> M Response) :
  sat (on_db J) (well_formed_response request) (next ctx) ->
  sat (on_db J) (well_formed_response request) (cors ctx next).
Proof.
  intros Hnext. unfold cors. sat_step.
  - apply sat_ret. intros Hs. simpl in Hs. lia.
  - apply (sat_bind _ (well_formed_response request)); [done|].
    intros response Hr. by apply sat_ret.
Qed.

Lemma rateLimit_sat (G : Response -> Prop) (maxRequests windowMs : Z) (ctx : Context)
    (next : Context -> M Response) :
  (forall r, enveloped r -> G r) ->
  sat (on_db J) G (next ctx) ->
  sat (on_db J) G (rateLimit maxRequests windowMs ctx next).
Proof.
  intros HG Hnext. unfold rateLimit, too_many_requests.
  repeat first
    [ exact Hnext
    | apply (sat_bind _ anything); [by apply sat_unchanged | intros ? _]
    | sat_step ].
  apply HG. answer.
Qed.

Lemma logger_sat (G : Response -> Prop) (ctx : Context) (next : Context -> M Response) :
  sat (on_db J) G (next ctx) -> sat (on_db J) G (logger ctx next).
Proof.
  intros Hnext. unfold logger. sat_step.
  apply (sat_bind _ G); [done|]. intros response Hr. sat_step. by apply sat_ret.
Qed.

Lemma errorHandler_sat (G : Response -> Prop) (ctx : Context) (next : Context -> M Response) :
  (forall r, enveloped r -> G r) ->
  sat (on_db J) G (next ctx) -> sat (on_db J) G (errorHandler ctx next).
Proof.
  intros HG Hnext. unfold errorHandler. sat_step; [done|].
  apply sat_ret, HG. answer.
Qed.

Lemma errorHandler_returns (ctx : Context) (next : Context -> M Response) (w : World) :
  exists (r : Response) (w' : World), errorHandler ctx next w = (Returned r, w').
Proof.
  unfold errorHandler, try_catch. destruct (next ctx w) as [[r|e] w']; by eexists _, _.
Qed.

(** The server keeps the invariant, and answers every request with a
    response that is well formed; it never throws. *)
Lemma fetch_sat (request : Request) :
  sat (on_db J) (well_formed_response request) (fetch request).
Proof.
  unfold fetch, globalMiddlewares. simpl.
  pose proof (enveloped_well_formed request) as Hweak.
  apply errorHandler_sat; [done|]. apply logger_sat. apply cors_sat.
  apply rateLimit_sat; [done|]. apply (router_sat (mkContext request None None None)).
Qed.

Lemma fetch_returns (request : Request) (w : World) :
  exists (r : Response) (w' : World), fetch request w = (Returned r, w').
Proof. unfold fetch, globalMiddlewares. simpl. apply errorHandler_returns. Qed.

End Server.

(** ** Error responses *)

Section ErrorResponses.

Lemma sat_trivially {A : Type} (m : M A) : sat (on_db (fun _ => True)) anything m.
Proof. intros w _. split; [done|]. unfold anything. by destruct (fst (m w)). Qed.

(** C1, as the code has it: the server answers every request, and every
    answer with an error status carries the JSON envelope with
    [success: false] and a string [error], except the 404 and the 410 of
    the redirect route, whose bodies are the plain texts "URL not found"
    and "URL has expired". *)
Theorem errors_are_enveloped_except_redirect `{Platform} (request : Request) (w : World) :
  exists (r : Response) (w' : World),
    fetch request w = (Returned r, w')
    /\ (400 <= status r ->
        is_error_envelope (body r) = true
        \/ (to_redirect_route request
            /\ ((status r = 404 /\ body r = TextBody "URL not found")
                \/ (status r = 410 /\ body r = TextBody "URL has expired")))).
Proof.
  destruct (fetch_returns request w) as (r & w' & Hfetch).
  exists r, w'. split; [done|].
  pose proof (fetch_sat (fun _ => True)
                (fun _ _ _ => sat_trivially _) (fun _ _ _ _ => sat_trivially _)
                (fun _ => sat_trivially _) (fun _ _ => sat_trivially _)
                (fun _ _ _ _ => sat_trivially _) request w I) as [_ Hr].
  rewrite Hfetch in Hr. exact Hr.
Qed.

(** C1 as stated fails: the redirect of an absent code is answered 404
    with a plain-text body, not with the envelope. *)
Lemma redirect_404_is_plain_text :
  ~ (forall (P : Platform) (request : Request) (w : World) (r : Response) (w' : World),
        @fetch P request w = (Returned r, w') ->
        400 <= status r ->
        is_error_envelope (body r) = true).
Proof.
  intros Hclaim.
  pose (out := @fetch demo_platform (get_request "/nothere" []) demo_world).
  specialize (Hclaim demo_platform (get_request "/nothere" []) demo_world
                (mkResponse 404
                   [("Content-Type", "text/plain;charset=UTF-8");
                    ("Access-Control-Allow-Origin", "*");
                    ("Access-Control-Allow-Methods", "GET, POST, PUT, DELETE, OPTIONS");
                    ("Access-Control-Allow-Headers", "Content-Type, Authorization")]
                   (TextBody "URL not found"))
                (snd out)).
  assert (Hrun : out = (fst out, snd out)) by (by destruct out).
  assert (Hfst : fst out
                 = Returned
                     (mkResponse 404
                        [("Content-Type", "text/plain;charset=UTF-8");
                         ("Access-Control-Allow-Origin", "*");
                         ("Access-Control-Allow-Methods", "GET, POST, PUT, DELETE, OPTIONS");
                         ("Access-Control-Allow-Headers", "Content-Type, Authorization")]
                        (TextBody "URL not found"))) by (vm_compute; reflexivity).
  rewrite Hfst in Hrun. specialize (Hclaim Hrun). simpl in Hclaim.
  assert (Hfalse : false = true) by (apply Hclaim; lia). discriminate.
Qed.

(** The same for a lapsed code: 410 with a plain-text body. *)
Example redirect_410_is_plain_text :
  fst (@fetch demo_platform (get_request "/old123" []) demo_world)
  = Returned
      (mkResponse 410
         [("Content-Type", "text/plain;charset=UTF-8");
          ("Access-Control-Allow-Origin", "*");
          ("Access-Control-Allow-Methods", "GET, POST, PUT, DELETE, OPTIONS");
          ("Access-Control-Allow-Headers", "Content-Type, Authorization")]
         (TextBody "URL has expired")).
Proof. vm_compute. reflexivity. Qed.

(** With a body that is an object, a missing or empty field of the three
    is answered 400 "All fields are required". *)
Lemma register_missing_field `{Platform} (ctx : Context) (fields : Fields) (w : World) :
  ctx_body ctx = Some (ParsedObject fields) ->
  JsString.truthy_opt (f_username fields) = false
  \/ JsString.truthy_opt (f_email fields) = false
  \/ JsString.truthy_opt (f_password fields) = false ->
  AuthController.register ctx w
  = (Returned (Response_json
                 (JObj [("success", JBool false);
                        ("error", JStr "All fields are required");
                        ("statusCode", JNum 400)]) 400), w).
Proof.
  intros Hbody Hmissing. unfold AuthController.register, destructure, bind.
  rewrite Hbody. simpl.
  destruct Hmissing as [-> | [-> | ->]]; simpl; rewrite ?orb_true_r; done.
Qed.

(** A POST without a JSON content type passes the body parser with the
    body left unset. *)
Lemma jsonParser_leaves_body_unset `{Platform} (path text : string)
    (next : Context -> M Response) :
  jsonParser (mkContext (mkRequest "POST" path ∅ text) None None None) next
  = next (mkContext (mkRequest "POST" path ∅ text) None None None).
Proof. reflexivity. Qed.

(** C2 fails on the code for a request without a body: destructuring the
    unset body throws before any check, outside the handler's [try], and
    the error boundary turns that into a 500. *)
Theorem register_without_body_is_500 :
  (forall (P : Platform) (r : Request) (u : option JwtPayload)
          (p : option (gmap string string)) (w : World),
      @AuthController.register P (mkContext r u p None) w
      = (Thrown "Right side of assignment cannot be destructured", w))
  /\ fst (@fetch demo_platform (mkRequest "POST" "/api/auth/register" ∅ "") demo_world)
     = Returned
         (mkResponse 500 [("Content-Type", "application/json")]
            (JsonBody (JObj [("success", JBool false);
                             ("error", JStr "Right side of assignment cannot be destructured")]))).
Proof. split; [reflexivity | vm_compute; reflexivity]. Qed.

End ErrorResponses.

(** ** Short-code generation and the creation flow *)

Section CreationProperties.

Context `{Platform}.

Lemma generateShortCode_runs (w : World) :
  exists (code : string) (w' : World),
    generateShortCode_default w = (Returned code, w')
    /\ db w' = db w /\ clock w' = clock w.
Proof.
  unfold generateShortCode_default, generateShortCode.
  assert (Hloop : forall n result w0,
             exists code w', generateShortCode_loop n result w0 = (Returned code, w')
                             /\ db w' = db w0 /\ clock w' = clock w0).
  { induction n as [|n IH]; intros result w0; simpl.
    - by eexists _, _.
    - unfold bind, Math_random_below.
      edestruct IH as (code & w' & Heq & Hdb & Hclock). rewrite Heq.
      by eexists _, _. }
  apply Hloop.
Qed.

Lemma generated_cons (k : nat) (w w1 : World) (first : string) :
  generateShortCode_default w = (Returned first, w1) ->
  generated (S k) w = first :: generated k w1.
Proof. intros Hgen. cbn [generated]. by rewrite Hgen. Qed.

Lemma generated_length (n : nat) (w : World) : List.length (generated n w) = n.
Proof.
  revert w. induction n as [|n IH]; intros w; cbn [generated]; [done|].
  destruct (generateShortCode_runs w) as (code & w' & -> & _).
  cbn [List.length]. by rewrite IH.
Qed.

Lemma ensureUnique_taken (k : nat) (attempts : Z) (code : string) (w : World) :
  taken (db w) code ->
  UrlController.ensureUnique (S k) attempts code w
  = match generateShortCode_default w with
    | (Returned fresh, w1) => UrlController.ensureUnique k (attempts + 1) fresh w1
    | (Thrown e, w1) => (Thrown e, w1)
    end.
Proof.
  intros [r Hr]. cbn [UrlController.ensureUnique].
  unfold bind at 1. unfold queries.findUrlByShortCode, gets. by rewrite Hr.
Qed.

Lemma ensureUnique_free (k : nat) (attempts : Z) (code : string) (w : World) :
  queries.find_code code (db w) = None ->
  UrlController.ensureUnique (S k) attempts code w = (Returned (attempts, code), w).
Proof.
  intros Hr. cbn [UrlController.ensureUnique].
  unfold bind at 1. unfold queries.findUrlByShortCode, gets. by rewrite Hr.
Qed.

(** When every checked code is taken the loop ends with [attempts] raised
    by the number of checks. *)
Lemma ensureUnique_all_taken (k : nat) (attempts : Z) (first : string) (w : World) :
  Forall (taken (db w)) (first :: generated k w) ->
  exists (code : string) (w' : World),
    UrlController.ensureUnique (S k) attempts first w
    = (Returned (attempts + Z.of_nat (S k), code), w')
    /\ db w' = db w /\ clock w' = clock w.
Proof.
  revert attempts first w. induction k as [|k IH]; intros attempts first w Hall;
    apply Forall_cons in Hall as [Hfirst Hrest];
    rewrite (ensureUnique_taken _ _ _ _ Hfirst);
    destruct (generateShortCode_runs w) as (code & w1 & Hgen & Hdb & Hclock).
  - rewrite Hgen. by eexists _, _.
  - rewrite (generated_cons _ _ _ _ Hgen) in Hrest. rewrite Hgen. rewrite <- Hdb in Hrest.
    destruct (IH (attempts + 1) code w1 Hrest) as (code' & w' & -> & Hdb' & Hclock').
    exists code', w'. split; [|split; congruence]. do 2 f_equal. f_equal. lia.
Qed.

(** When the code at position [i] is the first free one, the loop ends
    there with that code, after [i] replacements. *)
Lemma ensureUnique_first_free (k : nat) (attempts : Z) (first : string) (w : World)
    (i : nat) (code : string) :
  (first :: generated k w) !! i = Some code ->
  queries.find_code code (db w) = None ->
  (forall (j : nat) (c : string),
      (j < i)%nat -> (first :: generated k w) !! j = Some c -> taken (db w) c) ->
  exists w' : World,
    UrlController.ensureUnique (S k) attempts first w
    = (Returned (attempts + Z.of_nat i, code), w')
    /\ db w' = db w /\ clock w' = clock w.
Proof.
  revert k attempts first w. induction i as [|i IH]; intros k attempts first w Hi Hfree Hbefore.
  - simpl in Hi. injection Hi as ->.
    rewrite (ensureUnique_free _ _ _ _ Hfree). exists w. by rewrite Z.add_0_r.
  - assert (Hfirst : taken (db w) first) by (apply (Hbefore 0%nat first); [lia | done]).
    rewrite (ensureUnique_taken _ _ _ _ Hfirst).
    destruct k as [|k]; [done|].
    destruct (generateShortCode_runs w) as (c1 & w1 & Hgen & Hdb & Hclock).
    rewrite (generated_cons _ _ _ _ Hgen) in Hi, Hbefore. rewrite Hgen.
    destruct (IH k (attempts + 1) c1 w1) as (w' & -> & Hdb' & Hclock').
    + exact Hi.
    + by rewrite Hdb.
    + intros j c Hj Hc. rewrite Hdb. apply (Hbefore (S j) c); [lia | done].
    + exists w'. split; [|split; congruence]. do 2 f_equal. f_equal. lia.
Qed.

Lemma try_catch_bind {A B : Type} (m : M A) (k : A -> M B) (h : string -> M B) (w : World) :
  try_catch (bind m k) h w
  = match m w with
    | (Returned a, w') => try_catch (k a) h w'
    | (Thrown e, w') => h e w'
    end.
Proof. unfold try_catch, bind. by destruct (m w) as [[a|e] w']. Qed.

Lemma find_code_none_existsb (code : string) (d : Db) :
  queries.find_code code d = None ->
  existsb (fun r => String.eqb (Url.short_code r) code) (urls d) = false.
Proof.
  unfold queries.find_code. intros Hnone.
  destruct (existsb _ _) eqn:Hex; [|done].
  apply existsb_exists in Hex as (r & Hin & Hr).
  by rewrite (List.find_none _ _ Hnone r Hin) in Hr.
Qed.

(** Storing under a free code succeeds when the expiration can be written
    and the owner is acceptable: one row is appended, the answer is 201. *)
Lemma store_url_creates (ctx : Context) (code url : string) (days : option Z) (w : World) :
  queries.find_code code (db w) = None ->
  expiration_representable days (clock w) ->
  owner_acceptable ctx (db w) ->
  exists w' : World,
    UrlController.store_url ctx code url days w
    = (Returned (UrlController.created code url (expiration_of days (clock w))), w')
    /\ urls (db w')
       = urls (db w)
         ++ [Url.mk (urls_seq (db w) + 1) code url (UrlController.owner_of ctx) 0 (clock w)
               (option_map fst (expiration_of days (clock w)))].
Proof.
  intros Hfree Hexp Howner.
  assert (Hinsert : forall expires,
             exists w',
               queries.createUrl code url (UrlController.owner_of ctx) expires w
               = (Returned (urls_seq (db w) + 1), w')
               /\ urls (db w')
                  = urls (db w)
                    ++ [Url.mk (urls_seq (db w) + 1) code url (UrlController.owner_of ctx) 0
                          (clock w) expires]).
  { intros expires. unfold queries.createUrl.
    rewrite (find_code_none_existsb _ _ Hfree).
    assert (Hfk : foreign_keys
                  && match UrlController.owner_of ctx with
                     | Some u => negb (queries.user_exists u (db w))
                     | None => false
                     end = false).
    { unfold owner_acceptable in Howner. destruct foreign_keys; [|done].
      specialize (Howner eq_refl). destruct (UrlController.owner_of ctx); [|done].
      by rewrite Howner. }
    rewrite Hfk. by eexists. }
  unfold UrlController.store_url, UrlController.expiration, expiration_of.
  unfold expiration_representable in Hexp.
  destruct days as [days|].
  - destruct (0 <? days) eqn:Hpos.
    + apply Z.ltb_lt in Hpos. specialize (Hexp Hpos).
      unfold bind, Date_now, gets, Date_toISOString.
      apply Z.leb_le in Hexp. rewrite Hexp. unfold ret.
      destruct (Hinsert (Some (Date_setDate_plus (clock w) days)))
        as (w' & Hrun & Hurls).
      simpl. rewrite Hrun. by exists w'.
    + unfold bind, ret. destruct (Hinsert None) as (w' & Hrun & Hurls).
      simpl. rewrite Hrun. by exists w'.
  - unfold bind, ret. destruct (Hinsert None) as (w' & Hrun & Hurls).
    simpl. rewrite Hrun. by exists w'.
Qed.

(** Storing throws, and writes nothing, when the expiration cannot be
    written or the store refuses the owner. *)
Lemma store_url_throws (ctx : Context) (code url : string) (days : option Z) (w : World) :
  queries.find_code code (db w) = None ->
  ~ (expiration_representable days (clock w) /\ owner_acceptable ctx (db w)) ->
  exists e : string, UrlController.store_url ctx code url days w = (Thrown e, w).
Proof.
  intros Hfree Hnot.
  assert (Hinsert : forall expires,
             ~ owner_acceptable ctx (db w) ->
             exists e,
               queries.createUrl code url (UrlController.owner_of ctx) expires w
               = (Thrown e, w)).
  { intros expires Howner. unfold queries.createUrl.
    rewrite (find_code_none_existsb _ _ Hfree).
    unfold owner_acceptable in Howner.
    destruct foreign_keys; [|by destruct Howner].
    destruct (UrlController.owner_of ctx) as [u|]; [|by destruct Howner].
    destruct (queries.user_exists u (db w)); [by destruct Howner|].
    simpl. by eexists. }
  unfold UrlController.store_url, UrlController.expiration.
  unfold expiration_representable in Hnot.
  destruct days as [days|].
  - destruct (0 <? days) eqn:Hpos.
    + unfold bind, Date_now, gets, Date_toISOString.
      destruct (Z.abs (Date_setDate_plus (clock w) days) <=? max_time_value) eqn:Hrange.
      * apply Z.leb_le in Hrange. unfold ret.
        destruct (Hinsert (Some (Date_setDate_plus (clock w) days))) as (e & Hrun).
        { intros Howner. apply Hnot. by split. }
        simpl. rewrite Hrun. by eexists.
      * unfold throw. by eexists.
    + apply Z.ltb_ge in Hpos. unfold bind, ret.
      destruct (Hinsert None) as (e & Hrun).
      { intros Howner. apply Hnot. split; [lia | done]. }
      simpl. rewrite Hrun. by eexists.
  - unfold bind, ret. destruct (Hinsert None) as (e & Hrun).
    { intros Howner. apply Hnot. by split. }
    simpl. rewrite Hrun. by eexists.
Qed.

(** C3, as the code has it: without a custom code, the creation flow
    checks up to ten generated codes against the store, one after the
    other. When all ten are taken it answers 500 "Failed to generate
    unique code" and stores nothing. Otherwise it settles on the first of
    them that is free, and then: when the expiration asked for can be
    written as a date and the store accepts the owner, it stores the URL
    under that code and answers 201 with the code, the short URL, the
    original URL and the expiration; when not, it answers 500 "Failed to
    create short URL" and stores nothing. *)
Theorem createShortUrl_seeks_unique_code (ctx : Context) (fields : Fields) (w : World) :
  ctx_body ctx = Some (ParsedObject fields) ->
  JsString.truthy_opt (f_url fields) = true ->
  Validator.isValidUrl (the (f_url fields)) = true ->
  JsString.truthy_opt (f_customCode fields) = false ->
  let codes := generated 10 w in
  let url := the (f_url fields) in
  let days := f_expiresInDays fields in
  exists (answer : Response) (w' : World),
    UrlController.createShortUrl ctx w = (Returned answer, w')
    /\ List.length codes = 10%nat
    /\ (Forall (taken (db w)) codes ->
        status answer = 500
        /\ body answer
           = JsonBody (JObj [("success", JBool false);
                             ("error", JStr "Failed to generate unique code");
                             ("statusCode", JNum 400)])
        /\ db w' = db w)
    /\ (forall (i : nat) (code : string),
           codes !! i = Some code ->
           queries.find_code code (db w) = None ->
           (forall (j : nat) (c : string),
               (j < i)%nat -> codes !! j = Some c -> taken (db w) c) ->
           (expiration_representable days (clock w) /\ owner_acceptable ctx (db w) ->
            status answer = 201
            /\ body answer
               = JsonBody
                   (JObj [("success", JBool true);
                          ("message", JStr "URL shortened successfully");
                          ("data",
                           JObj [("shortCode", JStr code);
                                 ("shortUrl", JStr (base_url +:+ "/" +:+ code));
                                 ("originalUrl", JStr url);
                                 ("expiresAt",
                                  json_opt (fun e => JStr (snd e))
                                    (expiration_of days (clock w)))])])
            /\ urls (db w')
               = urls (db w)
                 ++ [Url.mk (urls_seq (db w) + 1) code url (UrlController.owner_of ctx) 0
                       (clock w) (option_map fst (expiration_of days (clock w)))])
           /\ (~ (expiration_representable days (clock w) /\ owner_acceptable ctx (db w)) ->
               status answer = 500
               /\ body answer
                  = JsonBody (JObj [("success", JBool false);
                                    ("error", JStr "Failed to create short URL");
                                    ("statusCode", JNum 400)])
               /\ db w' = db w)).
Proof.
  intros Hbody Hurl Hvalid Hcustom codes url days.
  assert (Hflow :
            UrlController.createShortUrl ctx w
            = try_catch
                (let* first := generateShortCode_default in
                 let* settled := UrlController.ensureUnique 10 0 first in
                 if fst settled =? 10 then
                   ret (Response_json (errorResponse "Failed to generate unique code") 500)
                 else UrlController.store_url ctx (snd settled) url days)
                (fun _ => ret (Response_json (errorResponse "Failed to create short URL") 500))
                w).
  { unfold UrlController.createShortUrl, destructure. rewrite Hbody.
    unfold bind at 1. unfold ret at 1. cbv beta iota.
    rewrite Hurl. cbn [negb]. rewrite Hvalid. cbn [negb]. by rewrite Hcustom. }
  assert (Hreturns : exists answer w',
             UrlController.createShortUrl ctx w = (Returned answer, w')).
  { rewrite Hflow. unfold try_catch.
    match goal with |- context [bind ?m ?k w] => destruct (bind m k w) as [[a|e] w0] end;
      by eexists _, _. }
  destruct Hreturns as (answer & w' & Hrun). exists answer, w'.
  split; [exact Hrun|]. split; [apply generated_length|].
  rewrite Hflow in Hrun. clear Hflow. subst codes.
  destruct (generateShortCode_runs w) as (first & w1 & Hgen & Hdb & Hclock).
  rewrite (generated_cons _ _ _ _ Hgen).
  rewrite try_catch_bind, Hgen, try_catch_bind in Hrun. split.
  - intros Hall. rewrite <- Hdb in Hall.
    destruct (ensureUnique_all_taken 9 0 first w1 Hall) as (code & w2 & Hloop & Hdb2 & _).
    rewrite Hloop in Hrun. cbn [fst snd] in Hrun.
    change (0 + Z.of_nat 10 =? 10) with true in Hrun. cbv iota in Hrun.
    unfold try_catch, ret in Hrun. injection Hrun as <- <-.
    split; [reflexivity|]. split; [reflexivity | congruence].
  - intros i code Hi Hfree Hbefore.
    assert (Hlt : (i < 10)%nat).
    { pose proof (generated_length 9 w1) as Hlen.
      pose proof (lookup_lt_Some _ _ _ Hi) as Hbound.
      rewrite length_cons in Hbound. lia. }
    destruct (ensureUnique_first_free 9 0 first w1 i code) as (w2 & Hloop & Hdb2 & Hclock2).
    { exact Hi. }
    { by rewrite Hdb. }
    { intros j c Hj Hc. rewrite Hdb. by apply (Hbefore j c). }
    rewrite Hloop in Hrun. cbn [fst snd] in Hrun.
    replace (0 + Z.of_nat i =? 10) with false in Hrun
      by (symmetry; apply Z.eqb_neq; lia).
    assert (Hfree2 : queries.find_code code (db w2) = None) by (by rewrite Hdb2, Hdb).
    split.
    + intros [Hexp Howner].
      destruct (store_url_creates ctx code url days w2) as (w3 & Hstore & Hurls).
      * exact Hfree2.
      * by rewrite Hclock2, Hclock.
      * by rewrite Hdb2, Hdb.
      * unfold try_catch in Hrun. rewrite Hstore in Hrun. injection Hrun as <- <-.
        rewrite Hclock2, Hclock, Hdb2, Hdb in *.
        split; [reflexivity|]. split; [reflexivity | exact Hurls].
    + intros Hnot.
      destruct (store_url_throws ctx code url days w2 Hfree2) as (e & Hstore).
      * by rewrite Hclock2, Hclock, Hdb2, Hdb.
      * unfold try_catch in Hrun. rewrite Hstore in Hrun. unfold ret in Hrun.
        injection Hrun as <- <-.
        split; [reflexivity|]. split; [reflexivity | congruence].
Qed.

(** C3 as stated fails: a creation request whose first generated code is
    free is answered 500, not 201, when the expiration it asks for lies
    beyond the range of dates. *)
Lemma creation_fails_after_a_free_code :
  ~ (forall (P : Platform) (ctx : Context) (fields : Fields) (w : World),
        ctx_body ctx = Some (ParsedObject fields) ->
        JsString.truthy_opt (f_url fields) = true ->
        @Validator.isValidUrl P (the (f_url fields)) = true ->
        JsString.truthy_opt (f_customCode fields) = false ->
        ~ Forall (taken (db w)) (generated 10 w) ->
        exists (answer : Response) (w' : World),
          @UrlController.createShortUrl P ctx w = (Returned answer, w')
          /\ status answer = 201).
Proof.
  intros Hclaim.
  destruct (Hclaim demo_platform shorten_for_ages
              (mkFields None None None (Some "https://example.com") None
                 (Some 1000000000000))
              demo_world eq_refl eq_refl eq_refl eq_refl)
    as (answer & w' & Hrun & Hstatus).
  - intros Hall. apply Forall_cons in Hall as [[r Hr] _]. vm_compute in Hr. discriminate.
  - assert (Hfst : fst (@UrlController.createShortUrl demo_platform shorten_for_ages
                          demo_world)
                   = Returned creation_failed) by (vm_compute; reflexivity).
    rewrite Hrun in Hfst. simpl in Hfst. injection Hfst as ->.
    vm_compute in Hstatus. discriminate.
Qed.

End CreationProperties.

(** ** The rate limiter *)

Section LimiterProperties.

Context `{Platform}.

(** The limiter, case by case on the record of the client. *)
Lemma rateLimit_step (maxRequests windowMs : Z) (ctx : Context)
    (next : Context -> M Response) (w : World) :
  let ip := client_ip (req ctx) in
  rateLimit maxRequests windowMs ctx next w
  = match rateLimitStore w !! ip with
    | Some record =>
        if clock w <? resetAt record then
          if maxRequests <=? count record then too_many_requests maxRequests record w
          else
            next ctx
              (set_rateLimitStore
                 (<[ip := mkRateRecord (count record + 1) (resetAt record)]> (rateLimitStore w))
                 w)
        else
          next ctx
            (set_rateLimitStore
               (<[ip := mkRateRecord 1 (clock w + windowMs)]> (rateLimitStore w)) w)
    | None =>
        next ctx
          (set_rateLimitStore
             (<[ip := mkRateRecord 1 (clock w + windowMs)]> (rateLimitStore w)) w)
    end.
Proof.
  intros ip. unfold rateLimit. fold ip. unfold bind, Date_now, gets, modify.
  destruct (rateLimitStore w !! ip) as [record|]; [|done].
  destruct (clock w <? resetAt record); [|done].
  by destruct (maxRequests <=? count record).
Qed.

Lemma too_many_requests_world (maxRequests : Z) (record : RateRecord) (w : World) :
  snd (too_many_requests maxRequests record w) = w.
Proof.
  unfold too_many_requests, bind, Date_toISOString. by destruct (_ <=? _).
Qed.

Lemma too_many_requests_limited (maxRequests : Z) (record : RateRecord) (w : World) :
  Z.abs (resetAt record) <= max_time_value ->
  too_many_requests maxRequests record w
  = (Returned (limited maxRequests (resetAt record)), w).
Proof.
  intros Hrange. unfold too_many_requests, bind, Date_toISOString.
  apply Z.leb_le in Hrange. by rewrite Hrange.
Qed.

(** A request leaves the records of the other clients as they were. *)
Lemma rateLimit_other_key (maxRequests windowMs : Z) (request : Request) (w : World)
    (key : string) :
  client_ip request <> key ->
  rateLimitStore
    (snd (rateLimit maxRequests windowMs (mkContext request None None None)
            (fun _ => ret passed) w)) !! key
  = rateLimitStore w !! key.
Proof.
  intros Hother. rewrite rateLimit_step. simpl.
  destruct (rateLimitStore w !! client_ip request) as [record|].
  - destruct (clock w <? resetAt record).
    + destruct (maxRequests <=? count record).
      * by rewrite too_many_requests_world.
      * simpl. by rewrite lookup_insert_ne.
    + simpl. by rewrite lookup_insert_ne.
  - simpl. by rewrite lookup_insert_ne.
Qed.

Lemma limiter_run_untouched (maxRequests windowMs : Z) (requests : list (Request * Z))
    (w : World) (key : string) :
  Forall (fun p => client_ip (fst p) <> key) requests ->
  rateLimitStore (snd (limiter_run maxRequests windowMs requests w)) !! key
  = rateLimitStore w !! key.
Proof.
  revert w. induction requests as [|[request t] later IH]; intros w Hall; simpl; [done|].
  apply Forall_cons in Hall as [Hhead Hlater]. simpl in Hhead.
  pose proof (rateLimit_other_key maxRequests windowMs request (set_clock t w) key Hhead)
    as Hstep.
  destruct (rateLimit maxRequests windowMs _ _ (set_clock t w)) as [outcome w1].
  specialize (IH w1 Hlater).
  destruct (limiter_run maxRequests windowMs later w1) as [outcomes w2].
  simpl in *. by rewrite IH, Hstep.
Qed.

(** Inside a window whose record stands at [c]: the next [maxRequests - c]
    requests of the client pass, raising the count, and all further ones
    are answered 429 with the count left alone. *)
Lemma limiter_run_in_window (maxRequests windowMs : Z) (key : string) (reset : Z)
    (requests : list (Request * Z)) (w : World) (c : Z) :
  Z.abs reset <= max_time_value ->
  rateLimitStore w !! key = Some (mkRateRecord c reset) ->
  c <= maxRequests ->
  Forall (fun p => client_ip (fst p) = key -> snd p < reset) requests ->
  let n := List.length (requests_of key requests) in
  let allowance := Z.to_nat (maxRequests - c) in
  outcomes_of key (fst (limiter_run maxRequests windowMs requests w))
  = List.repeat (Returned passed) (Nat.min n allowance)
    ++ List.repeat (Returned (limited maxRequests reset)) (n - allowance)
  /\ rateLimitStore (snd (limiter_run maxRequests windowMs requests w)) !! key
     = Some (mkRateRecord (c + Z.of_nat (Nat.min n allowance)) reset).
Proof.
  intros Hrange. revert w c.
  induction requests as [|[request t] later IH]; intros w c Hrecord Hc Hall; simpl.
  - rewrite Z.add_0_r. by split.
  - apply Forall_cons in Hall as [Hhead Hlater]. simpl in Hhead.
    unfold requests_of. simpl.
    destruct (String.eqb (client_ip request) key) eqn:Hkey.
    + apply String.eqb_eq in Hkey. specialize (Hhead Hkey).
      rewrite rateLimit_step. simpl. rewrite Hkey, Hrecord. simpl.
      apply Z.ltb_lt in Hhead. rewrite Hhead.
      destruct (maxRequests <=? c) eqn:Hfull.
      * apply Z.leb_le in Hfull.
        rewrite too_many_requests_limited by done.
        specialize (IH (set_clock t w) c Hrecord Hc Hlater).
        destruct (limiter_run maxRequests windowMs later (set_clock t w)) as [outcomes w2].
        unfold outcomes_of in *. simpl in *. rewrite String.eqb_refl. simpl.
        destruct IH as [-> ->].
        replace (Z.to_nat (maxRequests - c)) with 0%nat by lia.
        rewrite !Nat.min_0_r, !Nat.sub_0_r. by split.
      * apply Z.leb_gt in Hfull. unfold ret.
        specialize (IH (set_rateLimitStore
                          (<[key := mkRateRecord (c + 1) reset]> (rateLimitStore w))
                          (set_clock t w)) (c + 1)).
        destruct IH as [Houtcomes Hstore];
          [simpl; apply lookup_insert_eq | lia | done |].
        destruct (limiter_run maxRequests windowMs later _) as [outcomes w2].
        unfold outcomes_of in *. simpl in *. rewrite String.eqb_refl. simpl.
        rewrite Houtcomes, Hstore.
        replace (Z.to_nat (maxRequests - c)) with (S (Z.to_nat (maxRequests - (c + 1))))
          by lia.
        simpl. split; [done|]. rewrite Nat2Z.inj_succ. do 2 f_equal. unfold requests_of. lia.
    + apply String.eqb_neq in Hkey.
      pose proof (rateLimit_other_key maxRequests windowMs request (set_clock t w) key Hkey)
        as Hstep.
      destruct (rateLimit maxRequests windowMs _ _ (set_clock t w)) as [outcome w1].
      simpl in Hstep. rewrite <- Hstep in Hrecord.
      specialize (IH w1 c Hrecord Hc Hlater).
      destruct (limiter_run maxRequests windowMs later w1) as [outcomes w2].
      unfold outcomes_of in *. simpl in *.
      apply String.eqb_neq in Hkey. rewrite Hkey. exact IH.
Qed.

(** A request that finds no window of its client running passes and
    opens one, the count at 1. *)
Lemma rateLimit_opens_window (maxRequests windowMs : Z) (request : Request) (key : string)
    (t0 : Z) (w : World) :
  client_ip request = key ->
  no_window key t0 w ->
  rateLimit maxRequests windowMs (mkContext request None None None)
    (fun _ => ret passed) (set_clock t0 w)
  = (Returned passed,
     set_rateLimitStore (<[key := mkRateRecord 1 (t0 + windowMs)]> (rateLimitStore w))
       (set_clock t0 w)).
Proof.
  intros Hkey Hfresh. rewrite rateLimit_step. simpl. rewrite Hkey.
  unfold no_window in Hfresh.
  destruct (rateLimitStore w !! key) as [record|]; [|done].
  by replace (t0 <? resetAt record) with false by (symmetry; apply Z.ltb_ge; lia).
Qed.

(** C4: take a request of a client that finds no window of its own
    running, and the requests that follow, those of the same client all
    before the reset instant of the window the first one opens, those of
    other clients interleaved at will. The first one restarts the count
    at 1; of the client's requests the first [maxRequests] pass and every
    further one is answered 429, the count staying at [maxRequests]; and
    the record of a client that sends nothing stays as it was. *)
Theorem limiter_window (maxRequests windowMs : Z) (key : string) (first : Request)
    (t0 : Z) (later : list (Request * Z)) (w : World) :
  1 <= maxRequests ->
  Z.abs (t0 + windowMs) <= max_time_value ->
  client_ip first = key ->
  no_window key t0 w ->
  Forall (fun p => client_ip (fst p) = key -> snd p < t0 + windowMs) later ->
  let requests := (first, t0) :: later in
  let n := List.length (requests_of key requests) in
  let run := limiter_run maxRequests windowMs requests w in
  outcomes_of key (fst run)
  = List.repeat (Returned passed) (Nat.min n (Z.to_nat maxRequests))
    ++ List.repeat (Returned (limited maxRequests (t0 + windowMs))) (n - Z.to_nat maxRequests)
  /\ rateLimitStore (snd run) !! key
     = Some (mkRateRecord (Z.of_nat (Nat.min n (Z.to_nat maxRequests))) (t0 + windowMs))
  /\ (forall other : string,
         Forall (fun p => client_ip (fst p) <> other) requests ->
         rateLimitStore (snd run) !! other = rateLimitStore w !! other).
Proof.
  intros Hmax Hrange Hkey Hfresh Hlater requests n run.
  split; [|split].
  3: { intros other Hother. by apply limiter_run_untouched. }
  all: subst run n requests; unfold requests_of; simpl;
    rewrite Hkey, String.eqb_refl; simpl;
    rewrite (rateLimit_opens_window _ _ _ _ _ _ Hkey Hfresh);
    destruct (limiter_run_in_window maxRequests windowMs key (t0 + windowMs) later
                (set_rateLimitStore
                   (<[key := mkRateRecord 1 (t0 + windowMs)]> (rateLimitStore w))
                   (set_clock t0 w)) 1 Hrange)
      as [Houtcomes Hstore];
    [ simpl; apply lookup_insert_eq | lia | done | ];
    destruct (limiter_run maxRequests windowMs later _) as [outcomes w2];
    unfold outcomes_of in *; simpl in *; rewrite ?String.eqb_refl; simpl.
  - rewrite Houtcomes. unfold requests_of.
    replace (Z.to_nat maxRequests) with (S (Z.to_nat (maxRequests - 1))) by lia.
    done.
  - rewrite Hstore. unfold requests_of.
    replace (Z.to_nat maxRequests) with (S (Z.to_nat (maxRequests - 1))) by lia.
    simpl. do 2 f_equal. lia.
Qed.

End LimiterProperties.

(** ** Invariants of the store under the server *)

Section StoreInvariants.

Context `{Platform}.

Lemma sat_keeps {A : Type} (J : Db -> Prop) (m : M A) :
  (forall w, J (db w) -> J (db (snd (m w)))) -> sat (on_db J) anything m.
Proof.
  intros Hm w Hw. split; [by apply Hm|]. unfold anything. by destruct (fst (m w)).
Qed.

Lemma find_app_found {A : Type} (p : A -> bool) (l l' : list A) (x : A) :
  List.find p l = Some x -> List.find p (l ++ l') = Some x.
Proof.
  induction l as [|a l IH]; simpl; [done|]. by destruct (p a).
Qed.

Lemma find_filter_kept {A : Type} (p q : A -> bool) (l : list A) (x : A) :
  List.find p l = Some x -> q x = true -> List.find p (List.filter q l) = Some x.
Proof.
  induction l as [|a l IH]; simpl; [done|]. intros Hfind Hq.
  destruct (p a) eqn:Hp.
  - injection Hfind as ->. rewrite Hq. simpl. by rewrite Hp.
  - destruct (q a); [simpl; rewrite Hp|]; by apply IH.
Qed.

(** The five writing statements keep an ownerless URL in place. *)
Lemma createUser_keeps_anonymous (c u e p : string) :
  sat (on_db (anonymous_at c)) anything (queries.createUser u e p).
Proof.
  apply sat_keeps. intros w Hw. unfold queries.createUser.
  by repeat destruct (existsb _ _).
Qed.

Lemma createUrl_keeps_anonymous (c code url : string) (o e : option Z) :
  sat (on_db (anonymous_at c)) anything (queries.createUrl code url o e).
Proof.
  apply sat_keeps. intros w (r & Hfind & Hr). unfold queries.createUrl.
  destruct (existsb _ _); [by exists r|].
  destruct (foreign_keys && _); [by exists r|].
  exists r. split; [|done]. unfold queries.find_code in *. simpl.
  by apply find_app_found.
Qed.

Lemma incrementClicks_keeps_anonymous (c : string) (id : Z) :
  sat (on_db (anonymous_at c)) anything (queries.incrementClicks id).
Proof.
  apply sat_keeps. intros w (r & Hfind & Hr). unfold queries.incrementClicks, modify.
  unfold anonymous_at, queries.find_code in *. simpl.
  rewrite find_map_preserving by (by intros; destruct (_ =? _)).
  rewrite Hfind. simpl. eexists. split; [done|]. by destruct (_ =? _).
Qed.

Lemma deleteUrl_keeps_anonymous (c code : string) (u : Z) :
  sat (on_db (anonymous_at c)) anything (queries.deleteUrl code u).
Proof.
  apply sat_keeps. intros w (r & Hfind & Hr). unfold queries.deleteUrl.
  exists r. split; [|done]. unfold queries.find_code in *. simpl.
  apply find_filter_kept; [done|].
  unfold queries.delete_selects, queries.owned_by. rewrite Hr. by rewrite andb_false_r.
Qed.

Lemma logClick_keeps_anonymous (c : string) (id : Z) (ua rf : option string) (ip : string) :
  sat (on_db (anonymous_at c)) anything (queries.logClick id ua rf ip).
Proof.
  apply sat_keeps. intros w Hw. unfold queries.logClick.
  by destruct (foreign_keys && _).
Qed.

(** No request removes an ownerless URL or gives it an owner. *)
Lemma fetch_keeps_anonymous (c : string) (request : Request) (w : World) :
  anonymous_at c (db w) -> anonymous_at c (db (snd (fetch request w))).
Proof.
  intros Hw.
  apply (fetch_sat (anonymous_at c)
           (createUser_keeps_anonymous c) (createUrl_keeps_anonymous c)
           (incrementClicks_keeps_anonymous c) (deleteUrl_keeps_anonymous c)
           (logClick_keeps_anonymous c) request w Hw).
Qed.

Lemma serve_all_keeps_anonymous (c : string) (requests : list (Request * Z)) (w : World) :
  anonymous_at c (db w) -> anonymous_at c (db (serve_all requests w)).
Proof.
  revert w. induction requests as [|[request t] later IH]; intros w Hw; simpl; [done|].
  apply IH. by apply fetch_keeps_anonymous.
Qed.

(** The five writing statements keep the short codes distinct. *)
Lemma createUser_keeps_unique (u e p : string) :
  sat (on_db codes_unique) anything (queries.createUser u e p).
Proof.
  apply sat_keeps. intros w Hw. unfold queries.createUser.
  by repeat destruct (existsb _ _).
Qed.

Lemma createUrl_keeps_unique (code url : string) (o e : option Z) :
  sat (on_db codes_unique) anything (queries.createUrl code url o e).
Proof.
  apply sat_keeps. intros w Hw. unfold queries.createUrl.
  destruct (existsb _ _) eqn:Hex; [done|].
  destruct (foreign_keys && _); [done|].
  unfold codes_unique in *. simpl. rewrite List.map_app. simpl.
  apply NoDup_app. split; [done|]. split; [|apply NoDup_singleton].
  intros c Hc Hin. apply list_elem_of_singleton in Hin as ->.
  apply list_elem_of_In, in_map_iff in Hc as (r & Hr & Hrin).
  assert (Htrue : existsb (fun r => String.eqb (Url.short_code r) code) (urls (db w)) = true).
  { apply existsb_exists. exists r. split; [done|]. by apply String.eqb_eq. }
  congruence.
Qed.

Lemma incrementClicks_keeps_unique (id : Z) :
  sat (on_db codes_unique) anything (queries.incrementClicks id).
Proof.
  apply sat_keeps. intros w Hw. unfold queries.incrementClicks, modify, codes_unique in *.
  simpl. rewrite List.map_map.
  erewrite List.map_ext; [exact Hw|]. intros r. by destruct (_ =? _).
Qed.

Lemma NoDup_map_filter {A B : Type} (f : A -> B) (q : A -> bool) (l : list A) :
  NoDup (List.map f l) -> NoDup (List.map f (List.filter q l)).
Proof.
  induction l as [|a l IH]; simpl; [done|]. intros Hnodup.
  apply NoDup_cons in Hnodup as [Hnot Hnodup].
  destruct (q a); [|by apply IH]. simpl. apply NoDup_cons. split; [|by apply IH].
  intros Hin. apply Hnot.
  apply list_elem_of_In, in_map_iff in Hin as (x & Hx & Hxin).
  apply list_elem_of_In, in_map_iff. exists x. split; [done|].
  by apply List.filter_In in Hxin as [? _].
Qed.

Lemma deleteUrl_keeps_unique (code : string) (u : Z) :
  sat (on_db codes_unique) anything (queries.deleteUrl code u).
Proof.
  apply sat_keeps. intros w Hw. unfold queries.deleteUrl, codes_unique in *. simpl.
  by apply NoDup_map_filter.
Qed.

Lemma logClick_keeps_unique (id : Z) (ua rf : option string) (ip : string) :
  sat (on_db codes_unique) anything (queries.logClick id ua rf ip).
Proof.
  apply sat_keeps. intros w Hw. unfold queries.logClick.
  by destruct (foreign_keys && _).
Qed.

(** The UNIQUE constraint on short codes is an invariant of the server. *)
Lemma fetch_keeps_codes_unique (request : Request) (w : World) :
  codes_unique (db w) -> codes_unique (db (snd (fetch request w))).
Proof.
  intros Hw.
  apply (fetch_sat codes_unique createUser_keeps_unique createUrl_keeps_unique
           incrementClicks_keeps_unique deleteUrl_keeps_unique logClick_keeps_unique
           request w Hw).
Qed.

(** C10: for a URL created without an owner, the analytics request of any
    authenticated caller is answered 403, the delete request of any
    authenticated caller is answered 404 with the world unchanged, and
    whatever requests the server is sent the URL stays in the store,
    still without an owner. *)
Theorem anonymous_urls_are_out_of_reach (ctx : Context) (w : World) (caller : JwtPayload)
    (c : string) (r : Url.row) :
  user ctx = Some caller ->
  params_code ctx = Some c -> c <> "" ->
  codes_unique (db w) ->
  queries.find_code c (db w) = Some r ->
  Url.user_id r = None ->
  UrlController.getAnalytics ctx w = (Returned forbidden, w)
  /\ UrlController.deleteUrl ctx w = (Returned not_found_or_unauthorized, w)
  /\ (forall requests : list (Request * Z), anonymous_at c (db (serve_all requests w))).
Proof.
  intros Huser Hcode Hne Hunique Hfind Hanon.
  assert (Hown : Url.user_id r <> Some (userId caller)) by (by rewrite Hanon).
  split; [by eapply getAnalytics_not_owner|].
  split; [by eapply deleteUrl_not_owner|].
  intros requests. apply serve_all_keeps_anonymous. by exists r.
Qed.

End StoreInvariants.

(** ** The properties at work on the example store *)

Lemma redirect_expiration_witness :
  params_code (code_context (get_request "/old123" []) None "old123") = Some "old123"
  /\ "old123" <> ""
  /\ lapsed old_row (clock demo_world)
  /\ live bunjs_row (clock demo_world)
  /\ (exists answer : Response,
         @UrlController.redirect demo_platform
           (code_context (get_request "/old123" []) None "old123") demo_world
         = (Returned answer, demo_world)
         /\ status answer = 410 /\ body answer = TextBody "URL has expired")
  /\ (exists (answer : Response) (w' : World),
         @UrlController.redirect demo_platform
           (code_context (get_request "/bunjs" []) None "bunjs") demo_world
         = (Returned answer, w')
         /\ status answer = 302
         /\ header "Location" (headers answer) = Some "https://github.com/oven-sh/bun")
  /\ (exists answer : Response,
         @UrlController.redirect demo_platform
           (code_context (get_request "/nothere" []) None "nothere") demo_world
         = (Returned answer, demo_world)
         /\ status answer = 404 /\ body answer = TextBody "URL not found").
Proof.
  assert (Hcode : params_code (code_context (get_request "/old123" []) None "old123")
                  = Some "old123") by reflexivity.
  assert (Hne : "old123" <> "") by discriminate.
  assert (Hlapsed : lapsed old_row (clock demo_world)) by (unfold lapsed; simpl; lia).
  assert (Hlive : live bunjs_row (clock demo_world)) by exact I.
  split; [exact Hcode|]. split; [exact Hne|]. split; [exact Hlapsed|]. split; [exact Hlive|].
  split; [|split].
  - destruct (@redirect_expiration demo_platform _ demo_world "old123" Hcode Hne)
      as (answer & w' & Hrun & Hthm).
    change (queries.find_code "old123" (db demo_world)) with (Some old_row) in Hthm.
    destruct Hthm as [Hthm _]. destruct (Hthm Hlapsed) as (Hstatus & Hbody & Hworld).
    exists answer. rewrite Hworld in Hrun. split; [exact Hrun|]. split; [exact Hstatus|].
    exact Hbody.
  - destruct (@redirect_expiration demo_platform
                (code_context (get_request "/bunjs" []) None "bunjs") demo_world "bunjs"
                eq_refl) as (answer & w' & Hrun & Hthm); [discriminate|].
    change (queries.find_code "bunjs" (db demo_world)) with (Some bunjs_row) in Hthm.
    destruct Hthm as [_ Hthm]. destruct (Hthm Hlive) as (Hstatus & Hlocation & _).
    exists answer, w'. split; [exact Hrun|]. split; [exact Hstatus | exact Hlocation].
  - destruct (@redirect_expiration demo_platform
                (code_context (get_request "/nothere" []) None "nothere") demo_world
                "nothere" eq_refl) as (answer & w' & Hrun & Hthm); [discriminate|].
    change (queries.find_code "nothere" (db demo_world)) with (@None Url.row) in Hthm.
    destruct Hthm as (Hstatus & Hbody & Hworld).
    exists answer. rewrite Hworld in Hrun. split; [exact Hrun|]. split; [exact Hstatus|].
    exact Hbody.
Defined.

Lemma redirects_are_counted_witness :
  params_code (code_context (get_request "/bunjs" []) None "bunjs") = Some "bunjs"
  /\ "bunjs" <> ""
  /\ queries.find_code "bunjs" (db demo_world) = Some bunjs_row
  /\ Forall (live bunjs_row) [1000; 2000; 3000]
  /\ Url.clicks bunjs_row = 0
  /\ option_map Url.clicks
       (queries.find_code "bunjs"
          (db (snd (serve_at (@UrlController.redirect demo_platform)
                      (code_context (get_request "/bunjs" []) None "bunjs")
                      [1000; 2000; 3000] demo_world))))
     = Some 3
  /\ List.length
       (analytics
          (db (snd (serve_at (@UrlController.redirect demo_platform)
                      (code_context (get_request "/bunjs" []) None "bunjs")
                      [1000; 2000; 3000] demo_world))))
     = 3%nat.
Proof.
  assert (Hcode : params_code (code_context (get_request "/bunjs" []) None "bunjs")
                  = Some "bunjs") by reflexivity.
  assert (Hne : "bunjs" <> "") by discriminate.
  assert (Hfind : queries.find_code "bunjs" (db demo_world) = Some bunjs_row) by reflexivity.
  assert (Hlive : Forall (live bunjs_row) [1000; 2000; 3000])
    by (repeat constructor).
  split; [exact Hcode|]. split; [exact Hne|]. split; [exact Hfind|]. split; [exact Hlive|].
  split; [reflexivity|].
  destruct (@redirects_are_counted demo_platform _ demo_world "bunjs" bunjs_row
              [1000; 2000; 3000] Hcode Hne Hfind Hlive)
    as (_ & _ & (r' & Hfound & Hclicks & _) & Hrows & _).
  split; [|exact Hrows]. rewrite Hfound. simpl. by rewrite Hclicks.
Defined.

Lemma ownership_isolation_witness :
  user (code_context (get_request "/api/urls/bunjs/analytics" []) (Some alice) "bunjs")
  = Some alice
  /\ codes_unique (db demo_world)
  /\ queries.find_code "bunjs" (db demo_world) = Some bunjs_row
  /\ Url.user_id bunjs_row = Some 2
  /\ 2 <> userId alice
  /\ @UrlController.getAnalytics demo_platform
       (code_context (get_request "/api/urls/bunjs/analytics" []) (Some alice) "bunjs")
       demo_world
     = (Returned forbidden, demo_world)
  /\ @UrlController.deleteUrl demo_platform
       (code_context (get_request "/api/urls/bunjs/analytics" []) (Some alice) "bunjs")
       demo_world
     = (Returned not_found_or_unauthorized, demo_world).
Proof.
  assert (Hunique : codes_unique (db demo_world)).
  { apply (bool_decide_unpack _). vm_compute. exact I. }
  assert (Hne : "bunjs" <> "") by discriminate.
  assert (Hab : 2 <> userId alice) by (simpl; lia).
  split; [reflexivity|]. split; [exact Hunique|]. split; [reflexivity|].
  split; [reflexivity|]. split; [exact Hab|].
  destruct (@ownership_isolation demo_platform
              (code_context (get_request "/api/urls/bunjs/analytics" []) (Some alice) "bunjs")
              demo_world alice 2 "bunjs" bunjs_row
              eq_refl eq_refl Hne Hunique eq_refl eq_refl Hab) as (Hanalytics & Hdelete & _).
  split; [exact Hanalytics | exact Hdelete].
Defined.

Lemma anonymous_urls_are_out_of_reach_witness :
  user (code_context (get_request "/api/urls/anon01" []) (Some alice) "anon01") = Some alice
  /\ codes_unique (db demo_world)
  /\ queries.find_code "anon01" (db demo_world) = Some anon_row
  /\ Url.user_id anon_row = None
  /\ @UrlController.getAnalytics demo_platform
       (code_context (get_request "/api/urls/anon01" []) (Some alice) "anon01") demo_world
     = (Returned forbidden, demo_world)
  /\ @UrlController.deleteUrl demo_platform
       (code_context (get_request "/api/urls/anon01" []) (Some alice) "anon01") demo_world
     = (Returned not_found_or_unauthorized, demo_world)
  /\ anonymous_at "anon01"
       (db (@serve_all demo_platform
              [(mkRequest "DELETE" "/api/urls/anon01"
                  {[ "authorization" := "Bearer token-alice" ]} "", 2000)]
              demo_world)).
Proof.
  assert (Hunique : codes_unique (db demo_world)).
  { apply (bool_decide_unpack _). vm_compute. exact I. }
  assert (Hne : "anon01" <> "") by discriminate.
  split; [reflexivity|]. split; [exact Hunique|]. split; [reflexivity|].
  split; [reflexivity|].
  destruct (@anonymous_urls_are_out_of_reach demo_platform
              (code_context (get_request "/api/urls/anon01" []) (Some alice) "anon01")
              demo_world alice "anon01" anon_row
              eq_refl eq_refl Hne Hunique eq_refl eq_refl) as (Hanalytics & Hdelete & Hstays).
  split; [exact Hanalytics|]. split; [exact Hdelete|]. apply Hstays.
Defined.

Lemma limiter_window_witness :
  1 <= 2
  /\ Z.abs (0 + 1000) <= max_time_value
  /\ client_ip (from "1.2.3.4") = "1.2.3.4"
  /\ no_window "1.2.3.4" 0 demo_world
  /\ Forall (fun p => client_ip (fst p) = "1.2.3.4" -> snd p < 0 + 1000) burst
  /\ outcomes_of "1.2.3.4"
       (fst (@limiter_run demo_platform 2 1000 ((from "1.2.3.4", 0) :: burst) demo_world))
     = [Returned passed; Returned passed; Returned (@limited demo_platform 2 1000)]
  /\ rateLimitStore
       (snd (@limiter_run demo_platform 2 1000 ((from "1.2.3.4", 0) :: burst) demo_world))
     !! "1.2.3.4"
     = Some (mkRateRecord 2 1000).
Proof.
  assert (Hmax : 1 <= 2) by lia.
  assert (Hrange : Z.abs (0 + 1000) <= max_time_value) by (unfold max_time_value; lia).
  assert (Hkey : client_ip (from "1.2.3.4") = "1.2.3.4") by reflexivity.
  assert (Hfresh : no_window "1.2.3.4" 0 demo_world) by exact I.
  assert (Hlater : Forall (fun p => client_ip (fst p) = "1.2.3.4" -> snd p < 0 + 1000) burst).
  { repeat constructor; simpl; lia. }
  split; [exact Hmax|]. split; [exact Hrange|]. split; [exact Hkey|].
  split; [exact Hfresh|]. split; [exact Hlater|].
  destruct (@limiter_window demo_platform 2 1000 "1.2.3.4" (from "1.2.3.4") 0 burst demo_world
              Hmax Hrange Hkey Hfresh Hlater) as (Houtcomes & Hstore & _).
  split; [exact Houtcomes | exact Hstore].
Defined.

Lemma createShortUrl_seeks_unique_code_witness :
  ctx_body shorten_context = Some (ParsedObject (url_only "https://example.com"))
  /\ JsString.truthy_opt (f_url (url_only "https://example.com")) = true
  /\ @Validator.isValidUrl demo_platform (the (f_url (url_only "https://example.com"))) = true
  /\ JsString.truthy_opt (f_customCode (url_only "https://example.com")) = false
  /\ generated 10 retry_world !! 0%nat = Some "aaaaaa"
  /\ taken (db retry_world) "aaaaaa"
  /\ generated 10 retry_world !! 1%nat = Some "ghijkl"
  /\ queries.find_code "ghijkl" (db retry_world) = None
  /\ exists (answer : Response) (w' : World),
       @UrlController.createShortUrl demo_platform shorten_context retry_world
       = (Returned answer, w')
       /\ status answer = 201
       /\ urls (db w')
          = urls (db retry_world)
            ++ [Url.mk 2 "ghijkl" "https://example.com" None 0 1000 None].
Proof.
  assert (Htaken : taken (db retry_world) "aaaaaa") by (by eexists).
  split; [reflexivity|]. split; [reflexivity|]. split; [reflexivity|].
  split; [reflexivity|]. split; [reflexivity|]. split; [exact Htaken|].
  split; [reflexivity|]. split; [reflexivity|].
  destruct (@createShortUrl_seeks_unique_code demo_platform shorten_context
              (url_only "https://example.com") retry_world
              eq_refl eq_refl eq_refl eq_refl) as (answer & w' & Hrun & _ & _ & Hfree).
  destruct (Hfree 1%nat "ghijkl") as [Hcreated _].
  - reflexivity.
  - reflexivity.
  - intros j c Hj Hc. destruct j as [|j]; [|lia].
    vm_compute in Hc. injection Hc as <-. exact Htaken.
  - destruct Hcreated as (Hstatus & _ & Hurls).
    + split; [exact I | intros _; exact I].
    + exists answer, w'. split; [exact Hrun|]. split; [exact Hstatus | exact Hurls].
Defined.

(** When every generated code is taken the creation request is answered
    500 after ten checks. *)
Example createShortUrl_exhaustion :
  fst (@UrlController.createShortUrl demo_platform shorten_context exhausted_world)
  = Returned (Response_json
                (JObj [("success", JBool false);
                       ("error", JStr "Failed to generate unique code");
                       ("statusCode", JNum 400)]) 500)
  /\ cursor (rng (snd (@UrlController.createShortUrl demo_platform shorten_context
                         exhausted_world))) = 66%nat.
Proof. split; vm_compute; reflexivity. Qed.

(** The routes of the program: the analytics route binds [code], and the
    redirect route does not shadow it. *)
Example routes_analytics :
  option_map (fun m => (route_path (fst m), snd m !! "code"))
    (Router.match_ (@routes demo_platform) "GET" "/api/urls/bunjs/analytics")
  = Some ("/api/urls/:code/analytics", Some "bunjs").
Proof. vm_compute. reflexivity. Qed.

Example routes_redirect :
  option_map (fun m => (route_path (fst m), snd m !! "code"))
    (Router.match_ (@routes demo_platform) "GET" "/bunjs")
  = Some ("/:code", Some "bunjs").
Proof. vm_compute. reflexivity. Qed.

Example routes_none :
  option_map (fun m => route_path (fst m))
    (Router.match_ (@routes demo_platform) "PUT" "/api/urls/bunjs")
  = None.
Proof. vm_compute. reflexivity. Qed.

(** Header values and the token extracted from them. *)
Example extract_bearer :
  AuthService.extractTokenFromHeader (Some "Bearer abc.def") = Some "abc.def"
  /\ AuthService.extractTokenFromHeader (Some "bearer abc.def") = None
  /\ AuthService.extractTokenFromHeader (Some "Bearer  abc") = None
  /\ AuthService.extractTokenFromHeader (Some "Bearer") = None
  /\ AuthService.extractTokenFromHeader (Some "Bearer ") = Some ""
  /\ AuthService.extractTokenFromHeader None = None.
Proof. repeat split. Qed.

(** * Further properties of the code *)

(** ** The regular expressions of the validators *)

Section RegexProperties.

Lemma append_cons (c : ascii) (s t : string) : String c s +:+ t = String c (s +:+ t).
Proof. reflexivity. Qed.

Lemma append_one (c : ascii) (s : string) : String c "" +:+ s = String c s.
Proof. reflexivity. Qed.

Lemma append_empty_r (s : string) : s +:+ "" = s.
Proof. induction s as [|c s IH]; [done|]. by rewrite append_cons, IH. Qed.

Lemma append_assoc (s1 s2 s3 : string) : (s1 +:+ s2) +:+ s3 = s1 +:+ (s2 +:+ s3).
Proof. induction s1 as [|c s1 IH]; [done|]. by rewrite !append_cons, IH. Qed.

Lemma append_length (s1 s2 : string) :
  String.length (s1 +:+ s2) = (String.length s1 + String.length s2)%nat.
Proof. induction s1 as [|c s1 IH]; [done|]. rewrite append_cons. simpl. by rewrite IH. Qed.

Lemma append_empty (s1 s2 : string) : s1 +:+ s2 = "" -> s1 = "" /\ s2 = "".
Proof. by destruct s1. Qed.

Lemma all_chars_append (p : ascii -> bool) (s1 s2 : string) :
  all_chars p (s1 +:+ s2) = all_chars p s1 && all_chars p s2.
Proof.
  induction s1 as [|c s1 IH]; [done|]. rewrite append_cons. simpl.
  by rewrite IH, andb_assoc.
Qed.

Lemma nullable_lang (r : Regex.re) : Regex.nullable r = true <-> lang r "".
Proof.
  split.
  - induction r as [| |p|r1 IH1 r2 IH2|r1 IH1 r2 IH2|r IH]; simpl; intros Hn; try done.
    + constructor.
    + apply andb_true_iff in Hn as [H1 H2]. apply (lang_cat r1 r2 "" ""); auto.
    + apply orb_true_iff in Hn as [H1 | H2]; [apply lang_alt_l | apply lang_alt_r]; auto.
    + constructor.
  - intros Hl. remember "" as s eqn:Hs.
    induction Hl as [|p c Hp|r1 r2 s1 s2 H1 IH1 H2 IH2|r1 r2 s H1 IH1|r1 r2 s H2 IH2
                    |r|r s1 s2 H1 IH1 H2 IH2]; simpl; try done.
    + apply append_empty in Hs as [-> ->].
      by rewrite IH1, IH2.
    + by rewrite IH1.
    + by rewrite IH2, orb_true_r.
Qed.

Lemma deriv_sound (c : ascii) (r : Regex.re) (s : string) :
  lang (Regex.deriv c r) s -> lang r (String c s).
Proof.
  revert s. induction r as [| |p|r1 IH1 r2 IH2|r1 IH1 r2 IH2|r IH]; simpl; intros s Hl.
  - inversion Hl.
  - inversion Hl.
  - destruct (p c) eqn:Hp; inversion Hl; subst. by constructor.
  - destruct (Regex.nullable r1) eqn:Hn.
    + inversion Hl as [| | |? ? ? Hcat|? ? ? Hr2| |]; subst.
      * inversion Hcat as [| |? ? s1 s2 H1 H2| | | |]; subst.
        apply (lang_cat r1 r2 (String c s1) s2); auto.
      * apply (lang_cat r1 r2 "" (String c s)); [by apply nullable_lang | auto].
    + inversion Hl as [| |? ? s1 s2 H1 H2| | | |]; subst.
      apply (lang_cat r1 r2 (String c s1) s2); auto.
  - inversion Hl; subst; [apply lang_alt_l | apply lang_alt_r]; auto.
  - inversion Hl as [| |? ? s1 s2 H1 H2| | | |]; subst.
    apply (lang_star_cons r (String c s1) s2); auto.
Qed.

Lemma deriv_complete (c : ascii) (r : Regex.re) (s : string) :
  lang r (String c s) -> lang (Regex.deriv c r) s.
Proof.
  intros Hl. remember (String c s) as cs eqn:Hcs. revert s Hcs.
  induction Hl as [|p c' Hp|r1 r2 s1 s2 H1 IH1 H2 IH2|r1 r2 s' H1 IH1|r1 r2 s' H2 IH2
                  |r|r s1 s2 H1 IH1 H2 IH2]; intros s Hcs; simpl; try done.
  - injection Hcs as -> <-. rewrite Hp. constructor.
  - destruct s1 as [|c1 s1];
      [change (s2 = String c s) in Hcs | rewrite append_cons in Hcs].
    + subst s2. change ("" +:+ String c s) with (String c s) in *. apply nullable_lang in H1. rewrite H1. apply lang_alt_r. by apply IH2.
    + injection Hcs as -> <-.
      assert (Hcat : lang (Regex.Cat (Regex.deriv c r1) r2) (s1 +:+ s2))
        by (constructor; [by apply IH1 | done]).
      destruct (Regex.nullable r1); [by apply lang_alt_l | done].
  - apply lang_alt_l. by apply IH1.
  - apply lang_alt_r. by apply IH2.
  - destruct s1 as [|c1 s1];
      [change (s2 = String c s) in Hcs | rewrite append_cons in Hcs].
    + by apply IH2.
    + injection Hcs as -> <-. constructor; [by apply IH1 | done].
Qed.

Lemma is_void_true (r : Regex.re) : Regex.is_void r = true -> r = Regex.Void.
Proof. by destruct r. Qed.

Lemma simp_lang (r : Regex.re) (s : string) : lang (Regex.simp r) s <-> lang r s.
Proof.
  revert s. induction r as [| |p|r1 IH1 r2 IH2|r1 IH1 r2 IH2|r IH]; intros s; simpl;
    try done.
  - destruct (Regex.is_void (Regex.simp r1)) eqn:Hv1; simpl.
    + apply is_void_true in Hv1. split; [by inversion 1|].
      inversion 1 as [| |? ? s1 s2 H1 H2| | | |]; subst.
      apply IH1 in H1. rewrite Hv1 in H1. inversion H1.
    + destruct (Regex.is_void (Regex.simp r2)) eqn:Hv2.
      * apply is_void_true in Hv2. split; [by inversion 1|].
        inversion 1 as [| |? ? s1 s2 H1 H2| | | |]; subst.
        apply IH2 in H2. rewrite Hv2 in H2. inversion H2.
      * split; inversion 1 as [| |? ? s1 s2 H1 H2| | | |]; subst;
          constructor; by first [apply IH1 | apply IH2].
  - destruct (Regex.is_void (Regex.simp r1)) eqn:Hv1.
    + apply is_void_true in Hv1. rewrite IH2. split; [by apply lang_alt_r|].
      inversion 1 as [| | |? ? ? H1|? ? ? H2| |]; subst; [|done].
      apply IH1 in H1. rewrite Hv1 in H1. inversion H1.
    + destruct (Regex.is_void (Regex.simp r2)) eqn:Hv2.
      * apply is_void_true in Hv2. rewrite IH1. split; [by apply lang_alt_l|].
        inversion 1 as [| | |? ? ? H1|? ? ? H2| |]; subst; [done|].
        apply IH2 in H2. rewrite Hv2 in H2. inversion H2.
      * split; inversion 1; subst;
          first [apply lang_alt_l; by apply IH1 | apply lang_alt_r; by apply IH2].
Qed.

(** The matcher decides the language. *)
Lemma matches_lang (r : Regex.re) (s : string) : Regex.matches r s = true <-> lang r s.
Proof.
  revert r. induction s as [|c s IH]; intros r; simpl.
  - apply nullable_lang.
  - rewrite IH, simp_lang. split; [apply deriv_sound | apply deriv_complete].
Qed.

Lemma lang_eps_iff (s : string) : lang Regex.Eps s <-> s = "".
Proof. split; [by inversion 1 | intros ->; constructor]. Qed.

Lemma lang_class_iff (p : ascii -> bool) (s : string) :
  lang (Regex.Class p) s <-> exists c, s = String c "" /\ p c = true.
Proof.
  split; [inversion 1; subst; by eexists | intros (c & -> & Hc); by constructor].
Qed.

Lemma lang_cat_iff (r1 r2 : Regex.re) (s : string) :
  lang (Regex.Cat r1 r2) s <-> exists s1 s2, s = s1 +:+ s2 /\ lang r1 s1 /\ lang r2 s2.
Proof.
  split; [inversion 1; subst; by eexists _, _ | intros (s1 & s2 & -> & H1 & H2); by constructor].
Qed.

Lemma lang_alt_iff (r1 r2 : Regex.re) (s : string) :
  lang (Regex.Alt r1 r2) s <-> lang r1 s \/ lang r2 s.
Proof.
  split; [inversion 1; subst; auto | intros [H1 | H2]; [by apply lang_alt_l | by apply lang_alt_r]].
Qed.

Lemma lang_exactly (n : nat) (p : ascii -> bool) (s : string) :
  lang (Regex.exactly n (Regex.Class p)) s
  <-> String.length s = n /\ all_chars p s = true.
Proof.
  revert s. induction n as [|n IH]; intros s; simpl.
  - rewrite lang_eps_iff. destruct s; split; try done; by intros [? ?].
  - rewrite lang_cat_iff. split.
    + intros (s1 & s2 & -> & H1 & H2). apply lang_class_iff in H1 as (c & -> & Hc).
      apply IH in H2 as [Hlen Hall]. rewrite append_one. simpl.
      by rewrite Hlen, Hc, Hall.
    + intros [Hlen Hall]. destruct s as [|c s]; [done|]. simpl in *.
      apply andb_true_iff in Hall as [Hc Hall].
      exists (String c ""), s. split; [done|]. split; [by apply lang_class_iff; eexists|].
      apply IH. split; [lia | done].
Qed.

Lemma lang_upto (n : nat) (p : ascii -> bool) (s : string) :
  lang (Regex.upto n (Regex.Class p)) s
  <-> (String.length s <= n)%nat /\ all_chars p s = true.
Proof.
  revert s. induction n as [|n IH]; intros s; simpl.
  - rewrite lang_eps_iff. destruct s; simpl; split; try done; [intros [? ?]; lia].
  - rewrite lang_alt_iff, lang_eps_iff, lang_cat_iff. split.
    + intros [-> | (s1 & s2 & -> & H1 & H2)]; [simpl; split; [lia | done]|].
      apply lang_class_iff in H1 as (c & -> & Hc).
      apply IH in H2 as [Hlen Hall]. rewrite append_one. simpl.
      rewrite Hc, Hall. split; [lia | done].
    + intros [Hlen Hall]. destruct s as [|c s]; [by left|]. right. simpl in *.
      apply andb_true_iff in Hall as [Hc Hall].
      exists (String c ""), s. split; [done|]. split; [by apply lang_class_iff; eexists|].
      apply IH. split; [lia | done].
Qed.

Lemma string_split_at (n : nat) (s : string) :
  (n <= String.length s)%nat ->
  exists s1 s2, s = s1 +:+ s2 /\ String.length s1 = n.
Proof.
  revert s. induction n as [|n IH]; intros s Hn.
  - by exists "", s.
  - destruct s as [|c s]; simpl in Hn; [lia|].
    destruct (IH s) as (s1 & s2 & -> & Hlen); [lia|].
    exists (String c s1), s2. simpl. by rewrite Hlen.
Qed.

(** [[class]{lo,hi}] between anchors: the length is in range and every
    character is in the class. *)
Lemma lang_between (lo hi : nat) (p : ascii -> bool) (s : string) :
  (lo <= hi)%nat ->
  lang (Regex.between lo hi (Regex.Class p)) s
  <-> (lo <= String.length s <= hi)%nat /\ all_chars p s = true.
Proof.
  intros Hle. unfold Regex.between. rewrite lang_cat_iff. split.
  - intros (s1 & s2 & -> & H1 & H2).
    apply lang_exactly in H1 as [Hlen1 Hall1]. apply lang_upto in H2 as [Hlen2 Hall2].
    rewrite append_length, all_chars_append, Hall1, Hall2. split; [lia | done].
  - intros [Hlen Hall].
    destruct (string_split_at lo s) as (s1 & s2 & -> & Hlen1); [lia|].
    rewrite append_length in Hlen. rewrite all_chars_append in Hall.
    apply andb_true_iff in Hall as [Hall1 Hall2].
    exists s1, s2. split; [done|].
    split; [by apply lang_exactly | apply lang_upto; split; [lia | done]].
Qed.

Lemma lang_star_any (s : string) : lang (Regex.Star Regex.any) s.
Proof.
  induction s as [|c s IH]; [constructor|].
  apply (lang_star_cons Regex.any (String c "") s); [by constructor | done].
Qed.

Lemma some_char_append (p : ascii -> bool) (s1 s2 : string) :
  some_char p (s1 +:+ s2) = some_char p s1 || some_char p s2.
Proof.
  induction s1 as [|c s1 IH]; [done|]. rewrite append_cons. simpl.
  by rewrite IH, orb_assoc.
Qed.

(** A class tested without anchors: some character is in the class. *)
Lemma test_class (p : ascii -> bool) (s : string) :
  Regex.test (Regex.Class p) s = some_char p s.
Proof.
  apply eq_true_iff_eq. unfold Regex.test. rewrite matches_lang, lang_cat_iff. split.
  - intros (s1 & s2 & -> & _ & H2). apply lang_cat_iff in H2 as (s3 & s4 & -> & H3 & _).
    apply lang_class_iff in H3 as (c & -> & Hc).
    rewrite append_one, some_char_append. simpl. by rewrite Hc, orb_true_r.
  - induction s as [|c s IH]; simpl; [done|]. intros Hsome.
    destruct (p c) eqn:Hc.
    + exists "", (String c s). split; [done|]. split; [constructor|].
      apply (lang_cat _ _ (String c "") s); [by constructor | apply lang_star_any].
    + destruct (IH Hsome) as (s1 & s2 & -> & _ & H2).
      exists (String c s1), s2. split; [done|]. split; [apply lang_star_any | done].
Qed.

Lemma lang_star_class (p : ascii -> bool) (s : string) :
  lang (Regex.Star (Regex.Class p)) s <-> all_chars p s = true.
Proof.
  split.
  - intros Hl. remember (Regex.Star (Regex.Class p)) as r eqn:Hr.
    induction Hl as [| | | | |r'|r' s1 s2 H1 IH1 H2 IH2]; try discriminate; [done|].
    injection Hr as ->. apply lang_class_iff in H1 as (c & -> & Hc).
    rewrite append_one. simpl. by rewrite Hc, IH2.
  - induction s as [|c s IH]; simpl; [constructor|]. intros Hall.
    apply andb_true_iff in Hall as [Hc Hall].
    apply (lang_star_cons _ (String c "") s); [by constructor | by apply IH].
Qed.

(** [[class]+]: a non-empty string of the class. *)
Lemma lang_plus_class (p : ascii -> bool) (s : string) :
  lang (Regex.plus (Regex.Class p)) s <-> s <> "" /\ all_chars p s = true.
Proof.
  unfold Regex.plus. rewrite lang_cat_iff. split.
  - intros (s1 & s2 & -> & H1 & H2). apply lang_class_iff in H1 as (c & -> & Hc).
    apply lang_star_class in H2. rewrite append_one. simpl. by rewrite Hc, H2.
  - intros [Hne Hall]. destruct s as [|c s]; [done|]. simpl in Hall.
    apply andb_true_iff in Hall as [Hc Hall].
    exists (String c ""), s. split; [done|].
    split; [by apply lang_class_iff; eexists | by apply lang_star_class].
Qed.

(** X1: [isValidUsername] accepts exactly the strings of 3 to 20
    characters, each a letter, a digit or an underscore. *)
Theorem isValidUsername_iff (username : string) :
  Validator.isValidUsername username = true
  <-> (3 <= String.length username <= 20)%nat /\ all_chars Regex.word username = true.
Proof.
  unfold Validator.isValidUsername. rewrite matches_lang. apply lang_between. lia.
Qed.

(** X2: [isValidPassword] accepts exactly the strings of at least 8
    characters with an upper-case letter, a lower-case letter and a digit
    among them. *)
Theorem isValidPassword_iff (password : string) :
  Validator.isValidPassword password = true
  <-> (8 <= String.length password)%nat
      /\ some_char Regex.upper password = true
      /\ some_char Regex.lower password = true
      /\ some_char Regex.digit password = true.
Proof.
  unfold Validator.isValidPassword. rewrite !test_class, !andb_true_iff, Nat.leb_le.
  tauto.
Qed.

(** X3: [isValidEmail] accepts exactly the strings [local@domain.tld] in
    which the three parts are non-empty and hold neither white space nor
    an at sign (the domain part may itself hold dots). *)
Theorem isValidEmail_iff (email : string) :
  Validator.isValidEmail email = true
  <-> exists local domain tld : string,
        email = local +:+ "@" +:+ domain +:+ "." +:+ tld
        /\ local <> "" /\ domain <> "" /\ tld <> ""
        /\ all_chars Regex.not_space_at local = true
        /\ all_chars Regex.not_space_at domain = true
        /\ all_chars Regex.not_space_at tld = true.
Proof.
  unfold Validator.isValidEmail, Validator.emailRegex. rewrite matches_lang. split.
  - intros Hl.
    apply lang_cat_iff in Hl as (local & s1 & -> & Hlocal & Hl).
    apply lang_cat_iff in Hl as (at_ & s2 & -> & Hat & Hl).
    apply lang_cat_iff in Hl as (domain & s3 & -> & Hdomain & Hl).
    apply lang_cat_iff in Hl as (dot & tld & -> & Hdot & Htld).
    apply lang_class_iff in Hat as (c1 & -> & Hc1). apply Ascii.eqb_eq in Hc1 as <-.
    apply lang_class_iff in Hdot as (c2 & -> & Hc2). apply Ascii.eqb_eq in Hc2 as <-.
    apply lang_plus_class in Hlocal as [? ?]. apply lang_plus_class in Hdomain as [? ?].
    apply lang_plus_class in Htld as [? ?].
    by exists local, domain, tld.
  - intros (local & domain & tld & -> & H1 & H2 & H3 & A1 & A2 & A3).
    apply lang_cat; [by apply lang_plus_class|].
    apply (lang_cat _ _ "@"); [by constructor|].
    apply lang_cat; [by apply lang_plus_class|].
    apply (lang_cat _ _ "."); [by constructor|].
    by apply lang_plus_class.
Qed.

End RegexProperties.

(** ** The short-code generator *)

Section GeneratorProperties.

Lemma characters_alphanumeric (i : nat) :
  (i < String.length characters)%nat ->
  exists c, JsString.charAt characters i = String c "" /\ alphanumeric c = true.
Proof.
  intros Hi. unfold characters in *. simpl in Hi.
  do 62 (destruct i as [|i]; [by eexists|]). lia.
Qed.

Lemma generateShortCode_loop_shape (n : nat) (result : string) (w : World) :
  exists suffix : string,
    generateShortCode_loop n result w
    = (Returned (result +:+ suffix),
       set_rng (mkRng (draws (rng w)) (cursor (rng w) + n)) w)
    /\ String.length suffix = n
    /\ all_chars alphanumeric suffix = true.
Proof.
  revert result w. induction n as [|n IH]; intros result w.
  - exists "". rewrite append_empty_r, Nat.add_0_r. simpl.
    split; [by destruct w as [? ? [] ?] | done].
  - cbn [generateShortCode_loop]. unfold bind, Math_random_below.
    destruct (characters_alphanumeric
                (draws (rng w) (cursor (rng w)) mod String.length characters)%nat)
      as (c & Hc & Halnum).
    { apply Nat.mod_upper_bound. discriminate. }
    rewrite Hc.
    destruct (IH (result +:+ String c "")
                (set_rng (mkRng (draws (rng w)) (S (cursor (rng w)))) w))
      as (suffix & -> & Hlen & Hall).
    exists (String c suffix). split; [|split].
    + rewrite append_assoc, append_one. simpl.
      by replace (cursor (rng w) + S n)%nat with (S (cursor (rng w) + n)) by lia.
    + simpl. by rewrite Hlen.
    + simpl. by rewrite Halnum, Hall.
Qed.

(** X4: [generateShortCode(length)] always returns; its code has exactly
    [length] characters, each a letter or a digit; it takes [length] draws
    from the random source and touches nothing else; and a code of the
    default length passes the pattern that custom codes must match. *)
Theorem generateShortCode_shape (length : nat) (w : World) :
  exists code : string,
    generateShortCode length w
    = (Returned code, set_rng (mkRng (draws (rng w)) (cursor (rng w) + length)) w)
    /\ String.length code = length
    /\ all_chars alphanumeric code = true
    /\ (length = 6%nat -> Regex.matches UrlController.customCodeRegex code = true).
Proof.
  unfold generateShortCode.
  destruct (generateShortCode_loop_shape length "" w) as (code & Hrun & Hlen & Hall).
  exists code. split; [exact Hrun|]. split; [done|]. split; [done|].
  intros ->. unfold UrlController.customCodeRegex.
  apply matches_lang, lang_between; [lia|]. split; [lia|].
  clear Hrun Hlen. induction code as [|c code IH]; simpl in *; [done|].
  apply andb_true_iff in Hall as [Hc Hall]. rewrite IH by done.
  unfold alphanumeric in Hc. unfold Regex.word_or_hyphen, Regex.word.
  apply orb_true_iff in Hc as [Hc | Hc]; [apply orb_true_iff in Hc as [Hc | Hc]|];
    rewrite Hc; by rewrite ?orb_true_r.
Qed.

End GeneratorProperties.

(** ** Paths and the route table *)

Section RoutingProperties.

Context `{Platform}.

Lemma split_trailing (sep : ascii) (s : string) :
  JsString.split sep (s +:+ String sep "") = JsString.split sep s ++ [""].
Proof.
  induction s as [|c s IH].
  - simpl. by rewrite Ascii.eqb_refl.
  - rewrite append_cons. simpl. rewrite IH.
    destruct (Ascii.eqb c sep); [done|].
    destruct (JsString.split sep s) as [|part parts] eqn:Hsplit; [|done].
    by destruct (split_not_nil sep s).
Qed.

Lemma segments_trailing_slash (pathname : string) :
  Router.segments (pathname +:+ "/") = Router.segments pathname.
Proof.
  unfold Router.segments, JsString.filterBoolean.
  rewrite split_trailing, List.filter_app. simpl. apply app_nil_r.
Qed.

Lemma segments_leading_slash (pathname : string) :
  Router.segments ("/" +:+ pathname) = Router.segments pathname.
Proof. reflexivity. Qed.

Lemma match_by_segments (routes : list Route) (method p q : string) :
  Router.segments p = Router.segments q ->
  Router.match_ routes method p = Router.match_ routes method q.
Proof.
  intros Hsame. induction routes as [|route rest IH]; simpl; [done|].
  unfold Router.matchPath. by rewrite Hsame, IH.
Qed.

(** X5: routing looks at the non-empty segments of the path only: a
    trailing slash or a doubled leading slash changes nothing in the
    route matched or in the parameters bound. *)
Theorem slashes_do_not_matter (routes : list Route) (method pathname : string) :
  Router.match_ routes method (pathname +:+ "/") = Router.match_ routes method pathname
  /\ Router.match_ routes method ("/" +:+ pathname) = Router.match_ routes method pathname.
Proof.
  split; apply match_by_segments;
    [apply segments_trailing_slash | apply segments_leading_slash].
Qed.

Lemma matchPath_by_parts (pattern pathname : string) :
  Router.matchPath pattern pathname
  = if negb (Nat.eqb (List.length (Router.segments pattern))
                     (List.length (Router.segments pathname)))
    then None
    else Router.matchParts (Router.segments pattern) (Router.segments pathname) ∅.
Proof. reflexivity. Qed.

(** X6: in the route table of the program a GET of a path with exactly
    one segment goes to the health check when the segment is [health] and
    to the redirect handler, with [code] bound to the segment, otherwise;
    a GET of any other path never reaches the redirect handler, and the
    empty path goes to the documentation page. *)
Theorem redirect_route_shadows_nothing (pathname : string) :
  match Router.segments pathname with
  | [] =>
      Router.match_ routes "GET" pathname = Some (mkRoute "GET" "/" documentation [], ∅)
  | [segment] =>
      if String.eqb segment "health" then
        Router.match_ routes "GET" pathname = Some (mkRoute "GET" "/health" health [], ∅)
      else
        Router.match_ routes "GET" pathname
        = Some (mkRoute "GET" "/:code" UrlController.redirect [], {[ "code" := segment ]})
  | _ :: _ :: _ =>
      forall (route : Route) (params : gmap string string),
        Router.match_ routes "GET" pathname = Some (route, params) ->
        route_path route <> "/:code" /\ route_path route <> "/"
  end.
Proof.
  unfold routes. cbn [Router.match_ route_method route_path String.eqb Ascii.eqb
                      Bool.eqb negb].
  rewrite !matchPath_by_parts.
  change (Router.segments "/health") with ["health"].
  change (Router.segments "/api/auth/profile") with ["api"; "auth"; "profile"].
  change (Router.segments "/api/urls") with ["api"; "urls"].
  change (Router.segments "/api/urls/:code/analytics") with ["api"; "urls"; ":code"; "analytics"].
  change (Router.segments "/:code") with [":code"].
  change (Router.segments "/") with (@nil string).
  destruct (Router.segments pathname) as [|segment [|second rest]].
  - reflexivity.
  - cbn [List.length Nat.eqb negb Router.matchParts JsString.startsWithColon].
    rewrite (String.eqb_sym "health" segment).
    destruct (String.eqb segment "health"); reflexivity.
  - intros route params.
    cbn [List.length Nat.eqb negb Router.matchParts JsString.startsWithColon].
    repeat match goal with
           | |- context [if ?b then _ else _] => destruct b
           | |- context [match ?o with Some _ => _ | None => _ end] => destruct o
           end;
      intros Hm; try discriminate; injection Hm as <- _; by split.
Qed.

End RoutingProperties.

(** ** CORS headers *)

Section CorsProperties.

Context `{Platform}.

Lemma find_app_none {A : Type} (p : A -> bool) (l l' : list A) :
  List.find p l = None -> List.find p (l ++ l') = List.find p l'.
Proof. induction l as [|a l IH]; simpl; [done|]. by destruct (p a). Qed.

Lemma header_set_same (name value : string) (hs : list (string * string)) :
  header name (headers_set name value hs) = Some value.
Proof.
  unfold header, headers_set. rewrite find_app_none.
  - simpl. by rewrite String.eqb_refl.
  - induction hs as [|h hs IH]; simpl; [done|].
    destruct (String.eqb (JsString.toLowerCase (fst h)) (JsString.toLowerCase name)) eqn:Hh;
      simpl; [done|]. by rewrite Hh.
Qed.

Lemma header_set_other (name other value : string) (hs : list (string * string)) :
  JsString.toLowerCase other <> JsString.toLowerCase name ->
  header other (headers_set name value hs) = header other hs.
Proof.
  intros Hne. unfold header, headers_set. f_equal.
  induction hs as [|h hs IH]; simpl.
  - apply String.eqb_neq in Hne. rewrite String.eqb_sym. by rewrite Hne.
  - destruct (String.eqb (JsString.toLowerCase (fst h)) (JsString.toLowerCase name)) eqn:Hh;
      simpl.
    + apply String.eqb_eq in Hh.
      replace (String.eqb (JsString.toLowerCase (fst h)) (JsString.toLowerCase other))
        with false; [done|].
      symmetry. apply String.eqb_neq. congruence.
    + destruct (String.eqb (JsString.toLowerCase (fst h)) (JsString.toLowerCase other));
        [done | exact IH].
Qed.

Lemma stamped_has_cors (status : Z) (hs : list (string * string)) (b : Body) :
  has_cors
    (mkResponse status
       (headers_set "Access-Control-Allow-Headers" cors_headers
          (headers_set "Access-Control-Allow-Methods" cors_methods
             (headers_set "Access-Control-Allow-Origin"
                (JsString.or_else (env "CORS_ORIGIN") "*") hs)))
       b).
Proof.
  unfold has_cors. simpl. split; [|split].
  - rewrite !header_set_other by discriminate. apply header_set_same.
  - rewrite header_set_other by discriminate. apply header_set_same.
  - apply header_set_same.
Qed.

Lemma cors_preflight (ctx : Context) (next : Context -> M Response) (w : World) :
  String.eqb (method (req ctx)) "OPTIONS" = true ->
  exists r : Response,
    cors ctx next w = (Returned r, w)
    /\ status r = 204 /\ body r = NoBody /\ has_cors r.
Proof.
  intros Hm. unfold cors. rewrite Hm. eexists. split; [reflexivity|]. repeat split.
Qed.

Lemma cors_throws (ctx : Context) (next : Context -> M Response) (w w' : World)
    (e : string) :
  String.eqb (method (req ctx)) "OPTIONS" = false ->
  next ctx w = (Thrown e, w') ->
  cors ctx next w = (Thrown e, w').
Proof. intros Hm Hnext. unfold cors, bind. by rewrite Hm, Hnext. Qed.

Lemma cors_passes (ctx : Context) (next : Context -> M Response) (w w' : World)
    (inner : Response) :
  String.eqb (method (req ctx)) "OPTIONS" = false ->
  next ctx w = (Returned inner, w') ->
  exists r : Response,
    cors ctx next w = (Returned r, w')
    /\ status r = status inner /\ body r = body inner /\ has_cors r
    /\ (forall name : string,
           JsString.toLowerCase name <> "access-control-allow-origin" ->
           JsString.toLowerCase name <> "access-control-allow-methods" ->
           JsString.toLowerCase name <> "access-control-allow-headers" ->
           header name (headers r) = header name (headers inner)).
Proof.
  intros Hm Hnext. unfold cors, bind. rewrite Hm, Hnext.
  eexists. split; [reflexivity|]. simpl. split; [done|]. split; [done|].
  split; [apply stamped_has_cors|].
  intros name H1 H2 H3. by rewrite !header_set_other.
Qed.

(** X7: on a preflight (OPTIONS) request [cors] answers 204 with the CORS
    headers itself, whatever the rest of the chain is and without touching
    the world; on any other request it passes on what the rest of the
    chain does, a throw included, and stamps the three CORS headers on the
    response, keeping its status, its body and its other headers. *)
Theorem cors_stamps (ctx : Context) (next : Context -> M Response) (w : World) :
  if String.eqb (method (req ctx)) "OPTIONS" then
    exists r : Response,
      cors ctx next w = (Returned r, w)
      /\ status r = 204 /\ body r = NoBody /\ has_cors r
  else
    match next ctx w with
    | (Thrown e, w') => cors ctx next w = (Thrown e, w')
    | (Returned inner, w') =>
        exists r : Response,
          cors ctx next w = (Returned r, w')
          /\ status r = status inner /\ body r = body inner /\ has_cors r
          /\ (forall name : string,
                 JsString.toLowerCase name <> "access-control-allow-origin" ->
                 JsString.toLowerCase name <> "access-control-allow-methods" ->
                 JsString.toLowerCase name <> "access-control-allow-headers" ->
                 header name (headers r) = header name (headers inner))
    end.
Proof.
  destruct (String.eqb (method (req ctx)) "OPTIONS") eqn:Hm.
  - by apply cors_preflight.
  - destruct (next ctx w) as [[inner|e] w'] eqn:Hnext.
    + by apply cors_passes.
    + by apply cors_throws.
Qed.

(** X8: every answer of the server carries the three CORS headers, except
    the 500 that the error boundary builds when something inside it
    throws, which carries the content type only. *)
Theorem fetch_cors_coverage (request : Request) (w : World) :
  exists (r : Response) (w' : World),
    fetch request w = (Returned r, w')
    /\ (has_cors r
        \/ exists message : string,
             r = mkResponse 500 [("Content-Type", "application/json")]
                   (JsonBody (JObj [("success", JBool false); ("error", JStr message)]))).
Proof.
  unfold fetch, globalMiddlewares. cbn [compose]. unfold errorHandler, try_catch, logger.
  unfold bind at 1. unfold Date_now at 1. unfold gets at 1. unfold bind at 1.
  set (ctx := mkContext request None None None).
  set (inner := fun ctx' : Context => rateLimit _ _ ctx' _).
  destruct (String.eqb (method (req ctx)) "OPTIONS") eqn:Hm.
  - destruct (cors_preflight ctx inner w Hm) as (r & -> & _ & _ & Hr).
    eexists _, _. split; [reflexivity | by left].
  - destruct (inner ctx w) as [[r0|e] w'] eqn:Hinner.
    + destruct (cors_passes ctx inner w w' r0 Hm Hinner) as (r & -> & _ & _ & Hr & _).
      eexists _, _. split; [reflexivity | by left].
    + rewrite (cors_throws ctx inner w w' e Hm Hinner).
      eexists _, _. split; [reflexivity|]. right. by eexists.
Qed.

End CorsProperties.

(** ** Registration and login *)

Section AccountProperties.

Context `{Platform}.

Lemma find_none_existsb {A : Type} (p : A -> bool) (l : list A) :
  List.find p l = None -> existsb p l = false.
Proof.
  intros Hnone. destruct (existsb p l) eqn:Hex; [|done].
  apply existsb_exists in Hex as (x & Hin & Hx).
  by rewrite (List.find_none _ _ Hnone x Hin) in Hx.
Qed.

Lemma valid_username_truthy (u : string) :
  Validator.isValidUsername u = true -> JsString.truthy u = true.
Proof. by destruct u. Qed.

Lemma valid_email_truthy (e : string) :
  Validator.isValidEmail e = true -> JsString.truthy e = true.
Proof. by destruct e. Qed.

Lemma valid_password_truthy (p : string) :
  Validator.isValidPassword p = true -> JsString.truthy p = true.
Proof. by destruct p. Qed.

(** Registration with valid fields and a username and an email not yet in
    the store: a row is appended, the answer is 201. *)
Lemma register_creates (ctx : Context) (u e p : string) (w : World) :
  ctx_body ctx = Some (ParsedObject (credentials (Some u) (Some e) (Some p))) ->
  Validator.isValidUsername u = true ->
  Validator.isValidEmail e = true ->
  Validator.isValidPassword p = true ->
  find_username u (db w) = None ->
  find_email e (db w) = None ->
  let id := users_seq (db w) + 1 in
  let w' :=
    set_db (mkDb (users (db w) ++ [User.mk id u e (bcrypt_hash p) (clock w)]) id
                 (urls (db w)) (urls_seq (db w)) (analytics (db w)) (analytics_seq (db w)))
      w in
  AuthController.register ctx w
  = (Returned
       (Response_json
          (successResponse
             (JObj [("user", AuthController.user_json id u e);
                    ("token", JStr (jwt_sign (clock w) (mkJwtPayload id u)))])
             "User registered successfully")
          201),
     w').
Proof.
  intros Hbody Hu He Hp Hfree_u Hfree_e id w'.
  unfold AuthController.register, destructure. rewrite Hbody.
  unfold bind at 1. unfold ret at 1. cbv beta iota.
  cbn [f_username f_email f_password credentials JsString.truthy_opt the].
  rewrite (valid_username_truthy _ Hu), (valid_email_truthy _ He),
    (valid_password_truthy _ Hp), Hu, He, Hp.
  cbn [negb orb].
  unfold try_catch, bind, queries.findUserByUsername, queries.findUserByEmail, gets.
  unfold find_username in Hfree_u. unfold find_email in Hfree_e.
  rewrite Hfree_u, Hfree_e.
  unfold AuthService.hashPassword, ret, queries.createUser.
  rewrite (find_none_existsb _ _ Hfree_u), (find_none_existsb _ _ Hfree_e).
  reflexivity.
Qed.

Lemma register_username_taken (ctx : Context) (u e p : string) (w : World) (existing : User.row) :
  ctx_body ctx = Some (ParsedObject (credentials (Some u) (Some e) (Some p))) ->
  Validator.isValidUsername u = true ->
  Validator.isValidEmail e = true ->
  Validator.isValidPassword p = true ->
  find_username u (db w) = Some existing ->
  AuthController.register ctx w
  = (Returned
       (Response_json
          (JObj [("success", JBool false); ("error", JStr "Username already exists");
                 ("statusCode", JNum 400)])
          409),
     w).
Proof.
  intros Hbody Hu He Hp Htaken.
  unfold AuthController.register, destructure. rewrite Hbody.
  unfold bind at 1. unfold ret at 1. cbv beta iota.
  cbn [f_username f_email f_password credentials JsString.truthy_opt the].
  rewrite (valid_username_truthy _ Hu), (valid_email_truthy _ He),
    (valid_password_truthy _ Hp), Hu, He, Hp.
  cbn [negb orb].
  unfold try_catch, bind, queries.findUserByUsername, gets.
  unfold find_username in Htaken. by rewrite Htaken.
Qed.

(** X9: after a successful registration, a second registration under the
    same username is answered 409 "Username already exists" whatever its
    email and password are, and writes nothing. *)
Theorem register_twice_conflicts (ctx1 ctx2 : Context) (u e1 p1 e2 p2 : string) (w : World) :
  ctx_body ctx1 = Some (ParsedObject (credentials (Some u) (Some e1) (Some p1))) ->
  ctx_body ctx2 = Some (ParsedObject (credentials (Some u) (Some e2) (Some p2))) ->
  Validator.isValidUsername u = true ->
  Validator.isValidEmail e1 = true -> Validator.isValidPassword p1 = true ->
  Validator.isValidEmail e2 = true -> Validator.isValidPassword p2 = true ->
  find_username u (db w) = None ->
  find_email e1 (db w) = None ->
  exists (created : Response) (w1 : World),
    AuthController.register ctx1 w = (Returned created, w1)
    /\ status created = 201
    /\ AuthController.register ctx2 w1
       = (Returned
            (Response_json
               (JObj [("success", JBool false); ("error", JStr "Username already exists");
                      ("statusCode", JNum 400)])
               409),
          w1).
Proof.
  intros Hbody1 Hbody2 Hu He1 Hp1 He2 Hp2 Hfree_u Hfree_e.
  rewrite (register_creates ctx1 u e1 p1 w Hbody1 Hu He1 Hp1 Hfree_u Hfree_e).
  eexists _, _. split; [reflexivity|]. split; [reflexivity|].
  eapply (register_username_taken ctx2 u e2 p2 _ _ Hbody2 Hu He2 Hp2).
  unfold find_username in *. simpl. rewrite find_app_none by done.
  simpl. by rewrite String.eqb_refl.
Qed.

Lemma login_runs (ctx : Context) (u p : string) (e : option string) (w : World) :
  ctx_body ctx = Some (ParsedObject (credentials (Some u) e (Some p))) ->
  u <> "" -> p <> "" ->
  AuthController.login ctx w
  = match find_username u (db w) with
    | None => (Returned invalid_credentials, w)
    | Some row =>
        if bcrypt_compare p (User.password_hash row) then
          (Returned
             (Response_json
                (successResponse
                   (JObj [("user", AuthController.user_json (User.id row) (User.username row)
                                     (User.email row));
                          ("token",
                           JStr (jwt_sign (clock w)
                                   (mkJwtPayload (User.id row) (User.username row))))])
                   "Login successful")
                200),
           w)
        else (Returned invalid_credentials, w)
    end.
Proof.
  intros Hbody Hu Hp.
  unfold AuthController.login, destructure. rewrite Hbody.
  unfold bind at 1. unfold ret at 1. cbv beta iota.
  cbn [f_username f_password credentials JsString.truthy_opt the].
  destruct u as [|cu u]; [done|]. destruct p as [|cp p]; [done|].
  cbn [JsString.truthy negb orb].
  unfold try_catch, bind, queries.findUserByUsername, gets. unfold find_username.
  destruct (List.find _ (users (db w))) as [row|]; [|done].
  unfold AuthService.verifyPassword, ret.
  by destruct (bcrypt_compare _ _).
Qed.

(** X10: a login under a username that does not exist and a login with a
    wrong password get the very same answer, 401 "Invalid credentials",
    and neither writes anything: the answer does not tell whether the
    username exists. *)
Theorem login_does_not_tell (ctx : Context) (u p : string) (e : option string) (w : World) :
  ctx_body ctx = Some (ParsedObject (credentials (Some u) e (Some p))) ->
  u <> "" -> p <> "" ->
  find_username u (db w) = None
  \/ (exists row : User.row,
         find_username u (db w) = Some row
         /\ bcrypt_compare p (User.password_hash row) = false) ->
  AuthController.login ctx w = (Returned invalid_credentials, w).
Proof.
  intros Hbody Hu Hp Hcase. rewrite (login_runs ctx u p e w Hbody Hu Hp).
  destruct Hcase as [-> | (row & -> & ->)]; done.
Qed.

(** X11: when the hashing package verifies the hash it made of a
    password, a user who registered can log in with the same username and
    password: the answer is 200 with the id, username and email of the
    registration and a token for that id, and the login writes nothing. *)
Theorem register_then_login (ctx1 ctx2 : Context) (u e p : string) (w : World) :
  ctx_body ctx1 = Some (ParsedObject (credentials (Some u) (Some e) (Some p))) ->
  ctx_body ctx2 = Some (ParsedObject (credentials (Some u) None (Some p))) ->
  Validator.isValidUsername u = true ->
  Validator.isValidEmail e = true ->
  Validator.isValidPassword p = true ->
  find_username u (db w) = None ->
  find_email e (db w) = None ->
  bcrypt_compare p (bcrypt_hash p) = true ->
  exists (created : Response) (w1 : World),
    AuthController.register ctx1 w = (Returned created, w1)
    /\ status created = 201
    /\ AuthController.login ctx2 w1
       = (Returned
            (Response_json
               (successResponse
                  (JObj [("user", AuthController.user_json (users_seq (db w) + 1) u e);
                         ("token",
                          JStr (jwt_sign (clock w1)
                                  (mkJwtPayload (users_seq (db w) + 1) u)))])
                  "Login successful")
               200),
          w1).
Proof.
  intros Hbody1 Hbody2 Hu He Hp Hfree_u Hfree_e Hverify.
  rewrite (register_creates ctx1 u e p w Hbody1 Hu He Hp Hfree_u Hfree_e).
  eexists _, _. split; [reflexivity|]. split; [reflexivity|].
  rewrite (login_runs ctx2 u p None _ Hbody2).
  - unfold find_username in *. simpl. rewrite find_app_none by done.
    simpl. rewrite String.eqb_refl. simpl. by rewrite Hverify.
  - intros ->. discriminate.
  - intros ->. discriminate.
Qed.

End AccountProperties.

(** ** Creation with a custom code, and what follows it *)

Section CustomCodeProperties.

Context `{Platform}.

Lemma valid_code_truthy (c : string) :
  Regex.matches UrlController.customCodeRegex c = true -> JsString.truthy c = true.
Proof. by destruct c. Qed.

Lemma valid_url_truthy (url : string) : url <> "" -> JsString.truthy url = true.
Proof. by destruct url. Qed.

(** The creation flow for a valid URL and a well-formed custom code. *)
Lemma createShortUrl_custom (ctx : Context) (url c : string) (days : option Z) (w : World) :
  ctx_body ctx = Some (ParsedObject (custom_request url c days)) ->
  url <> "" ->
  Validator.isValidUrl url = true ->
  Regex.matches UrlController.customCodeRegex c = true ->
  UrlController.createShortUrl ctx w
  = match queries.find_code c (db w) with
    | Some _ => (Returned code_taken, w)
    | None =>
        try_catch (UrlController.store_url ctx c url days)
          (fun _ => ret creation_failed) w
    end.
Proof.
  intros Hbody Hne Hvalid Hcode.
  unfold UrlController.createShortUrl, destructure. rewrite Hbody.
  unfold bind at 1. unfold ret at 1. cbv beta iota.
  cbn [f_url f_customCode f_expiresInDays custom_request JsString.truthy_opt the].
  rewrite (valid_url_truthy _ Hne), Hvalid, (valid_code_truthy _ Hcode), Hcode.
  cbn [negb]. unfold try_catch at 1. unfold bind at 1.
  unfold queries.findUrlByShortCode, gets.
  by destruct (queries.find_code c (db w)).
Qed.

(** X12: after a URL is created under a custom code, a second creation
    request with the same custom code is answered 409 "Custom code already
    exists", whatever its URL and expiration are, and writes nothing. *)
Theorem custom_code_twice_conflicts (ctx1 ctx2 : Context) (url1 url2 c : string)
    (days1 days2 : option Z) (w : World) :
  ctx_body ctx1 = Some (ParsedObject (custom_request url1 c days1)) ->
  ctx_body ctx2 = Some (ParsedObject (custom_request url2 c days2)) ->
  url1 <> "" -> Validator.isValidUrl url1 = true ->
  url2 <> "" -> Validator.isValidUrl url2 = true ->
  Regex.matches UrlController.customCodeRegex c = true ->
  queries.find_code c (db w) = None ->
  expiration_representable days1 (clock w) ->
  owner_acceptable ctx1 (db w) ->
  exists w1 : World,
    UrlController.createShortUrl ctx1 w
    = (Returned (UrlController.created c url1 (expiration_of days1 (clock w))), w1)
    /\ UrlController.createShortUrl ctx2 w1 = (Returned code_taken, w1).
Proof.
  intros Hbody1 Hbody2 Hne1 Hvalid1 Hne2 Hvalid2 Hcode Hfree Hexp Howner.
  rewrite (createShortUrl_custom ctx1 url1 c days1 w Hbody1 Hne1 Hvalid1 Hcode), Hfree.
  destruct (store_url_creates ctx1 c url1 days1 w Hfree Hexp Howner) as (w1 & Hrun & Hurls).
  exists w1. unfold try_catch. rewrite Hrun. split; [done|].
  rewrite (createShortUrl_custom ctx2 url2 c days2 w1 Hbody2 Hne2 Hvalid2 Hcode).
  unfold queries.find_code in *. rewrite Hurls, find_app_none by done.
  simpl. by rewrite String.eqb_refl.
Qed.

(** In a zone of fixed offset [setDate] moves the instant by whole days. *)
Lemma Date_setDate_plus_fixed (t days : Z) :
  fixed_offset_zone -> Date_setDate_plus t days = t + days * msPerDay.
Proof.
  intros [offset Hzone]. unfold Date_setDate_plus, Date_UTC, Date_LocalTime.
  rewrite !Hzone. lia.
Qed.

(** X13: a URL created under a custom code is served by the redirect
    endpoint from then on. The creation is answered 201. When a positive
    [expiresInDays] was asked for, the expiration is the instant that
    [setDate] makes of the instant of creation ([expiresInDays] days
    later on the server's calendar; exactly that many times 86400000 ms
    later when the server's zone has a fixed offset): a redirect of the
    code up to that instant is answered 302 with the URL of the creation
    request as its [Location], and a redirect after it is answered 410
    "URL has expired" and changes nothing. When no expiration, or one
    that is not positive, was asked for, a redirect at any instant is
    answered 302 with that [Location]. *)
Theorem create_then_redirect (ctx1 ctx2 : Context) (url c : string) (days : option Z)
    (w : World) (t : Z) :
  ctx_body ctx1 = Some (ParsedObject (custom_request url c days)) ->
  url <> "" -> Validator.isValidUrl url = true ->
  Regex.matches UrlController.customCodeRegex c = true ->
  queries.find_code c (db w) = None ->
  expiration_representable days (clock w) ->
  owner_acceptable ctx1 (db w) ->
  params_code ctx2 = Some c ->
  exists (created : Response) (w1 : World),
    UrlController.createShortUrl ctx1 w = (Returned created, w1)
    /\ status created = 201
    /\ exists (answer : Response) (w2 : World),
         UrlController.redirect ctx2 (set_clock t w1) = (Returned answer, w2)
         /\ (forall d : Z,
                days = Some d -> 0 < d ->
                (fixed_offset_zone ->
                 Date_setDate_plus (clock w) d = clock w + d * msPerDay)
                /\ (t <= Date_setDate_plus (clock w) d ->
                    status answer = 302
                    /\ header "Location" (headers answer) = Some url)
                /\ (Date_setDate_plus (clock w) d < t ->
                    status answer = 410
                    /\ body answer = TextBody "URL has expired"
                    /\ w2 = set_clock t w1))
         /\ (days = None \/ (exists d : Z, days = Some d /\ d <= 0) ->
             status answer = 302
             /\ header "Location" (headers answer) = Some url).
Proof.
  intros Hbody Hne Hvalid Hcode Hfree Hexp Howner Hparam.
  rewrite (createShortUrl_custom ctx1 url c days w Hbody Hne Hvalid Hcode), Hfree.
  destruct (store_url_creates ctx1 c url days w Hfree Hexp Howner) as (w1 & Hrun & Hurls).
  eexists _, w1. unfold try_catch. rewrite Hrun. split; [reflexivity|].
  split; [reflexivity|].
  assert (Hc : c <> "") by (intros ->; discriminate).
  set (row := Url.mk (urls_seq (db w) + 1) c url (UrlController.owner_of ctx1) 0
                (clock w) (option_map fst (expiration_of days (clock w)))).
  assert (Hfind : queries.find_code c (db (set_clock t w1)) = Some row).
  { unfold queries.find_code in *. simpl. rewrite Hurls, find_app_none by done.
    simpl. by rewrite String.eqb_refl. }
  assert (Hexpires : Url.expires_at row
                     = match days with
                       | Some d =>
                           if 0 <? d then Some (Date_setDate_plus (clock w) d) else None
                       | None => None
                       end).
  { subst row. unfold expiration_of. simpl. destruct days as [d|]; [|done].
    by destruct (0 <? d). }
  destruct (live_or_lapsed row (clock (set_clock t w1))) as [Hlive|Hlapsed].
  - destruct (redirect_live ctx2 (set_clock t w1) c row Hparam Hc Hfind Hlive)
      as (w2 & Hredirect & _).
    eexists _, w2. split; [exact Hredirect|]. split.
    + intros d -> Hpos. split; [apply Date_setDate_plus_fixed|].
      split; [by intros _|].
      intros Hpast. exfalso. unfold live in Hlive. rewrite Hexpires in Hlive.
      apply Z.ltb_lt in Hpos. rewrite Hpos in Hlive. simpl in Hlive. lia.
    + by intros _.
  - pose proof (redirect_lapsed ctx2 (set_clock t w1) c row Hparam Hc Hfind Hlapsed)
      as Hredirect.
    eexists _, _. split; [exact Hredirect|].
    unfold lapsed in Hlapsed. rewrite Hexpires in Hlapsed. split.
    + intros d -> Hpos. split; [apply Date_setDate_plus_fixed|].
      apply Z.ltb_lt in Hpos. rewrite Hpos in Hlapsed. simpl in Hlapsed.
      split; [intros Hbefore; lia | by intros _].
    + intros [-> | (d & -> & Hd)]; [done|].
      apply Z.ltb_ge in Hd. by rewrite Hd in Hlapsed.
Qed.

(** X14: when the expiration asked for lies beyond the last instant a
    date can hold, the creation request is answered 500 "Failed to create
    short URL" and nothing is written: formatting the date throws inside
    the handler's [try]. *)
Theorem expiration_out_of_range_is_500 (ctx : Context) (url c : string) (days : Z)
    (w : World) :
  ctx_body ctx = Some (ParsedObject (custom_request url c (Some days))) ->
  url <> "" -> Validator.isValidUrl url = true ->
  Regex.matches UrlController.customCodeRegex c = true ->
  queries.find_code c (db w) = None ->
  0 < days ->
  max_time_value < Z.abs (Date_setDate_plus (clock w) days) ->
  UrlController.createShortUrl ctx w = (Returned creation_failed, w).
Proof.
  intros Hbody Hne Hvalid Hcode Hfree Hpos Hbig.
  rewrite (createShortUrl_custom ctx url c (Some days) w Hbody Hne Hvalid Hcode), Hfree.
  unfold try_catch, UrlController.store_url, UrlController.expiration.
  apply Z.ltb_lt in Hpos. rewrite Hpos.
  unfold bind, Date_now, gets, Date_toISOString.
  replace (Z.abs (Date_setDate_plus (clock w) days) <=? max_time_value) with false
    by (symmetry; apply Z.leb_gt; lia).
  reflexivity.
Qed.

End CustomCodeProperties.

(** ** Deletion by the owner *)

Section DeletionProperties.

Context `{Platform}.

Lemma find_filter_irrelevant {A : Type} (p q : A -> bool) (l : list A) :
  (forall x, p x = true -> q x = true) ->
  List.find p (List.filter q l) = List.find p l.
Proof.
  intros Hpq. induction l as [|a l IH]; simpl; [done|].
  destruct (q a) eqn:Hq; simpl.
  - by destruct (p a).
  - destruct (p a) eqn:Hp; [|done]. apply Hpq in Hp. congruence.
Qed.

Lemma find_filter_removed {A : Type} (p q : A -> bool) (l : list A) :
  (forall x, In x l -> p x = true -> q x = false) ->
  List.find p (List.filter q l) = None.
Proof.
  intros Hpq. induction l as [|a l IH]; simpl; [done|].
  assert (Hrest : forall x, In x l -> p x = true -> q x = false)
    by (intros x Hx; apply Hpq; by right).
  destruct (q a) eqn:Hq; simpl; [|by apply IH].
  destruct (p a) eqn:Hp; [|by apply IH].
  rewrite (Hpq a (or_introl eq_refl) Hp) in Hq. discriminate.
Qed.

Lemma filter_selects_one {A B : Type} (f : A -> B) (q : A -> bool) (l : list A) (r : A) :
  NoDup (List.map f l) ->
  In r l ->
  q r = true ->
  (forall x, q x = true -> f x = f r) ->
  List.filter q l = [r].
Proof.
  intros Hnodup Hin Hr Hq. induction l as [|a l IH]; simpl in *; [done|].
  apply NoDup_cons in Hnodup as [Hnot Hnodup].
  destruct Hin as [-> | Hin].
  - rewrite Hr. f_equal.
    apply (filter_none q l). intros x Hx.
    destruct (q x) eqn:Hqx; [|done]. destruct Hnot.
    rewrite <- (Hq x Hqx). apply list_elem_of_In, in_map, Hx.
  - destruct (q a) eqn:Hqa; [|by apply IH].
    destruct Hnot. rewrite (Hq a Hqa). apply list_elem_of_In, in_map, Hin.
Qed.

(** X15: when the owner of a URL asks to delete it, the answer is 200
    and the row is gone: its code is free again, every other code still
    names the row it named, and the click rows of the deleted URL are
    removed with it when the store enforces foreign keys and all click
    rows are kept when it does not. *)
Theorem deleteUrl_by_owner (ctx : Context) (w : World) (caller : JwtPayload)
    (c : string) (r : Url.row) :
  user ctx = Some caller ->
  params_code ctx = Some c -> c <> "" ->
  codes_unique (db w) ->
  queries.find_code c (db w) = Some r ->
  Url.user_id r = Some (userId caller) ->
  exists w' : World,
    UrlController.deleteUrl ctx w = (Returned deleted, w')
    /\ queries.find_code c (db w') = None
    /\ (forall c' : string,
           c' <> c -> queries.find_code c' (db w') = queries.find_code c' (db w))
    /\ (if foreign_keys
        then analytics (db w')
             = List.filter (fun click => negb (Z.eqb (Url.id r) (Click.url_id click)))
                 (analytics (db w))
        else analytics (db w') = analytics (db w)).
Proof.
  intros Huser Hcode Hne Hunique Hfind Howner.
  assert (Hone : List.filter (queries.delete_selects c (userId caller)) (urls (db w)) = [r]).
  { destruct (find_code_In _ _ _ Hfind) as [Hin Hcr].
    apply (filter_selects_one Url.short_code); [done | done | |].
    - unfold queries.delete_selects, queries.owned_by.
      by rewrite Hcr, String.eqb_refl, Howner, Z.eqb_refl.
    - intros x Hx. unfold queries.delete_selects in Hx.
      apply andb_true_iff in Hx as [Hx _]. apply String.eqb_eq in Hx. congruence. }
  unfold UrlController.deleteUrl. rewrite Huser, Hcode.
  destruct c as [|c0 c]; [done|]. cbn [JsString.truthy_opt JsString.truthy negb the].
  unfold try_catch, bind, queries.deleteUrl. rewrite Hone.
  cbn [List.length Z.of_nat Z.eqb Pos.of_succ_nat]. unfold ret.
  eexists. split; [reflexivity|]. cbn [db set_db urls analytics snd].
  split; [|split].
  - unfold queries.find_code. cbn [urls].
    apply find_filter_removed. intros x Hx Hcx. apply String.eqb_eq in Hcx.
    assert (x = r) as ->.
    { destruct (find_code_In _ _ _ Hfind) as [Hin Hcr].
      apply (codes_unique_row (db w)); congruence. }
    unfold queries.delete_selects, queries.owned_by.
    by rewrite Hcx, String.eqb_refl, Howner, Z.eqb_refl.
  - intros c' Hc'. unfold queries.find_code. cbn [urls].
    apply find_filter_irrelevant. intros x Hx. apply String.eqb_eq in Hx.
    unfold queries.delete_selects.
    replace (String.eqb (Url.short_code x) (String c0 c)) with false; [done|].
    symmetry. apply String.eqb_neq. congruence.
  - destruct foreign_keys; [|done].
    apply List.filter_ext. intros click. simpl. by rewrite orb_false_r.
Qed.

End DeletionProperties.

(** ** Who owns what the API creates *)

Section ApiCreationProperties.

Context `{Platform}.

Lemma try_catch_world {A : Type} (m : M A) (a : string -> A) (w : World) :
  snd (try_catch m (fun e => ret (a e)) w) = snd (m w).
Proof. unfold try_catch. by destruct (m w) as [[x|e] w']. Qed.

Lemma ensureUnique_runs (n : nat) (attempts : Z) (code : string) (w : World) :
  exists (attempts' : Z) (code' : string) (w' : World),
    UrlController.ensureUnique n attempts code w = (Returned (attempts', code'), w')
    /\ db w' = db w.
Proof.
  revert attempts code w. induction n as [|n IH]; intros attempts code w.
  - by eexists _, _, _.
  - destruct (queries.find_code code (db w)) as [r|] eqn:Hfind.
    + rewrite ensureUnique_taken by (by eexists).
      destruct (generateShortCode_runs w) as (fresh & w1 & -> & Hdb & _).
      destruct (IH (attempts + 1) fresh w1) as (a' & c' & w' & -> & Hdb').
      eexists _, _, _. split; [done | congruence].
    + rewrite ensureUnique_free by done. by eexists _, _, _.
Qed.

Lemma store_url_effect (ctx : Context) (code url : string) (days : option Z) (w : World) :
  user ctx = None ->
  adds_at_most_an_ownerless_url (db w) (db (snd (UrlController.store_url ctx code url days w))).
Proof.
  intros Huser.
  assert (Hinsert : forall expires w0,
             db w0 = db w ->
             adds_at_most_an_ownerless_url (db w)
               (db (snd (queries.createUrl code url (UrlController.owner_of ctx) expires w0)))).
  { intros expires w0 Hdb. unfold queries.createUrl. rewrite Hdb.
    destruct (existsb _ _); [left; simpl; congruence|].
    destruct (foreign_keys && _); [left; simpl; congruence|].
    right. eexists. split; [reflexivity|]. unfold UrlController.owner_of. by rewrite Huser. }
  unfold UrlController.store_url, UrlController.expiration.
  destruct days as [days|]; [destruct (0 <? days)|].
  - unfold bind, Date_now, gets, Date_toISOString.
    destruct (_ <=? _); [|by left]. unfold ret.
    specialize (Hinsert (Some (Date_setDate_plus (clock w) days)) w eq_refl).
    simpl. by destruct (queries.createUrl _ _ _ _ w) as [[id|e] w'].
  - unfold bind, ret. specialize (Hinsert None w eq_refl).
    simpl. by destruct (queries.createUrl _ _ _ _ w) as [[id|e] w'].
  - unfold bind, ret. specialize (Hinsert None w eq_refl).
    simpl. by destruct (queries.createUrl _ _ _ _ w) as [[id|e] w'].
Qed.

Lemma adds_from_same (d0 d d' : Db) :
  d = d0 -> adds_at_most_an_ownerless_url d d' -> adds_at_most_an_ownerless_url d0 d'.
Proof. by intros ->. Qed.

Lemma createShortUrl_effect (ctx : Context) (w : World) :
  user ctx = None ->
  adds_at_most_an_ownerless_url (db w) (db (snd (UrlController.createShortUrl ctx w))).
Proof.
  intros Huser. unfold UrlController.createShortUrl.
  unfold bind at 1. unfold destructure.
  destruct (ctx_body ctx) as [[|fields]|]; try (by left).
  unfold ret at 1. cbv beta iota.
  destruct (negb (JsString.truthy_opt (f_url fields))); [by left|].
  destruct (negb (Validator.isValidUrl (the (f_url fields)))); [by left|].
  rewrite try_catch_world.
  destruct (JsString.truthy_opt (f_customCode fields)).
  - destruct (negb (Regex.matches _ _)); [by left|].
    unfold bind, queries.findUrlByShortCode, gets.
    destruct (queries.find_code _ (db w)); [by left|].
    by apply store_url_effect.
  - unfold bind at 1.
    destruct (generateShortCode_runs w) as (first & w1 & -> & Hdb & _).
    unfold bind at 1.
    destruct (ensureUnique_runs 10 0 first w1) as (a' & c' & w2 & -> & Hdb2).
    cbn [fst snd]. destruct (a' =? 10).
    + left. simpl. congruence.
    + apply (adds_from_same _ (db w2)); [congruence|]. by apply store_url_effect.
Qed.

Lemma logger_world (ctx : Context) (next : Context -> M Response) (w : World) :
  snd (logger ctx next w) = snd (next ctx w).
Proof.
  unfold logger, bind, Date_now, gets. by destruct (next ctx w) as [[r|e] w'].
Qed.

Lemma cors_world (ctx : Context) (next : Context -> M Response) (w : World) :
  String.eqb (method (req ctx)) "OPTIONS" = false ->
  snd (cors ctx next w) = snd (next ctx w).
Proof.
  intros Hm. unfold cors. rewrite Hm. unfold bind. by destruct (next ctx w) as [[r|e] w'].
Qed.

Lemma jsonParser_effect (ctx : Context) (w : World) :
  user ctx = None ->
  adds_at_most_an_ownerless_url (db w)
    (db (snd (jsonParser ctx UrlController.createShortUrl w))).
Proof.
  intros Huser. unfold jsonParser.
  destruct (_ && _ && _); [|by apply createShortUrl_effect].
  destruct (JSON_parse _); [by apply createShortUrl_effect | by left].
Qed.

(** X16: a creation request to the server, [POST /api/urls], adds at most
    one URL row, and that row has no owner, whatever the headers of the
    request are: the route runs the body parser only, never the
    authentication middleware, so the handler never sees a caller. *)
Theorem api_creation_is_ownerless (request : Request) (w : World) :
  method request = "POST" ->
  Router.segments (pathname request) = ["api"; "urls"] ->
  adds_at_most_an_ownerless_url (db w) (db (snd (fetch request w))).
Proof.
  intros Hmethod Hpath. unfold fetch, globalMiddlewares. cbn [compose].
  unfold errorHandler. rewrite try_catch_world, logger_world.
  rewrite cors_world by (simpl; by rewrite Hmethod).
  rewrite rateLimit_step. cbn [req].
  assert (Hrouter : forall w0,
             db w0 = db w ->
             adds_at_most_an_ownerless_url (db w)
               (db (snd (router (mkContext request None None None) w0)))).
  { intros w0 Hdb. unfold router, Router.handle. cbn [req]. rewrite Hmethod.
    unfold routes. cbn [Router.match_ route_method route_path String.eqb Ascii.eqb
                        Bool.eqb negb].
    rewrite !matchPath_by_parts, Hpath.
    change (Router.segments "/api/auth/register") with ["api"; "auth"; "register"].
    change (Router.segments "/api/auth/login") with ["api"; "auth"; "login"].
    change (Router.segments "/api/urls") with ["api"; "urls"].
    cbn. rewrite <- Hdb. by apply jsonParser_effect. }
  destruct (rateLimitStore w !! client_ip request) as [record|].
  - destruct (clock w <? resetAt record).
    + destruct (_ <=? count record).
      * rewrite too_many_requests_world. by left.
      * by apply Hrouter.
    + by apply Hrouter.
  - by apply Hrouter.
Qed.

End ApiCreationProperties.

(** ** The listing and the analytics queries *)

Section QueryProperties.

Context `{Platform}.

Lemma newer_or_same_transitive : Transitive queries.newer_or_same.
Proof. intros a b c. unfold queries.newer_or_same. lia. Qed.

Lemma newer_or_same_total : Total queries.newer_or_same.
Proof. intros a b. unfold queries.newer_or_same. lia. Qed.

(** X17: the listing of an authenticated caller answers 200 with the rows
    the caller owns, all of them and no other row, ordered from the
    newest second of creation to the oldest, and writes nothing. *)
Theorem getUserUrls_own_newest_first (ctx : Context) (w : World) (caller : JwtPayload) :
  user ctx = Some caller ->
  exists rows : list Url.row,
    UrlController.getUserUrls ctx w
    = (Returned
         (Response_json
            (successResponse (JArr (List.map UrlController.url_json rows)) "Success") 200),
       w)
    /\ Permutation rows (List.filter (queries.owned_by (userId caller)) (urls (db w)))
    /\ Forall (fun r => Url.user_id r = Some (userId caller)) rows
    /\ StronglySorted queries.newer_or_same rows.
Proof.
  intros Huser. unfold UrlController.getUserUrls. rewrite Huser.
  unfold try_catch, bind, queries.getUserUrls, gets, ret.
  eexists. split; [reflexivity|].
  pose proof newer_or_same_transitive. pose proof newer_or_same_total.
  assert (Hperm : Permutation
                    (merge_sort queries.newer_or_same
                       (List.filter (queries.owned_by (userId caller)) (urls (db w))))
                    (List.filter (queries.owned_by (userId caller)) (urls (db w))))
    by apply merge_sort_Permutation.
  split; [exact Hperm|]. split; [|by apply StronglySorted_merge_sort].
  apply Forall_forall. intros r Hr.
  rewrite Hperm in Hr. apply list_elem_of_In, List.filter_In in Hr as [_ Hown].
  unfold queries.owned_by in Hown. destruct (Url.user_id r) as [u|]; [|done].
  apply Z.eqb_eq in Hown. by subst.
Qed.

Lemma ge_transitive : Transitive Z.ge.
Proof. intros a b c. lia. Qed.

Lemma ge_total : Total Z.ge.
Proof. intros a b. lia. Qed.

Lemma StronglySorted_strict (l : list Z) :
  StronglySorted Z.ge l -> NoDup l -> StronglySorted (fun a b => b < a) l.
Proof.
  induction 1 as [|a l Hl IH Ha]; intros Hnodup; constructor.
  - apply IH. by apply NoDup_cons in Hnodup as [_ ?].
  - apply NoDup_cons in Hnodup as [Hnot _].
    apply Forall_forall. intros b Hb.
    pose proof (proj1 (Forall_forall _ _) Ha b Hb) as Hge.
    assert (a <> b) by (intros ->; by apply Hnot).
    lia.
Qed.

Lemma StronglySorted_map_fst {B : Type} (f : Z -> B) (l : list Z) :
  StronglySorted (fun a b => b < a) l ->
  StronglySorted (fun a b : Z * B => fst b < fst a) (List.map (fun x => (x, f x)) l).
Proof.
  induction 1 as [|a l Hl IH Ha]; simpl; constructor; [done|].
  apply Forall_forall. intros [b y] Hb.
  apply list_elem_of_In, in_map_iff in Hb as (x & [= <- <-] & Hx). simpl.
  apply (proj1 (Forall_forall _ _) Ha x). by apply list_elem_of_In.
Qed.

Lemma filter_map_length {A : Type} (f : A -> Z) (day : Z) (l : list A) :
  List.length (List.filter (Z.eqb day) (List.map f l))
  = List.length (List.filter (fun x => Z.eqb day (f x)) l).
Proof.
  induction l as [|a l IH]; simpl; [done|].
  destruct (Z.eqb day (f a)); simpl; by rewrite IH.
Qed.

(** X18: the analytics query returns at most 30 buckets, one per day,
    from the latest day to the earliest; the count of a bucket is the
    number of click rows of the URL on that day and is at least 1; and a
    day on which the URL was clicked is among the buckets unless there
    are 30 buckets, all of later days. The query writes nothing. *)
Theorem getUrlAnalytics_buckets (url_id : Z) (w : World) :
  exists buckets : list (Z * Z),
    queries.getUrlAnalytics url_id w = (Returned buckets, w)
    /\ (List.length buckets <= 30)%nat
    /\ StronglySorted (fun a b => fst b < fst a) buckets
    /\ Forall
         (fun b =>
            snd b
            = Z.of_nat
                (List.length
                   (List.filter
                      (fun click => Z.eqb (fst b) (queries.day_of (Click.clicked_at click)))
                      (clicks_of url_id (db w))))
            /\ 1 <= snd b)
         buckets
    /\ (forall click : Click.row,
           In click (clicks_of url_id (db w)) ->
           In (queries.day_of (Click.clicked_at click)) (List.map fst buckets)
           \/ (List.length buckets = 30%nat
               /\ Forall (fun b => queries.day_of (Click.clicked_at click) < fst b) buckets)).
Proof.
  unfold queries.getUrlAnalytics, gets. fold (clicks_of url_id (db w)).
  set (days := List.map (fun c => queries.day_of (Click.clicked_at c)) (clicks_of url_id (db w))).
  set (sorted := merge_sort Z.ge (remove_dups days)).
  pose proof ge_transitive. pose proof ge_total.
  assert (Hperm : Permutation sorted (remove_dups days)) by apply merge_sort_Permutation.
  assert (Hnodup : NoDup sorted).
  { rewrite Hperm. apply NoDup_remove_dups. }
  assert (Hsorted : StronglySorted (fun a b => b < a) sorted).
  { apply StronglySorted_strict; [by apply StronglySorted_merge_sort | done]. }
  assert (Hsplit : sorted = take 30 sorted ++ drop 30 sorted) by (by rewrite take_drop).
  assert (Htake : StronglySorted (fun a b => b < a) (take 30 sorted)).
  { rewrite Hsplit in Hsorted. by apply StronglySorted_app_1_l in Hsorted. }
  assert (Hin_days : forall day, In day sorted <-> In day days).
  { intros day. rewrite <- !list_elem_of_In, Hperm. apply elem_of_remove_dups. }
  assert (Hcount : forall day,
             List.length (List.filter (Z.eqb day) days)
             = List.length
                 (List.filter (fun click => Z.eqb day (queries.day_of (Click.clicked_at click)))
                    (clicks_of url_id (db w)))).
  { intros day. apply filter_map_length. }
  eexists. split; [reflexivity|]. split; [|split; [|split]].
  - rewrite length_map, length_take. lia.
  - by apply StronglySorted_map_fst.
  - apply Forall_forall. intros [day n] Hb.
    apply list_elem_of_In, in_map_iff in Hb as (x & [= <- <-] & Hx). simpl.
    rewrite Hcount. split; [done|].
    assert (Hday : In x days).
    { apply Hin_days. rewrite Hsplit. apply in_or_app. by left. }
    rewrite <- Hcount.
    assert (Hpos : In x (List.filter (Z.eqb x) days))
      by (apply List.filter_In; split; [done | apply Z.eqb_refl]).
    destruct (List.filter (Z.eqb x) days); [done | simpl; lia].
  - intros click Hclick.
    assert (Hday : In (queries.day_of (Click.clicked_at click)) sorted).
    { apply Hin_days. subst days.
      exact (in_map (fun c => queries.day_of (Click.clicked_at c)) _ _ Hclick). }
    rewrite Hsplit in Hday. apply in_app_or in Hday as [Hhead | Htail].
    + left. rewrite List.map_map. simpl. by rewrite List.map_id.
    + right. rewrite length_map.
      assert (Hlen : (30 <= List.length sorted)%nat).
      { destruct (decide (30 <= List.length sorted)%nat) as [|Hshort]; [done|].
        rewrite drop_ge in Htail by lia. done. }
      split; [rewrite length_take; lia|].
      rewrite Hsplit in Hsorted.
      apply Forall_forall. intros [day n] Hb.
      apply list_elem_of_In, in_map_iff in Hb as (x & [= <- <-] & Hx). simpl.
      apply (StronglySorted_app_1_elem_of _ _ _ x _ Hsorted); by apply list_elem_of_In.
Qed.

End QueryProperties.

(** ** Keys, constraints and counters under the server *)

Section KeyInvariants.

Context `{Platform}.

Lemma serve_all_keeps (J : Db -> Prop) (requests : list (Request * Z)) (w : World) :
  (forall request w0, J (db w0) -> J (db (snd (fetch request w0)))) ->
  J (db w) -> J (db (serve_all requests w)).
Proof.
  intros Hstep. revert w. induction requests as [|[request t] later IH]; intros w Hw; simpl;
    [done|].
  apply IH. by apply Hstep.
Qed.

Lemma createUrl_keeps_ids (code url : string) (o e : option Z) :
  sat (on_db url_ids_fresh) anything (queries.createUrl code url o e).
Proof.
  apply sat_keeps. intros w [Hnodup Hbound]. unfold queries.createUrl.
  destruct (existsb _ _); [done|]. destruct (foreign_keys && _); [done|].
  unfold url_ids_fresh, queries.next_id. simpl. split.
  - rewrite List.map_app. simpl. apply NoDup_app. split; [done|].
    split; [|apply NoDup_singleton].
    intros i Hi Hin. apply list_elem_of_singleton in Hin as ->.
    apply list_elem_of_In, in_map_iff in Hi as (r & Hr & Hrin).
    pose proof (proj1 (List.Forall_forall _ _) Hbound r Hrin) as Hle. simpl in Hle. lia.
  - apply Forall_app. split.
    + eapply Forall_impl; [exact Hbound|]. intros r Hr. simpl in *. lia.
    + repeat constructor. simpl. lia.
Qed.

Lemma incrementClicks_keeps_ids (id : Z) :
  sat (on_db url_ids_fresh) anything (queries.incrementClicks id).
Proof.
  apply sat_keeps. intros w [Hnodup Hbound].
  unfold queries.incrementClicks, modify, url_ids_fresh. simpl. split.
  - rewrite List.map_map. erewrite List.map_ext; [exact Hnodup|].
    intros r. by destruct (_ =? _).
  - apply Forall_forall. intros r Hr.
    apply list_elem_of_In, in_map_iff in Hr as (r0 & <- & Hr0).
    pose proof (proj1 (List.Forall_forall _ _) Hbound r0 Hr0) as Hle.
    by destruct (_ =? _).
Qed.

Lemma deleteUrl_keeps_ids (code : string) (u : Z) :
  sat (on_db url_ids_fresh) anything (queries.deleteUrl code u).
Proof.
  apply sat_keeps. intros w [Hnodup Hbound].
  unfold queries.deleteUrl, url_ids_fresh. simpl. split.
  - by apply NoDup_map_filter.
  - apply Forall_forall. intros r Hr.
    apply list_elem_of_In, List.filter_In in Hr as [Hr _].
    exact (proj1 (List.Forall_forall _ _) Hbound r Hr).
Qed.

Lemma createUser_keeps_ids (u e p : string) :
  sat (on_db url_ids_fresh) anything (queries.createUser u e p).
Proof.
  apply sat_keeps. intros w Hw. unfold queries.createUser.
  by repeat destruct (existsb _ _).
Qed.

Lemma logClick_keeps_ids (id : Z) (ua rf : option string) (ip : string) :
  sat (on_db url_ids_fresh) anything (queries.logClick id ua rf ip).
Proof.
  apply sat_keeps. intros w Hw. unfold queries.logClick. by destruct (foreign_keys && _).
Qed.

Lemma createUrl_keeps_seq (n : Z) (code url : string) (o e : option Z) :
  sat (on_db (seq_reached n)) anything (queries.createUrl code url o e).
Proof.
  apply sat_keeps. intros w Hw. unfold queries.createUrl.
  destruct (existsb _ _); [done|]. destruct (foreign_keys && _); [done|].
  unfold seq_reached, queries.next_id in *. simpl. lia.
Qed.

Lemma incrementClicks_keeps_seq (n id : Z) :
  sat (on_db (seq_reached n)) anything (queries.incrementClicks id).
Proof. by apply sat_keeps. Qed.

Lemma deleteUrl_keeps_seq (n : Z) (code : string) (u : Z) :
  sat (on_db (seq_reached n)) anything (queries.deleteUrl code u).
Proof. by apply sat_keeps. Qed.

Lemma createUser_keeps_seq (n : Z) (u e p : string) :
  sat (on_db (seq_reached n)) anything (queries.createUser u e p).
Proof.
  apply sat_keeps. intros w Hw. unfold queries.createUser.
  by repeat destruct (existsb _ _).
Qed.

Lemma logClick_keeps_seq (n id : Z) (ua rf : option string) (ip : string) :
  sat (on_db (seq_reached n)) anything (queries.logClick id ua rf ip).
Proof.
  apply sat_keeps. intros w Hw. unfold queries.logClick. by destruct (foreign_keys && _).
Qed.

Lemma createUrl_keeps_retired (i : Z) (code url : string) (o e : option Z) :
  sat (on_db (id_retired i)) anything (queries.createUrl code url o e).
Proof.
  apply sat_keeps. intros w [Hseq Hall]. unfold queries.createUrl.
  destruct (existsb _ _); [done|]. destruct (foreign_keys && _); [done|].
  unfold id_retired, queries.next_id. simpl. split; [lia|].
  apply Forall_app. split; [done|]. repeat constructor. simpl. lia.
Qed.

Lemma incrementClicks_keeps_retired (i id : Z) :
  sat (on_db (id_retired i)) anything (queries.incrementClicks id).
Proof.
  apply sat_keeps. intros w [Hseq Hall].
  unfold queries.incrementClicks, modify, id_retired. simpl. split; [done|].
  apply Forall_forall. intros r Hr.
  apply list_elem_of_In, in_map_iff in Hr as (r0 & <- & Hr0).
  pose proof (proj1 (List.Forall_forall _ _) Hall r0 Hr0) as Hne.
  by destruct (_ =? _).
Qed.

Lemma deleteUrl_keeps_retired (i : Z) (code : string) (u : Z) :
  sat (on_db (id_retired i)) anything (queries.deleteUrl code u).
Proof.
  apply sat_keeps. intros w [Hseq Hall].
  unfold queries.deleteUrl, id_retired. simpl. split; [done|].
  apply Forall_forall. intros r Hr.
  apply list_elem_of_In, List.filter_In in Hr as [Hr _].
  exact (proj1 (List.Forall_forall _ _) Hall r Hr).
Qed.

Lemma createUser_keeps_retired (i : Z) (u e p : string) :
  sat (on_db (id_retired i)) anything (queries.createUser u e p).
Proof.
  apply sat_keeps. intros w Hw. unfold queries.createUser.
  by repeat destruct (existsb _ _).
Qed.

Lemma logClick_keeps_retired (i id : Z) (ua rf : option string) (ip : string) :
  sat (on_db (id_retired i)) anything (queries.logClick id ua rf ip).
Proof.
  apply sat_keeps. intros w Hw. unfold queries.logClick. by destruct (foreign_keys && _).
Qed.

Lemma serve_keeps_fresh (requests : list (Request * Z)) (w : World) :
  url_ids_fresh (db w) -> url_ids_fresh (db (serve_all requests w)).
Proof.
  apply serve_all_keeps. intros request w0 Hw0.
  apply (fetch_sat url_ids_fresh createUser_keeps_ids createUrl_keeps_ids
           incrementClicks_keeps_ids deleteUrl_keeps_ids logClick_keeps_ids
           request w0 Hw0).
Qed.

Lemma serve_keeps_seq (requests : list (Request * Z)) (w : World) :
  urls_seq (db w) <= urls_seq (db (serve_all requests w)).
Proof.
  apply (serve_all_keeps (seq_reached (urls_seq (db w)))); [|unfold seq_reached; lia].
  intros request w0 Hw0.
  apply (fetch_sat (seq_reached (urls_seq (db w)))
           (createUser_keeps_seq _) (createUrl_keeps_seq _)
           (incrementClicks_keeps_seq _) (deleteUrl_keeps_seq _)
           (logClick_keeps_seq _) request w0 Hw0).
Qed.

Lemma serve_keeps_retired (i : Z) (requests : list (Request * Z)) (w : World) :
  id_retired i (db w) -> id_retired i (db (serve_all requests w)).
Proof.
  apply serve_all_keeps. intros request w0 Hw0.
  apply (fetch_sat (id_retired i)
           (createUser_keeps_retired _) (createUrl_keeps_retired _)
           (incrementClicks_keeps_retired _) (deleteUrl_keeps_retired _)
           (logClick_keeps_retired _) request w0 Hw0).
Qed.

(** X19: whatever requests the server is sent, the ids of the URL rows
    stay distinct and none goes beyond the AUTOINCREMENT sequence, which
    never goes back; and the id of a deleted URL is never given to a
    later one: when a row of the store is gone after some requests, no
    row has its id after any further requests. *)
Theorem serve_keeps_url_ids (earlier later : list (Request * Z)) (w : World) :
  url_ids_fresh (db w) ->
  let w1 := serve_all earlier w in
  let w2 := serve_all later w1 in
  url_ids_fresh (db w2)
  /\ urls_seq (db w) <= urls_seq (db w1) <= urls_seq (db w2)
  /\ forall r : Url.row,
       In r (urls (db w)) ->
       ~ In (Url.id r) (List.map Url.id (urls (db w1))) ->
       ~ In (Url.id r) (List.map Url.id (urls (db w2))).
Proof.
  intros Hfresh w1 w2.
  split; [by do 2 apply serve_keeps_fresh|].
  split; [split; apply serve_keeps_seq|].
  intros r Hr Hgone Hback.
  assert (Hretired : id_retired (Url.id r) (db w2)).
  { apply serve_keeps_retired. split.
    - destruct Hfresh as [_ Hbound].
      pose proof (proj1 (List.Forall_forall _ _) Hbound r Hr) as Hle. simpl in Hle.
      pose proof (serve_keeps_seq earlier w). subst w1. lia.
    - apply Forall_forall. intros x Hx Hsame. apply Hgone.
      rewrite <- Hsame. apply in_map. by apply list_elem_of_In. }
  destruct Hretired as [_ Hall].
  apply in_map_iff in Hback as (x & Hsame & Hx).
  exact (proj1 (List.Forall_forall _ _) Hall x Hx Hsame).
Qed.

Lemma NoDup_map_snoc {A B : Type} (f : A -> B) (l : list A) (x : A) :
  NoDup (List.map f l) ->
  (forall y, In y l -> f y <> f x) ->
  NoDup (List.map f (l ++ [x])).
Proof.
  intros Hnodup Hfresh. rewrite List.map_app. simpl. apply NoDup_app.
  split; [done|]. split; [|apply NoDup_singleton].
  intros b Hb Hin. apply list_elem_of_singleton in Hin as ->.
  apply list_elem_of_In, in_map_iff in Hb as (y & Hy & Hyin). by apply (Hfresh y).
Qed.

Lemma existsb_false_all {A : Type} (p : A -> bool) (l : list A) (y : A) :
  existsb p l = false -> In y l -> p y = false.
Proof.
  intros Hex Hy. destruct (p y) eqn:Hp; [|done].
  assert (existsb p l = true) by (apply existsb_exists; by exists y). congruence.
Qed.

Lemma createUser_keeps_users (u e p : string) :
  sat (on_db users_unique) anything (queries.createUser u e p).
Proof.
  apply sat_keeps. intros w [Hnames Hemails]. unfold queries.createUser.
  destruct (existsb (fun r => String.eqb (User.username r) u) (users (db w))) eqn:Hu;
    [done|].
  destruct (existsb (fun r => String.eqb (User.email r) e) (users (db w))) eqn:He;
    [done|].
  unfold users_unique. simpl. split; apply NoDup_map_snoc; try done; intros y Hy; simpl.
  - apply String.eqb_neq. exact (existsb_false_all _ _ y Hu Hy).
  - apply String.eqb_neq. exact (existsb_false_all _ _ y He Hy).
Qed.

Lemma createUrl_keeps_users (code url : string) (o e : option Z) :
  sat (on_db users_unique) anything (queries.createUrl code url o e).
Proof.
  apply sat_keeps. intros w Hw. unfold queries.createUrl.
  destruct (existsb _ _); [done|]. by destruct (foreign_keys && _).
Qed.

Lemma incrementClicks_keeps_users (id : Z) :
  sat (on_db users_unique) anything (queries.incrementClicks id).
Proof. by apply sat_keeps. Qed.

Lemma deleteUrl_keeps_users (code : string) (u : Z) :
  sat (on_db users_unique) anything (queries.deleteUrl code u).
Proof. by apply sat_keeps. Qed.

Lemma logClick_keeps_users (id : Z) (ua rf : option string) (ip : string) :
  sat (on_db users_unique) anything (queries.logClick id ua rf ip).
Proof.
  apply sat_keeps. intros w Hw. unfold queries.logClick. by destruct (foreign_keys && _).
Qed.

(** X20: whatever requests the server is sent, no two users share a
    username and no two share an email. *)
Theorem serve_keeps_users_unique (requests : list (Request * Z)) (w : World) :
  users_unique (db w) -> users_unique (db (serve_all requests w)).
Proof.
  apply serve_all_keeps. intros request w0 Hw0.
  apply (fetch_sat users_unique createUser_keeps_users createUrl_keeps_users
           incrementClicks_keeps_users deleteUrl_keeps_users logClick_keeps_users
           request w0 Hw0).
Qed.

Lemma createUrl_keeps_clicks (i n : Z) (code url : string) (o e : option Z) :
  sat (on_db (clicks_at_least i n)) anything (queries.createUrl code url o e).
Proof.
  apply sat_keeps. intros w [Hseq Hall]. unfold queries.createUrl.
  destruct (existsb _ _); [done|]. destruct (foreign_keys && _); [done|].
  unfold clicks_at_least, queries.next_id. simpl. split; [lia|].
  apply Forall_app. split; [done|]. repeat constructor. simpl. lia.
Qed.

Lemma incrementClicks_keeps_clicks (i n id : Z) :
  sat (on_db (clicks_at_least i n)) anything (queries.incrementClicks id).
Proof.
  apply sat_keeps. intros w [Hseq Hall].
  unfold queries.incrementClicks, modify, clicks_at_least. simpl. split; [done|].
  apply Forall_forall. intros r Hr.
  apply list_elem_of_In, in_map_iff in Hr as (r0 & <- & Hr0).
  pose proof (proj1 (List.Forall_forall _ _) Hall r0 Hr0) as Hle.
  destruct (_ =? _); simpl; intros Hid; specialize (Hle Hid); lia.
Qed.

Lemma deleteUrl_keeps_clicks (i n : Z) (code : string) (u : Z) :
  sat (on_db (clicks_at_least i n)) anything (queries.deleteUrl code u).
Proof.
  apply sat_keeps. intros w [Hseq Hall].
  unfold queries.deleteUrl, clicks_at_least. simpl. split; [done|].
  apply Forall_forall. intros r Hr.
  apply list_elem_of_In, List.filter_In in Hr as [Hr _].
  exact (proj1 (List.Forall_forall _ _) Hall r Hr).
Qed.

Lemma createUser_keeps_clicks (i n : Z) (u e p : string) :
  sat (on_db (clicks_at_least i n)) anything (queries.createUser u e p).
Proof.
  apply sat_keeps. intros w Hw. unfold queries.createUser.
  by repeat destruct (existsb _ _).
Qed.

Lemma logClick_keeps_clicks (i n id : Z) (ua rf : option string) (ip : string) :
  sat (on_db (clicks_at_least i n)) anything (queries.logClick id ua rf ip).
Proof.
  apply sat_keeps. intros w Hw. unfold queries.logClick. by destruct (foreign_keys && _).
Qed.

(** X21: the click counter of a URL never goes down: whatever requests
    the server is sent, a row found afterwards under the id of a row of
    the store has at least the clicks that row had. *)
Theorem clicks_never_decrease (requests : list (Request * Z)) (w : World) (r r' : Url.row) :
  url_ids_fresh (db w) ->
  In r (urls (db w)) ->
  In r' (urls (db (serve_all requests w))) ->
  Url.id r' = Url.id r ->
  Url.clicks r <= Url.clicks r'.
Proof.
  intros [Hnodup Hbound] Hr Hr' Hid.
  assert (Hstart : clicks_at_least (Url.id r) (Url.clicks r) (db w)).
  { split; [exact (proj1 (List.Forall_forall _ _) Hbound r Hr)|].
    apply Forall_forall. intros x Hx Hsame. apply list_elem_of_In in Hx.
    assert (x = r) as ->; [|lia].
    clear Hbound. induction (urls (db w)) as [|a l IH]; simpl in *; [done|].
    apply NoDup_cons in Hnodup as [Hnot Hnodup].
    destruct Hx as [-> | Hx]; destruct Hr as [-> | Hr]; try done.
    - destruct Hnot. rewrite Hsame. apply list_elem_of_In, in_map, Hr.
    - destruct Hnot. rewrite <- Hsame. apply list_elem_of_In, in_map, Hx.
    - by apply IH. }
  assert (Hend : clicks_at_least (Url.id r) (Url.clicks r) (db (serve_all requests w))).
  { apply serve_all_keeps; [|done]. intros request w0 Hw0.
    apply (fetch_sat (clicks_at_least (Url.id r) (Url.clicks r))
             (createUser_keeps_clicks _ _) (createUrl_keeps_clicks _ _)
             (incrementClicks_keeps_clicks _ _) (deleteUrl_keeps_clicks _ _)
             (logClick_keeps_clicks _ _) request w0 Hw0). }
  destruct Hend as [_ Hall].
  exact (proj1 (List.Forall_forall _ _) Hall r' Hr' Hid).
Qed.

End KeyInvariants.

(** ** Requests that never reach the router *)

Section ShortCircuitProperties.

Context `{Platform}.

(** X22: a preflight (OPTIONS) request to any path is answered 204 with
    the CORS headers and changes nothing: it is not counted by the rate
    limiter, which sits inside the CORS middleware, and reaches no route. *)
Theorem preflight_is_not_counted (request : Request) (w : World) :
  method request = "OPTIONS" ->
  exists r : Response,
    fetch request w = (Returned r, w)
    /\ status r = 204 /\ body r = NoBody /\ has_cors r.
Proof.
  intros Hmethod. unfold fetch, globalMiddlewares. cbn [compose].
  unfold errorHandler, try_catch, logger.
  unfold bind at 1. unfold Date_now at 1. unfold gets at 1. unfold bind at 1.
  set (ctx := mkContext request None None None).
  set (inner := fun ctx' : Context => rateLimit _ _ ctx' _).
  assert (Hm : String.eqb (method (req ctx)) "OPTIONS" = true)
    by (subst ctx; simpl; by rewrite Hmethod).
  destruct (cors_preflight ctx inner w Hm) as (r & -> & Hstatus & Hbody & Hr).
  exists r. split; [reflexivity|]. split; [done|]. split; [done | exact Hr].
Qed.

(** X23: a request that finds the window of its client full is answered
    429 by the server, with the CORS headers and a remaining count of 0,
    and changes nothing at all: no route is matched, no handler runs, the
    store and the limiter table stay as they were. *)
Theorem limited_request_changes_nothing (request : Request) (w : World) (record : RateRecord) :
  String.eqb (method request) "OPTIONS" = false ->
  rateLimitStore w !! client_ip request = Some record ->
  clock w < resetAt record ->
  parseInt (JsString.or_else (env "API_RATE_LIMIT") "100") <= count record ->
  Z.abs (resetAt record) <= max_time_value ->
  exists r : Response,
    fetch request w = (Returned r, w)
    /\ status r = 429
    /\ body r
       = JsonBody (JObj [("success", JBool false);
                         ("error", JStr "Too many requests. Please try again later.")])
    /\ header "X-RateLimit-Remaining" (headers r) = Some "0"
    /\ has_cors r.
Proof.
  intros Hmethod Hrecord Hnow Hfull Hrange. unfold fetch, globalMiddlewares. cbn [compose].
  unfold errorHandler, try_catch, logger.
  unfold bind at 1. unfold Date_now at 1. unfold gets at 1. unfold bind at 1.
  set (ctx := mkContext request None None None).
  set (inner := fun ctx' : Context => rateLimit _ _ ctx' _).
  assert (Hinner : inner ctx w
                   = (Returned
                        (limited (parseInt (JsString.or_else (env "API_RATE_LIMIT") "100"))
                           (resetAt record)), w)).
  { subst inner. cbv beta. rewrite rateLimit_step. subst ctx. cbn [req]. rewrite Hrecord.
    apply Z.ltb_lt in Hnow. rewrite Hnow. apply Z.leb_le in Hfull. rewrite Hfull.
    by apply too_many_requests_limited. }
  destruct (cors_passes ctx inner w w _ Hmethod Hinner)
    as (r & -> & Hstatus & Hbody & Hr & Hother).
  exists r. split; [reflexivity|]. split; [done|]. split; [done|]. split; [|done].
  by rewrite Hother.
Qed.

(** X24: whatever requests the server is sent, no two URL rows share a
    short code. *)
Theorem serve_keeps_codes_unique (requests : list (Request * Z)) (w : World) :
  codes_unique (db w) -> codes_unique (db (serve_all requests w)).
Proof.
  apply serve_all_keeps. intros request w0. apply fetch_keeps_codes_unique.
Qed.

End ShortCircuitProperties.

(** ** The further properties at work on the example store *)

Lemma register_twice_conflicts_witness :
  Validator.isValidUsername "alice" = true
  /\ Validator.isValidEmail "alice@example.com" = true
  /\ Validator.isValidPassword "Alice1234" = true
  /\ Validator.isValidEmail "other@example.com" = true
  /\ Validator.isValidPassword "Other1234" = true
  /\ find_username "alice" (db demo_world) = None
  /\ find_email "alice@example.com" (db demo_world) = None
  /\ exists (created : Response) (w1 : World),
       @AuthController.register demo_platform alice_registers demo_world
       = (Returned created, w1)
       /\ status created = 201
       /\ fst (@AuthController.register demo_platform alice_again w1)
          = Returned
              (Response_json
                 (JObj [("success", JBool false); ("error", JStr "Username already exists");
                        ("statusCode", JNum 400)])
                 409).
Proof.
  assert (Hu : Validator.isValidUsername "alice" = true) by (vm_compute; reflexivity).
  assert (He1 : Validator.isValidEmail "alice@example.com" = true)
    by (vm_compute; reflexivity).
  assert (Hp1 : Validator.isValidPassword "Alice1234" = true) by (vm_compute; reflexivity).
  assert (He2 : Validator.isValidEmail "other@example.com" = true)
    by (vm_compute; reflexivity).
  assert (Hp2 : Validator.isValidPassword "Other1234" = true) by (vm_compute; reflexivity).
  repeat (split; [done|]).
  destruct (@register_twice_conflicts demo_platform alice_registers alice_again
              "alice" "alice@example.com" "Alice1234" "other@example.com" "Other1234"
              demo_world eq_refl eq_refl Hu He1 Hp1 He2 Hp2 eq_refl eq_refl)
    as (created & w1 & Hfirst & Hstatus & Hsecond).
  exists created, w1. split; [exact Hfirst|]. split; [exact Hstatus|]. by rewrite Hsecond.
Defined.

Lemma login_does_not_tell_witness :
  "carol" <> "" /\ "Carol1234" <> ""
  /\ find_username "carol" (db demo_world) = None
  /\ @AuthController.login demo_platform carol_logs_in demo_world
     = (Returned invalid_credentials, demo_world).
Proof.
  assert (Hu : "carol" <> "") by discriminate.
  assert (Hp : "Carol1234" <> "") by discriminate.
  split; [exact Hu|]. split; [exact Hp|]. split; [reflexivity|].
  apply (@login_does_not_tell demo_platform carol_logs_in "carol" "Carol1234" None
           demo_world eq_refl Hu Hp).
  left. reflexivity.
Defined.

Lemma register_then_login_witness :
  Validator.isValidUsername "alice" = true
  /\ Validator.isValidEmail "alice@example.com" = true
  /\ Validator.isValidPassword "Alice1234" = true
  /\ @bcrypt_compare demo_platform "Alice1234" (@bcrypt_hash demo_platform "Alice1234") = true
  /\ exists (created : Response) (w1 : World),
       @AuthController.register demo_platform alice_registers demo_world
       = (Returned created, w1)
       /\ status created = 201
       /\ fst (@AuthController.login demo_platform alice_logs_in w1)
          = Returned
              (Response_json
                 (successResponse
                    (JObj [("user", AuthController.user_json 3 "alice" "alice@example.com");
                           ("token", JStr "token-alice")])
                    "Login successful")
                 200).
Proof.
  assert (Hu : Validator.isValidUsername "alice" = true) by (vm_compute; reflexivity).
  assert (He : Validator.isValidEmail "alice@example.com" = true)
    by (vm_compute; reflexivity).
  assert (Hp : Validator.isValidPassword "Alice1234" = true) by (vm_compute; reflexivity).
  assert (Hverify : @bcrypt_compare demo_platform "Alice1234"
                      (@bcrypt_hash demo_platform "Alice1234") = true)
    by (vm_compute; reflexivity).
  repeat (split; [done|]).
  destruct (@register_then_login demo_platform alice_registers alice_logs_in
              "alice" "alice@example.com" "Alice1234" demo_world
              eq_refl eq_refl Hu He Hp eq_refl eq_refl Hverify)
    as (created & w1 & Hfirst & Hstatus & Hlogin).
  exists created, w1. split; [exact Hfirst|]. split; [exact Hstatus|]. by rewrite Hlogin.
Defined.

Lemma custom_code_twice_conflicts_witness :
  "https://example.com" <> ""
  /\ @Validator.isValidUrl demo_platform "https://example.com" = true
  /\ @Validator.isValidUrl demo_platform "https://example.org" = true
  /\ Regex.matches UrlController.customCodeRegex "mylink" = true
  /\ queries.find_code "mylink" (db demo_world) = None
  /\ @expiration_representable demo_platform (Some 30) (clock demo_world)
  /\ @owner_acceptable demo_platform mylink_for_30_days (db demo_world)
  /\ exists w1 : World,
       fst (@UrlController.createShortUrl demo_platform mylink_for_30_days demo_world)
       = Returned (@UrlController.created demo_platform "mylink" "https://example.com"
                     (Some (2592001000, "2592001000")))
       /\ @UrlController.createShortUrl demo_platform mylink_again w1
          = (Returned code_taken, w1).
Proof.
  assert (Hne1 : "https://example.com" <> "") by discriminate.
  assert (Hne2 : "https://example.org" <> "") by discriminate.
  assert (Hcode : Regex.matches UrlController.customCodeRegex "mylink" = true)
    by (vm_compute; reflexivity).
  assert (Hexp : @expiration_representable demo_platform (Some 30) (clock demo_world))
    by (intros _; vm_compute; discriminate).
  assert (Howner : @owner_acceptable demo_platform mylink_for_30_days (db demo_world))
    by (intros _; exact I).
  split; [exact Hne1|]. split; [reflexivity|]. split; [reflexivity|]. split; [exact Hcode|].
  split; [reflexivity|]. split; [exact Hexp|]. split; [exact Howner|].
  destruct (@custom_code_twice_conflicts demo_platform mylink_for_30_days mylink_again
              "https://example.com" "https://example.org" "mylink" (Some 30) None demo_world
              eq_refl eq_refl Hne1 eq_refl Hne2 eq_refl Hcode eq_refl Hexp Howner)
    as (w1 & Hfirst & Hsecond).
  exists w1. split; [by rewrite Hfirst | exact Hsecond].
Defined.

Lemma create_then_redirect_witness :
  "https://example.com" <> ""
  /\ Regex.matches UrlController.customCodeRegex "mylink" = true
  /\ queries.find_code "mylink" (db demo_world) = None
  /\ @expiration_representable demo_platform (Some 30) (clock demo_world)
  /\ params_code get_mylink = Some "mylink"
  /\ @Date_setDate_plus demo_platform (clock demo_world) 30 = 2592001000
  /\ (exists (created answer : Response) (w1 w2 : World),
         @UrlController.createShortUrl demo_platform mylink_for_30_days demo_world
         = (Returned created, w1)
         /\ status created = 201
         /\ @UrlController.redirect demo_platform get_mylink (set_clock 2592001000 w1)
            = (Returned answer, w2)
         /\ status answer = 302
         /\ header "Location" (headers answer) = Some "https://example.com")
  /\ (exists (created answer : Response) (w1 : World),
         @UrlController.createShortUrl demo_platform mylink_for_30_days demo_world
         = (Returned created, w1)
         /\ @UrlController.redirect demo_platform get_mylink (set_clock 2592001001 w1)
            = (Returned answer, set_clock 2592001001 w1)
         /\ status answer = 410
         /\ body answer = TextBody "URL has expired").
Proof.
  assert (Hne : "https://example.com" <> "") by discriminate.
  assert (Hcode : Regex.matches UrlController.customCodeRegex "mylink" = true)
    by (vm_compute; reflexivity).
  assert (Hexp : @expiration_representable demo_platform (Some 30) (clock demo_world))
    by (intros _; vm_compute; discriminate).
  assert (Howner : @owner_acceptable demo_platform mylink_for_30_days (db demo_world))
    by (intros _; exact I).
  assert (Hinstant : @Date_setDate_plus demo_platform (clock demo_world) 30 = 2592001000)
    by reflexivity.
  split; [exact Hne|]. split; [exact Hcode|]. split; [reflexivity|]. split; [exact Hexp|].
  split; [reflexivity|]. split; [exact Hinstant|]. split.
  - destruct (@create_then_redirect demo_platform mylink_for_30_days get_mylink
                "https://example.com" "mylink" (Some 30) demo_world 2592001000
                eq_refl Hne eq_refl Hcode eq_refl Hexp Howner eq_refl)
      as (created & w1 & Hfirst & Hstatus & answer & w2 & Hthen & Hdays & _).
    destruct (Hdays 30 eq_refl) as (_ & Hlive & _); [lia|].
    destruct Hlive as [Hanswer Hlocation]; [rewrite Hinstant; lia|].
    exists created, answer, w1, w2. split; [exact Hfirst|]. split; [exact Hstatus|].
    split; [exact Hthen|]. split; [exact Hanswer | exact Hlocation].
  - destruct (@create_then_redirect demo_platform mylink_for_30_days get_mylink
                "https://example.com" "mylink" (Some 30) demo_world 2592001001
                eq_refl Hne eq_refl Hcode eq_refl Hexp Howner eq_refl)
      as (created & w1 & Hfirst & Hstatus & answer & w2 & Hthen & Hdays & _).
    destruct (Hdays 30 eq_refl) as (_ & _ & Hlapsed); [lia|].
    destruct Hlapsed as (Hanswer & Hbody & Hworld); [rewrite Hinstant; lia|].
    exists created, answer, w1. split; [exact Hfirst|]. rewrite Hworld in Hthen.
    split; [exact Hthen|]. split; [exact Hanswer | exact Hbody].
Defined.

Lemma expiration_out_of_range_is_500_witness :
  "https://example.com" <> ""
  /\ Regex.matches UrlController.customCodeRegex "mylink" = true
  /\ queries.find_code "mylink" (db demo_world) = None
  /\ 0 < 1000000000000
  /\ max_time_value < Z.abs (@Date_setDate_plus demo_platform (clock demo_world) 1000000000000)
  /\ @UrlController.createShortUrl demo_platform mylink_forever_and_a_day demo_world
     = (Returned creation_failed, demo_world).
Proof.
  assert (Hne : "https://example.com" <> "") by discriminate.
  assert (Hcode : Regex.matches UrlController.customCodeRegex "mylink" = true)
    by (vm_compute; reflexivity).
  assert (Hpos : 0 < 1000000000000) by lia.
  assert (Hbig : max_time_value
                 < Z.abs (@Date_setDate_plus demo_platform (clock demo_world) 1000000000000))
    by (vm_compute; reflexivity).
  split; [exact Hne|]. split; [exact Hcode|]. split; [reflexivity|]. split; [exact Hpos|].
  split; [exact Hbig|].
  exact (@expiration_out_of_range_is_500 demo_platform mylink_forever_and_a_day
           "https://example.com" "mylink" 1000000000000 demo_world
           eq_refl Hne eq_refl Hcode eq_refl Hpos Hbig).
Defined.

Lemma deleteUrl_by_owner_witness :
  user bob_deletes_bunjs = Some bob
  /\ params_code bob_deletes_bunjs = Some "bunjs"
  /\ codes_unique (db demo_world)
  /\ queries.find_code "bunjs" (db demo_world) = Some bunjs_row
  /\ Url.user_id bunjs_row = Some (userId bob)
  /\ exists w' : World,
       @UrlController.deleteUrl demo_platform bob_deletes_bunjs demo_world
       = (Returned deleted, w')
       /\ queries.find_code "bunjs" (db w') = None
       /\ queries.find_code "anon01" (db w') = Some anon_row.
Proof.
  assert (Hunique : codes_unique (db demo_world)).
  { apply (bool_decide_unpack _). vm_compute. exact I. }
  assert (Hne : "bunjs" <> "") by discriminate.
  split; [reflexivity|]. split; [reflexivity|]. split; [exact Hunique|].
  split; [reflexivity|]. split; [reflexivity|].
  destruct (@deleteUrl_by_owner demo_platform bob_deletes_bunjs demo_world bob "bunjs"
              bunjs_row eq_refl eq_refl Hne Hunique eq_refl eq_refl)
    as (w' & Hrun & Hgone & Hothers & _).
  exists w'. split; [exact Hrun|]. split; [exact Hgone|].
  rewrite Hothers by discriminate. reflexivity.
Defined.

Lemma api_creation_is_ownerless_witness :
  method (json_post "/api/urls" (shorten_payload "https://example.com")
            [("authorization", "Bearer token-bob")]) = "POST"
  /\ Router.segments "/api/urls" = ["api"; "urls"]
  /\ adds_at_most_an_ownerless_url (db demo_world)
       (db (snd (@fetch demo_platform
                   (json_post "/api/urls" (shorten_payload "https://example.com")
                      [("authorization", "Bearer token-bob")])
                   demo_world)))
  /\ List.map Url.user_id
       (urls (db (snd (@fetch demo_platform
                         (json_post "/api/urls" (shorten_payload "https://example.com")
                            [("authorization", "Bearer token-bob")])
                         demo_world))))
     = [Some 2; None; None; None].
Proof.
  split; [reflexivity|]. split; [reflexivity|]. split; [|vm_compute; reflexivity].
  exact (@api_creation_is_ownerless demo_platform
           (json_post "/api/urls" (shorten_payload "https://example.com")
              [("authorization", "Bearer token-bob")])
           demo_world eq_refl eq_refl).
Defined.

Lemma getUserUrls_own_newest_first_witness :
  user bob_lists = Some bob
  /\ exists rows : list Url.row,
       fst (@UrlController.getUserUrls demo_platform bob_lists demo_world)
       = Returned
           (Response_json
              (successResponse (JArr (List.map (@UrlController.url_json demo_platform) rows))
                 "Success")
              200)
       /\ Permutation rows [bunjs_row].
Proof.
  split; [reflexivity|].
  destruct (@getUserUrls_own_newest_first demo_platform bob_lists demo_world bob eq_refl)
    as (rows & Hrun & Hperm & _).
  exists rows. split; [by rewrite Hrun | exact Hperm].
Defined.

Lemma demo_url_ids_fresh : url_ids_fresh (db demo_world).
Proof.
  split; [apply (bool_decide_unpack _); vm_compute; exact I|].
  repeat constructor; simpl; lia.
Defined.

Lemma serve_keeps_url_ids_witness :
  url_ids_fresh (db demo_world)
  /\ In bunjs_row (urls (db demo_world))
  /\ List.map Url.id
       (urls (db (@serve_all demo_platform [(bob_deletes "/api/urls/bunjs", 2000)]
                    demo_world)))
     = [2; 3]
  /\ List.map Url.id
       (urls (db (@serve_all demo_platform
                    [(json_post "/api/urls" (shorten_payload "https://example.com") [], 3000)]
                    (@serve_all demo_platform [(bob_deletes "/api/urls/bunjs", 2000)]
                       demo_world))))
     = [2; 3; 4]
  /\ ~ In (Url.id bunjs_row)
        (List.map Url.id
           (urls (db (@serve_all demo_platform
                        [(json_post "/api/urls" (shorten_payload "https://example.com") [],
                          3000)]
                        (@serve_all demo_platform [(bob_deletes "/api/urls/bunjs", 2000)]
                           demo_world))))).
Proof.
  assert (Hin : In bunjs_row (urls (db demo_world))) by (left; reflexivity).
  assert (Hgone : ~ In (Url.id bunjs_row)
                    (List.map Url.id
                       (urls (db (@serve_all demo_platform
                                    [(bob_deletes "/api/urls/bunjs", 2000)] demo_world))))).
  { vm_compute. intros [Heq | [Heq | []]]; discriminate. }
  split; [exact demo_url_ids_fresh|]. split; [exact Hin|].
  split; [vm_compute; reflexivity|]. split; [vm_compute; reflexivity|].
  destruct (@serve_keeps_url_ids demo_platform
              [(bob_deletes "/api/urls/bunjs", 2000)]
              [(json_post "/api/urls" (shorten_payload "https://example.com") [], 3000)]
              demo_world demo_url_ids_fresh) as (_ & _ & Hnever).
  exact (Hnever bunjs_row Hin Hgone).
Defined.

Lemma serve_keeps_users_unique_witness :
  users_unique (db two_users_world)
  /\ users_unique
       (db (@serve_all demo_platform
              [(json_post "/api/auth/register"
                  (register_payload "dave" "bob@example.com" "Dave12345") [], 2000);
               (json_post "/api/auth/register"
                  (register_payload "carol" "carol@example.com" "Carol1234") [], 3000)]
              two_users_world))
  /\ List.map User.username
       (users
          (db (@serve_all demo_platform
                 [(json_post "/api/auth/register"
                     (register_payload "dave" "bob@example.com" "Dave12345") [], 2000);
                  (json_post "/api/auth/register"
                     (register_payload "carol" "carol@example.com" "Carol1234") [], 3000)]
                 two_users_world)))
     = ["bob"; "alice"; "carol"].
Proof.
  assert (Hstart : users_unique (db two_users_world)).
  { split; apply (bool_decide_unpack _); vm_compute; exact I. }
  split; [exact Hstart|]. split; [|vm_compute; reflexivity].
  exact (@serve_keeps_users_unique demo_platform _ two_users_world Hstart).
Defined.

Lemma clicks_never_decrease_witness :
  url_ids_fresh (db demo_world)
  /\ In bunjs_row (urls (db demo_world))
  /\ In (Url.set_clicks 1 bunjs_row)
       (urls (db (@serve_all demo_platform [(get_request "/bunjs" [], 2000)] demo_world)))
  /\ Url.clicks bunjs_row <= Url.clicks (Url.set_clicks 1 bunjs_row).
Proof.
  assert (Hin : In bunjs_row (urls (db demo_world))) by (left; reflexivity).
  assert (Hafter : In (Url.set_clicks 1 bunjs_row)
                     (urls (db (@serve_all demo_platform [(get_request "/bunjs" [], 2000)]
                                  demo_world))))
    by (vm_compute; left; reflexivity).
  split; [exact demo_url_ids_fresh|]. split; [exact Hin|]. split; [exact Hafter|].
  exact (@clicks_never_decrease demo_platform _ demo_world bunjs_row
           (Url.set_clicks 1 bunjs_row) demo_url_ids_fresh Hin Hafter eq_refl).
Defined.

Lemma preflight_is_not_counted_witness :
  method (mkRequest "OPTIONS" "/api/urls" ∅ "") = "OPTIONS"
  /\ exists r : Response,
       @fetch demo_platform (mkRequest "OPTIONS" "/api/urls" ∅ "") full_world
       = (Returned r, full_world)
       /\ status r = 204.
Proof.
  split; [reflexivity|].
  destruct (@preflight_is_not_counted demo_platform (mkRequest "OPTIONS" "/api/urls" ∅ "")
              full_world eq_refl) as (r & Hrun & Hstatus & _).
  exists r. split; [exact Hrun | exact Hstatus].
Defined.

Lemma limited_request_changes_nothing_witness :
  String.eqb (method (from "1.2.3.4")) "OPTIONS" = false
  /\ rateLimitStore full_world !! client_ip (from "1.2.3.4") = Some (mkRateRecord 100 5000)
  /\ clock full_world < 5000
  /\ @parseInt demo_platform (JsString.or_else (@env demo_platform "API_RATE_LIMIT") "100")
     <= 100
  /\ Z.abs 5000 <= max_time_value
  /\ exists r : Response,
       @fetch demo_platform (from "1.2.3.4") full_world = (Returned r, full_world)
       /\ status r = 429.
Proof.
  assert (Hnow : clock full_world < resetAt (mkRateRecord 100 5000)) by (simpl; lia).
  assert (Hfull : @parseInt demo_platform
                    (JsString.or_else (@env demo_platform "API_RATE_LIMIT") "100")
                  <= count (mkRateRecord 100 5000)) by (simpl; lia).
  assert (Hrange : Z.abs (resetAt (mkRateRecord 100 5000)) <= max_time_value)
    by (vm_compute; discriminate).
  split; [reflexivity|]. split; [reflexivity|]. split; [exact Hnow|]. split; [exact Hfull|].
  split; [exact Hrange|].
  destruct (@limited_request_changes_nothing demo_platform (from "1.2.3.4") full_world
              (mkRateRecord 100 5000) eq_refl eq_refl Hnow Hfull Hrange)
    as (r & Hrun & Hstatus & _).
  exists r. split; [exact Hrun | exact Hstatus].
Defined.

Lemma serve_keeps_codes_unique_witness :
  codes_unique (db demo_world)
  /\ codes_unique
       (db (@serve_all demo_platform
              [(json_post "/api/urls" (shorten_payload "https://example.com") [], 2000);
               (get_request "/bunjs" [], 3000)]
              demo_world))
  /\ List.map Url.short_code
       (urls (db (@serve_all demo_platform
                    [(json_post "/api/urls" (shorten_payload "https://example.com") [], 2000);
                     (get_request "/bunjs" [], 3000)]
                    demo_world)))
     = ["bunjs"; "anon01"; "old123"; "abcdef"].
Proof.
  assert (Hunique : codes_unique (db demo_world)).
  { apply (bool_decide_unpack _). vm_compute. exact I. }
  split; [exact Hunique|]. split; [|vm_compute; reflexivity].
  exact (@serve_keeps_codes_unique demo_platform _ demo_world Hunique).
Defined.
